(** * WAC-Survey-Suite: the token validator ([src/validator.py])

    A shallow embedding of the [Validator] class and of the parts of
    Python and pandas it calls, followed by the properties of the
    pipeline Loader -> Column Repair -> Deduplicator -> Validator ->
    Emitter.

    Conventions.
    - A Python [str] is a [string]; a character is a code point below
      256.
    - pandas is the 1.x/2.x line the program was written against
      (2022-2023), without copy-on-write: a frame read by [read_csv] is
      consolidated, slices are views, and [iterrows] yields views of a
      frame that holds a single block.
    - The object [self] is a record threaded through every method; the
      logger and the file at [output_path] are recorded in it. *)

From Stdlib Require Import List String Ascii Bool Arith ZArith Lia.
From Stdlib Require Import DecimalString DecimalNat Sorted RelationClasses.
Import ListNotations.
Local Open Scope string_scope.
Local Open Scope list_scope.
Local Open Scope nat_scope.

Infix "+++" := String.append (right associativity, at level 60).

(** ** Python strings *)

Module PyStr.

(** [str.isspace] on one character (code points below 256). *)
Definition isspace (c : ascii) : bool :=
  let n := nat_of_ascii c in
  ((9 <=? n) && (n <=? 13)) || ((28 <=? n) && (n <=? 32))
  || (n =? 133) || (n =? 160).

Fixpoint lstrip (s : string) : string :=
  match s with
  | EmptyString => EmptyString
  | String c s' => if isspace c then lstrip s' else s
  end.

Fixpoint rstrip (s : string) : string :=
  match s with
  | EmptyString => EmptyString
  | String c s' =>
      match rstrip s' with
      | EmptyString => if isspace c then EmptyString else String c EmptyString
      | r => String c r
      end
  end.

(** [s.strip()] *)
Definition strip (s : string) : string := rstrip (lstrip s).

(** [not s] *)
Definition is_empty (s : string) : bool :=
  match s with EmptyString => true | _ => false end.

(** [needle in s] *)
Fixpoint contains (needle s : string) : bool :=
  prefix needle s
  || match s with
     | EmptyString => false
     | String _ s' => contains needle s'
     end.

Definition newline : ascii := ascii_of_nat 10.
Definition nl : string := String newline EmptyString.

(** [s.split('\n')] *)
Fixpoint split_nl (s : string) : list string :=
  match s with
  | EmptyString => [EmptyString]
  | String c s' =>
      if Ascii.eqb c newline then EmptyString :: split_nl s'
      else match split_nl s' with
           | h :: t => String c h :: t
           | [] => [String c EmptyString]
           end
  end.

(** [str(n)] for a natural number and for an integer. *)
Definition of_nat (n : nat) : string := NilEmpty.string_of_uint (Nat.to_uint n).
Definition of_Z (z : Z) : string := NilZero.string_of_int (Z.to_int z).

Definition is_digit (c : ascii) : bool :=
  let n := nat_of_ascii c in (48 <=? n) && (n <=? 57).

(** [sep.join(l)] *)
Fixpoint join (sep : string) (l : list string) : string :=
  match l with
  | [] => EmptyString
  | [x] => x
  | x :: rest => x +++ sep +++ join sep rest
  end.

(** [re.sub(r'(Unnamed: )[0-9]+', '', s)].  [digits_run s] is the
    length of the longest run of digits at the head of [s];
    [match_len s] is the length of the match of the pattern at the head
    of [s], if there is one.  [sub_from skip s] walks [s] once; [skip]
    counts the characters of the current match still to be dropped. *)
Definition unnamed_prefix : string := "Unnamed: ".

Fixpoint digits_run (s : string) : nat :=
  match s with
  | String c s' => if is_digit c then S (digits_run s') else 0
  | EmptyString => 0
  end.

Definition match_len (s : string) : option nat :=
  if prefix unnamed_prefix s then
    match digits_run (substring (String.length unnamed_prefix)
                                (String.length s - String.length unnamed_prefix) s) with
    | 0 => None
    | d => Some (String.length unnamed_prefix + d)
    end
  else None.

Fixpoint sub_from (skip : nat) (s : string) : string :=
  match s with
  | EmptyString => EmptyString
  | String c s' =>
      match skip with
      | S k => sub_from k s'
      | 0 => match match_len s with
             | Some n => sub_from (n - 1) s'
             | None => String c (sub_from 0 s')
             end
      end
  end.

Definition sub_unnamed (s : string) : string := sub_from 0 s.

Definition carriage : ascii := ascii_of_nat 13.

(** What [f.read()] returns for a file opened in text mode: a carriage
    return, alone or before a line feed, is read as a line feed. *)
Fixpoint universal_newlines (s : string) : string :=
  match s with
  | EmptyString => EmptyString
  | String c s' =>
      if Ascii.eqb c carriage then
        match s' with
        | String c' _ =>
            if Ascii.eqb c' newline then universal_newlines s'
            else String newline (universal_newlines s')
        | EmptyString => String newline EmptyString
        end
      else String c (universal_newlines s')
  end.

End PyStr.

(** ** Python exceptions and results *)

Module Py.

Inductive exn : Type :=
| SystemExit (code : Z)
| FileNotFoundError
| KeyError
| IndexError
| AttributeError
| TypeError
| ParserError
| EmptyDataError.

Inductive result (A : Type) : Type :=
| Ok (a : A)
| Raise (e : exn).
Arguments Ok {A} a.
Arguments Raise {A} e.

Definition rbind {A B} (r : result A) (k : A -> result B) : result B :=
  match r with
  | Ok a => k a
  | Raise e => Raise e
  end.

Fixpoint mapi_from {A B} (k : nat) (f : nat -> A -> B) (l : list A) : list B :=
  match l with
  | [] => []
  | x :: l' => f k x :: mapi_from (S k) f l'
  end.

(** [[f(i, x) for i, x in enumerate(l)]] *)
Definition mapi {A B} (f : nat -> A -> B) (l : list A) : list B :=
  mapi_from 0 f l.

Fixpoint update_nth {A} (n : nat) (f : A -> A) (l : list A) : list A :=
  match l, n with
  | [], _ => []
  | x :: l', 0 => f x :: l'
  | x :: l', S n' => x :: update_nth n' f l'
  end.

End Py.
Import Py.

(** ** pandas: frames, the reader and the writer *)

Module Pandas.

(** A cell of a frame: a Python [str], an [int64], or the NaN that
    stands for a missing value. *)
Inductive cell : Type :=
| CStr (s : string)
| CInt (z : Z)
| CNaN.

(** Equality of keys as [duplicated] groups them: missing values form
    one group. *)
Definition cell_eqb (a b : cell) : bool :=
  match a, b with
  | CStr s, CStr t => String.eqb s t
  | CInt x, CInt y => Z.eqb x y
  | CNaN, CNaN => true
  | _, _ => false
  end.

Definition is_object (c : cell) : bool :=
  match c with CInt _ => false | _ => true end.

(** A frame: the column names and the rows in table order, each row
    with its index label. *)
Record DataFrame : Type := {
  columns : list string;
  rows : list (nat * list cell)
}.

Definition empty_frame : DataFrame := {| columns := []; rows := [] |}.

(** [len(df)] *)
Definition len (df : DataFrame) : nat := List.length (rows df).

(** [df.iloc[k:]] *)
Definition iloc_from (k : nat) (df : DataFrame) : DataFrame :=
  {| columns := columns df; rows := skipn k (rows df) |}.

(** [df.index], the labels in table order. *)
Definition index (df : DataFrame) : list nat := map fst (rows df).

(** [columns.get_loc(name)] *)
Fixpoint get_loc (name : string) (cols : list string) : option nat :=
  match cols with
  | [] => None
  | c :: cols' =>
      if String.eqb name c then Some 0
      else option_map S (get_loc name cols')
  end.

(** [row[name]] for a row of a frame with columns [cols]; [name] is
    [None] when the program passes [None]. *)
Definition row_getitem (cols : list string) (row : list cell)
           (name : option string) : result cell :=
  match name with
  | None => Raise KeyError
  | Some nm =>
      match get_loc nm cols with
      | None => Raise KeyError
      | Some j => match nth_error row j with
                  | Some c => Ok c
                  | None => Raise KeyError
                  end
      end
  end.

(** [df[name]], one column as a list of cells. *)
Definition getitem (df : DataFrame) (name : option string) : result (list cell) :=
  match name with
  | None => Raise KeyError
  | Some nm =>
      match get_loc nm (columns df) with
      | None => Raise KeyError
      | Some j => Ok (map (fun r => nth j (snd r) CNaN) (rows df))
      end
  end.

(** [series.empty] *)
Definition empty {A} (s : list A) : bool :=
  match s with [] => true | _ => false end.

(** [series.iloc[i]] *)
Definition iloc {A} (s : list A) (i : nat) : result A :=
  match nth_error s i with
  | Some x => Ok x
  | None => Raise IndexError
  end.

(** [duplicated(keep='first')] over the keys of one column: a key is
    marked when an equal key stands earlier. *)
Fixpoint duplicated_from (seen keys : list cell) : list bool :=
  match keys with
  | [] => []
  | k :: ks => existsb (cell_eqb k) seen :: duplicated_from (k :: seen) ks
  end.

(** [df.empty]: one of the axes has length 0. *)
Definition frame_empty (df : DataFrame) : bool :=
  empty (rows df) || empty (columns df).

(** [df.duplicated(subset=[name], keep='first')]; an empty frame is
    answered before the column is looked up. *)
Definition duplicated (df : DataFrame) (name : string) : result (list bool) :=
  if frame_empty df then Ok []
  else rbind (getitem df (Some name)) (fun keys => Ok (duplicated_from [] keys)).

(** [l[mask]], selection by a boolean mask. *)
Fixpoint mask_select {A} (mask : list bool) (l : list A) : list A :=
  match mask, l with
  | b :: mask', x :: l' =>
      if b then x :: mask_select mask' l' else mask_select mask' l'
  | _, _ => []
  end.

(** [df[mask]] *)
Definition getitem_mask (df : DataFrame) (mask : list bool) : DataFrame :=
  {| columns := columns df; rows := mask_select mask (rows df) |}.

(** [df.drop_duplicates(subset=[name], keep='first', ignore_index=False)]:
    pandas computes it as [df[-df.duplicated(...)]], an empty frame
    apart; labels are kept. *)
Definition drop_duplicates (df : DataFrame) (name : string) : result DataFrame :=
  if frame_empty df then Ok df
  else rbind (duplicated df name) (fun m => Ok (getitem_mask df (map negb m))).

(** [df.drop(label, axis=0)] *)
Definition drop_label (label : nat) (df : DataFrame) : result DataFrame :=
  if existsb (Nat.eqb label) (index df) then
    Ok {| columns := columns df;
          rows := filter (fun r => negb (Nat.eqb label (fst r))) (rows df) |}
  else Raise KeyError.

(** [df.drop([name], axis=1)]: a new frame without the column; the
    receiver is left as it is. *)
Definition drop_column (name : string) (df : DataFrame) : result DataFrame :=
  match get_loc name (columns df) with
  | None => Raise KeyError
  | Some _ =>
      let keep := map (fun c => negb (String.eqb name c)) (columns df) in
      Ok {| columns := mask_select keep (columns df);
            rows := map (fun r => (fst r, mask_select keep (snd r))) (rows df) |}
  end.

(** A frame whose columns all have dtype object is one block; an
    [int64] column is a block of its own. *)
Definition is_single_block (df : DataFrame) : bool :=
  forallb (fun r => forallb is_object (snd r)) (rows df).

(** Store [c] at row position [pos], column position [j]. *)
Definition set_cell (pos j : nat) (c : cell) (df : DataFrame) : DataFrame :=
  {| columns := columns df;
     rows := update_nth pos
               (fun r => (fst r, update_nth j (fun _ => c) (snd r)))
               (rows df) |}.

(** [c.strip()], [len(c)] and [c + '\n'] on the value of a cell: only a
    [str] has them. *)
Definition str_strip (c : cell) : result string :=
  match c with
  | CStr s => Ok (PyStr.strip s)
  | _ => Raise AttributeError
  end.

Definition py_len (c : cell) : result nat :=
  match c with
  | CStr s => Ok (String.length s)
  | _ => Raise TypeError
  end.

Definition add_newline (c : cell) : result string :=
  match c with
  | CStr s => Ok (s +++ PyStr.nl)
  | _ => Raise TypeError
  end.

(** *** [read_csv] *)

(** The file as the tokenizer hands it over: the header fields and the
    fields of each record. *)
Record csv : Type := {
  header : list string;
  records : list (list string)
}.

(** A header field left empty is named after its position. *)
Definition column_name (i : nat) (h : string) : string :=
  if PyStr.is_empty h then "Unnamed: " +++ PyStr.of_nat i else h.

(** A record shorter than the header is filled with empty fields. *)
Definition pad (n : nat) (fields : list string) : list string :=
  fields ++ repeat EmptyString (n - List.length fields).

Definition raw_column (j : nat) (grid : list (list string)) : list string :=
  map (fun r => nth j r EmptyString) grid.

Section Reader.

(** The type inference pandas applies to a column that has no
    converter: from the texts of the column to its cells. *)
Variable infer : list string -> list cell.

(** [read_csv(path, converters={i: str for i in range(nconv)})].
    [None] is a path with no file.  The model is that of a file whose
    column names, once the nameless ones are numbered, are all
    different, and in which no record is wider than the header: it
    keeps a repeated name as it is, where pandas renames it ([name],
    [name.1]), and it refuses every wider record, where pandas takes
    the first field for the index when every record has one field
    more than the header. *)
Definition read_csv (nconv : nat) (file : option csv) : result DataFrame :=
  match file with
  | None => Raise FileNotFoundError
  | Some f =>
      match header f with
      | [] => Raise EmptyDataError
      | _ =>
          let n := List.length (header f) in
          if forallb (fun r => List.length r <=? n) (records f) then
            let grid := map (pad n) (records f) in
            Ok {| columns := mapi column_name (header f);
                  rows := mapi (fun i r =>
                            (i, mapi (fun j x =>
                                  if j <? nconv then CStr x
                                  else nth i (infer (raw_column j grid)) CNaN) r))
                          grid |}
          else Raise ParserError
      end
  end.

End Reader.

(** The integer case of the inference, and the object case with its
    missing values.  A text is read as an integer when it is made of
    digits, after an optional minus sign, and its value fits [int64].
    (A leading plus sign, blanks around the number, and the columns
    pandas would read as uint64, float64 or bool have no counterpart
    here and stay text.) *)
Fixpoint digits_value (acc : Z) (s : string) : Z :=
  match s with
  | EmptyString => acc
  | String c s' => digits_value (10 * acc + Z.of_nat (nat_of_ascii c - 48))%Z s'
  end.

Definition parse_int (s : string) : Z :=
  match s with
  | String c s' => if Ascii.eqb c "-" then (- digits_value 0 s')%Z
                   else digits_value 0 s
  | EmptyString => 0%Z
  end.

Definition is_int_literal (s : string) : bool :=
  let body := match s with
              | String c s' => if Ascii.eqb c "-" then s' else s
              | EmptyString => s
              end in
  (1 <=? String.length body)
  && (PyStr.digits_run body =? String.length body)
  && (- 2 ^ 63 <=? parse_int s)%Z && (parse_int s <=? 2 ^ 63 - 1)%Z.

Definition na_values : list string :=
  [""; "#N/A"; "#N/A N/A"; "#NA"; "-1.#IND"; "-1.#QNAN"; "-NaN"; "-nan";
   "1.#IND"; "1.#QNAN"; "<NA>"; "N/A"; "NA"; "NULL"; "NaN"; "None"; "n/a";
   "nan"; "null"].

Definition infer_dtype (raw : list string) : list cell :=
  if forallb is_int_literal raw then map (fun s => CInt (parse_int s)) raw
  else map (fun s => if existsb (String.eqb s) na_values then CNaN else CStr s) raw.

(** *** [to_csv] *)

Definition dquote : ascii := ascii_of_nat 34.
Definition comma : ascii := ascii_of_nat 44.

Fixpoint needs_quote (s : string) : bool :=
  match s with
  | EmptyString => false
  | String c s' =>
      Ascii.eqb c comma || Ascii.eqb c dquote || Ascii.eqb c PyStr.newline
      || needs_quote s'
  end.

Fixpoint double_quotes (s : string) : string :=
  match s with
  | EmptyString => EmptyString
  | String c s' =>
      if Ascii.eqb c dquote then String c (String c (double_quotes s'))
      else String c (double_quotes s')
  end.

(** One field under [QUOTE_MINIMAL]. *)
Definition csv_field (s : string) : string :=
  if needs_quote s
  then String dquote (double_quotes s +++ String dquote EmptyString)
  else s.

(** One line of the writer; a record made of a single empty field is
    written as a pair of quotes. *)
Definition csv_row (fields : list string) : string :=
  match fields with
  | [EmptyString] => String dquote (String dquote PyStr.nl)
  | _ => PyStr.join (String comma EmptyString) (map csv_field fields) +++ PyStr.nl
  end.

Definition cell_text (c : cell) : string :=
  match c with
  | CStr s => s
  | CInt z => PyStr.of_Z z
  | CNaN => EmptyString
  end.

(** The text [df.to_csv(path, sep=',', index=False, encoding='utf-8')]
    writes. *)
Definition to_csv (df : DataFrame) : string :=
  csv_row (columns df)
  +++ String.concat EmptyString
        (map (fun r => csv_row (map cell_text (snd r))) (rows df)).

End Pandas.
Import Pandas.

(** ** The class [Validator] *)

Module Validator.

Definition ID_FIELD : string := "Respondent ID".
Definition WCA_TOKEN_FIELD : string := "wca_token".
Definition WCA_TOKEN_LEN : nat := 64.
Definition DATE_FIELD : string := "Start Date".
Definition MAX_COLUMNS : nat := 400.

(** The severities of the logger: [lverbose], [linfo], [lwarn], [lerr]. *)
Inductive level : Type := Verbose | Info | Warn | Err.

(** The attributes of [self], then the two collaborators the methods
    act on: the calls the logger has received, oldest first, and the
    file at [output_path] ([None] while nothing has been written). *)
Record self : Type := mkself {
  token_list : list string;
  list_only : bool;
  total_responses : Z;
  deleted : nat;
  to_delete : list cell;
  df : DataFrame;
  bad_token_column : option string;
  logger : list (level * string);
  output : option string
}.

(** [__init__] *)
Definition init (list_only_arg : bool) : self :=
  {| token_list := []; list_only := list_only_arg; total_responses := (-1)%Z;
     deleted := 0; to_delete := []; df := empty_frame;
     bad_token_column := None; logger := []; output := None |}.

Definition set_token_list (x : list string) (s : self) : self :=
  mkself x (list_only s) (total_responses s) (deleted s) (to_delete s)
         (df s) (bad_token_column s) (logger s) (output s).
Definition set_total_responses (x : Z) (s : self) : self :=
  mkself (token_list s) (list_only s) x (deleted s) (to_delete s)
         (df s) (bad_token_column s) (logger s) (output s).
Definition set_deleted (x : nat) (s : self) : self :=
  mkself (token_list s) (list_only s) (total_responses s) x (to_delete s)
         (df s) (bad_token_column s) (logger s) (output s).
Definition set_to_delete (x : list cell) (s : self) : self :=
  mkself (token_list s) (list_only s) (total_responses s) (deleted s) x
         (df s) (bad_token_column s) (logger s) (output s).
Definition set_df (x : DataFrame) (s : self) : self :=
  mkself (token_list s) (list_only s) (total_responses s) (deleted s)
         (to_delete s) x (bad_token_column s) (logger s) (output s).
Definition set_bad_token_column (x : option string) (s : self) : self :=
  mkself (token_list s) (list_only s) (total_responses s) (deleted s)
         (to_delete s) (df s) x (logger s) (output s).
Definition set_logger (x : list (level * string)) (s : self) : self :=
  mkself (token_list s) (list_only s) (total_responses s) (deleted s)
         (to_delete s) (df s) (bad_token_column s) x (output s).
Definition set_output (x : option string) (s : self) : self :=
  mkself (token_list s) (list_only s) (total_responses s) (deleted s)
         (to_delete s) (df s) (bad_token_column s) (logger s) x.

(** *** Methods as state transformers that may raise

    A method maps [self] to its result and the [self] it leaves
    behind; what was done before an exception stays done. *)
Definition M (A : Type) : Type := self -> result A * self.

Definition ret {A} (a : A) : M A := fun s => (Ok a, s).

Definition bind {A B} (m : M A) (k : A -> M B) : M B :=
  fun s => match m s with
           | (Ok a, s') => k a s'
           | (Raise e, s') => (Raise e, s')
           end.

Definition raise {A} (e : exn) : M A := fun s => (Raise e, s).

Definition lift {A} (r : result A) : M A := fun s => (r, s).

Definition get : M self := fun s => (Ok s, s).

Definition modify (f : self -> self) : M unit := fun s => (Ok tt, f s).

(** [try: m  except <handled>: h] *)
Definition try_except {A} (m : M A) (handled : exn -> bool) (h : M A) : M A :=
  fun s => match m s with
           | (Raise e, s') => if handled e then h s' else (Raise e, s')
           | r => r
           end.

Fixpoint for_each {X} (l : list X) (body : X -> M unit) : M unit :=
  match l with
  | [] => ret tt
  | x :: l' => bind (body x) (fun _ => for_each l' body)
  end.

Declare Scope py_scope.
Delimit Scope py_scope with py.
Notation "x <- m ;; k" := (bind m (fun x => k))
  (at level 61, m at next level, right associativity) : py_scope.
Notation "m ;; k" := (bind m (fun _ => k))
  (at level 61, right associativity) : py_scope.
Local Open Scope py_scope.

Definition log (l : level) (msg : string) : M unit :=
  modify (fun s => set_logger (logger s ++ [(l, msg)]) s).
Definition lverbose := log Verbose.
Definition linfo := log Info.
Definition lwarn := log Warn.
Definition lerr := log Err.

(** The truth value of an attribute that is [None] or a [str]. *)
Definition truthy (o : option string) : bool :=
  match o with
  | Some (String _ _) => true
  | _ => false
  end.

(** [list(enumerate(l))] *)
Definition enumerate {A} (l : list A) : list (nat * A) :=
  mapi (fun i x => (i, x)) l.

Definition is_valid (token : string) : M bool :=
  s <- get ;;
  ret (existsb (String.eqb token) (token_list s)).

Definition delete_older_duplicates (list_only_arg : bool) : M (option (list bool)) :=
  s <- get ;;
  if list_only_arg then
    duplicates <- lift (duplicated (df s) WCA_TOKEN_FIELD) ;;
    ret (Some duplicates)
  else
    d <- lift (drop_duplicates (df s) WCA_TOKEN_FIELD) ;;
    modify (set_df d) ;;
    ret None.

(** [row[name] = c] on the row at position [pos] that [iterrows]
    yielded.  [iterrows] builds each row on [self.values]: for a frame
    that is one block this array is the block itself, so the row shares
    the cells of the frame and the assignment reaches the frame ([view]
    holds); for a frame of several blocks the array is a fresh one and
    the assignment is lost with the row. *)
Definition row_setitem (view : bool) (pos : nat) (name : string) (c : cell) : M unit :=
  s <- get ;;
  match get_loc name (columns (df s)) with
  | Some j => if view then modify (set_df (set_cell pos j c (df s))) else ret tt
  | None => ret tt
  end.

(** The body of the loop of [fix_token_position], for the row at
    position [k] of [self.df.iloc[1:]]; [cols] are the columns of the
    frame and [view] tells whether [iterrows] yields views. *)
Definition fix_token_position_body (cols : list string) (view : bool)
           (item : nat * (nat * list cell)) : M unit :=
  let '(k, (index, row)) := item in
  c <- lift (row_getitem cols row (Some WCA_TOKEN_FIELD)) ;;
  token <- lift (str_strip c) ;;
  if PyStr.is_empty token then
    s <- get ;;
    b <- lift (row_getitem cols row (bad_token_column s)) ;;
    n <- lift (py_len b) ;;
    if n =? WCA_TOKEN_LEN then
      t <- lift (str_strip b) ;;
      row_setitem view (1 + k) WCA_TOKEN_FIELD (CStr t)
    else ret tt
  else ret tt.

Definition fix_token_position : M unit :=
  s <- get ;;
  let frame := iloc_from 1 (df s) in
  for_each (enumerate (rows frame))
           (fix_token_position_body (columns frame) (is_single_block (df s))).

Definition _delete (index : nat) : M unit :=
  lverbose ("#" +++ PyStr.of_nat index +++ " >> deleted") ;;
  s <- get ;;
  d <- lift (drop_label index (df s)) ;;
  modify (set_df d) ;;
  modify (fun s => set_deleted (deleted s + 1) s).

Definition fix_headers : M unit :=
  s <- get ;;
  match output s with
  | None => raise FileNotFoundError
  | Some written =>
      let content := PyStr.universal_newlines written in
      let content := PyStr.sub_unnamed content in
      modify (set_output (Some content))
  end.

(** The body of the validation loop of [run_delete]. *)
Definition validate_delete_body (cols : list string)
           (item : nat * list cell) : M unit :=
  let '(index, row) := item in
  c <- lift (row_getitem cols row (Some WCA_TOKEN_FIELD)) ;;
  token <- lift (str_strip c) ;;
  valid <- is_valid token ;;
  if negb valid || PyStr.is_empty token then
    linfo ("#" +++ PyStr.of_nat index +++ " >> Invalid token") ;;
    _delete index
  else
    lverbose ("#" +++ PyStr.of_nat index +++ " >> OK").

(** The validation pass of [run_delete]: the loop over
    [self.df.iloc[1:].iterrows()]. *)
Definition validate_delete : M unit :=
  s <- get ;;
  let frame := iloc_from 1 (df s) in
  for_each (rows frame) (validate_delete_body (columns frame)).

(** The deduplication pass of [run_delete]. *)
Definition delete_duplicates : M unit :=
  linfo "Checking responses with duplicated tokens..." ;;
  s <- get ;;
  let previous_amount := len (df s) in
  delete_older_duplicates false ;;
  s <- get ;;
  let new_amount := len (df s) in
  let duplicates_deleted := previous_amount - new_amount in
  modify (fun s => set_deleted (deleted s + duplicates_deleted) s) ;;
  linfo ("Removed " +++ PyStr.of_nat duplicates_deleted +++ " duplicates.").

(** The end of [run_delete]: the overflow column, the file, its
    header.  The frame [drop] returns is not bound to anything. *)
Definition write_csv : M unit :=
  s <- get ;;
  (if truthy (bad_token_column s) then
     col <- lift (getitem (df s) (bad_token_column s)) ;;
     (if negb (empty col)
      then lwarn "bad_token_column is not empty. Dropping anyway..."
      else ret tt) ;;
     match bad_token_column s with
     | Some name => lift (drop_column name (df s)) ;; ret tt
     | None => raise KeyError
     end
   else ret tt) ;;
  s <- get ;;
  modify (set_output (Some (to_csv (df s)))) ;;
  linfo "Fixing headers..." ;;
  fix_headers.

Definition run_delete : M unit :=
  linfo "Fixing columns..." ;;
  s <- get ;;
  (if truthy (bad_token_column s) then fix_token_position else ret tt) ;;
  delete_duplicates ;;
  linfo "Validating responses..." ;;
  validate_delete ;;
  write_csv.

(** The body of the validation loop of [run_list]. *)
Definition validate_list_body (cols : list string)
           (item : nat * list cell) : M unit :=
  let '(index, row) := item in
  c <- lift (row_getitem cols row (Some WCA_TOKEN_FIELD)) ;;
  token <- lift (str_strip c) ;;
  valid <- is_valid token ;;
  if negb valid || PyStr.is_empty token then
    (if negb (PyStr.is_empty token)
     then linfo ("#" +++ PyStr.of_nat index +++ " >> Invalid token")
     else ret tt) ;;
    s <- get ;;
    ids <- lift (getitem (df s) (Some ID_FIELD)) ;;
    elem <- lift (iloc ids index) ;;
    modify (fun s => set_to_delete (to_delete s ++ [elem]) s)
  else
    lverbose ("#" +++ PyStr.of_nat index +++ " >> OK").

(** The validation pass of [run_list]. *)
Definition validate_list : M unit :=
  s <- get ;;
  let frame := iloc_from 1 (df s) in
  for_each (rows frame) (validate_list_body (columns frame)).

(** [[elem for index, elem in enumerate(l) if not elem in l[:index]]];
    [in] finds a missing value of an object column too, by identity. *)
Definition clean (l : list cell) : list cell :=
  map snd (filter (fun '(i, elem) => negb (existsb (cell_eqb elem) (firstn i l)))
                  (enumerate l)).

(** The duplicate-detection pass of [run_list]. *)
Definition list_duplicates : M unit :=
  linfo "Checking responses with duplicated tokens..." ;;
  duplicates <- delete_older_duplicates true ;;
  s <- get ;;
  ids <- match duplicates with
         | Some mask => lift (getitem (getitem_mask (df s) mask) (Some ID_FIELD))
         | None => raise KeyError
         end ;;
  modify (set_to_delete ids) ;;
  linfo ("Found " +++ PyStr.of_nat (List.length ids) +++ " duplicates.").

(** The end of [run_list]: the check of the overflow column, the
    cleaned list, the file. *)
Definition write_list : M unit :=
  s <- get ;;
  col <- lift (getitem (df s) (bad_token_column s)) ;;
  (if negb (empty col) then lwarn "bad_token_column is not empty." else ret tt) ;;
  s <- get ;;
  let clean_to_delete := clean (to_delete s) in
  modify (set_output (Some EmptyString)) ;;
  for_each clean_to_delete (fun elem =>
    line <- lift (add_newline elem) ;;
    modify (fun s => set_output (option_map (fun f => f +++ line) (output s)) s)) ;;
  modify (set_deleted (List.length clean_to_delete)).

Definition run_list : M unit :=
  linfo "Fixing columns..." ;;
  s <- get ;;
  (if truthy (bad_token_column s) then fix_token_position else ret tt) ;;
  list_duplicates ;;
  linfo "Validating responses..." ;;
  validate_list ;;
  write_list.

Section Run.

Variable infer : list string -> list cell.

(** [run(input_path, output_path)]: [input_path] and [tokens_path]
    stand for the files found there, the survey as the tokenizer
    reads it and the token list as [f.read()] returns it; [None] is
    a missing file. *)
Definition run (input_path : option csv) (tokens_path : option string) : M unit :=
  lverbose "Opening files..." ;;
  d <- try_except (lift (read_csv infer MAX_COLUMNS input_path))
         (fun e => match e with FileNotFoundError => true | _ => false end)
         (lerr "Survey file not found." ;; raise (SystemExit 1)) ;;
  modify (set_df d) ;;
  text <- match tokens_path with
          | Some text => ret text
          | None => raise FileNotFoundError
          end ;;
  modify (set_token_list (PyStr.split_nl text)) ;;
  modify (fun s => set_total_responses (Z.of_nat (len (df s)) - 1)%Z s) ;;
  s <- get ;;
  name <- match rev (columns (df s)) with
          | name :: _ => ret name
          | [] => raise IndexError
          end ;;
  modify (set_bad_token_column (Some name)) ;;
  (if negb (PyStr.contains "Unnamed" name)
   then modify (set_bad_token_column None)
   else ret tt) ;;
  s <- get ;;
  if list_only s then run_list else run_delete.

End Run.

End Validator.
Import Validator.

(** ** Vocabulary of the statements *)

(** The cell of row [r] in the column at position [j], as [df[name]]
    reads it. *)
Definition token_at (j : nat) (r : nat * list cell) : cell :=
  nth j (snd r) CNaN.

(** Rows whose cell at position [j] is [t]. *)
Definition with_token (j : nat) (t : cell) (l : list (nat * list cell)) :
  list (nat * list cell) :=
  filter (fun r => cell_eqb (token_at j r) t) l.

Definition is_str (c : cell) : bool :=
  match c with CStr _ => true | _ => false end.

(** A frame as the Loader promises it: every row has one cell per
    column and every cell is a [str]. *)
Definition strings_frame (d : DataFrame) : bool :=
  forallb (fun r => (List.length (snd r) =? List.length (columns d))
                    && forallb is_str (snd r))
          (rows d).

(** [s] is empty or made of whitespace only. *)
Fixpoint whitespace_only (s : string) : bool :=
  match s with
  | EmptyString => true
  | String c s' => PyStr.isspace c && whitespace_only s'
  end.

(** The loop of [fix_token_position] seen from one row of a frame of
    strings whose rows are views: the row it leaves behind. *)
Definition repair (cols : list string) (bad : option string)
           (r : nat * list cell) : nat * list cell :=
  match get_loc WCA_TOKEN_FIELD cols,
        row_getitem cols (snd r) (Some WCA_TOKEN_FIELD),
        row_getitem cols (snd r) bad with
  | Some j, Ok (CStr tok), Ok (CStr ov) =>
      if PyStr.is_empty (PyStr.strip tok) && (String.length ov =? WCA_TOKEN_LEN)
      then (fst r, update_nth j (fun _ => CStr (PyStr.strip ov)) (snd r))
      else r
  | _, _, _ => r
  end.

(** The test of the Validator on one row: the trimmed token is a
    member of [toks] and is not empty. *)
Definition passes (cols : list string) (toks : list string)
           (r : nat * list cell) : bool :=
  match row_getitem cols (snd r) (Some WCA_TOKEN_FIELD) with
  | Ok (CStr t) =>
      existsb (String.eqb (PyStr.strip t)) toks
      && negb (PyStr.is_empty (PyStr.strip t))
  | _ => false
  end.

(** The position of the first occurrence of [x] in [l]. *)
Fixpoint first_pos (x : cell) (l : list cell) : option nat :=
  match l with
  | [] => None
  | y :: l' => if cell_eqb x y then Some 0 else option_map S (first_pos x l')
  end.

(** The text of a file made of the lines [ids]. *)
Definition lines (ids : list string) : string :=
  String.concat EmptyString (map (fun i => i +++ PyStr.nl) ids).

(** [respects R m]: the state [m] leaves behind is related by [R] to
    the state it started from, whatever the result. *)
Definition respects {A} (R : self -> self -> Prop) (m : M A) : Prop :=
  forall s, R s (snd (m s)).

(** [d'] has the columns, the labels and the row order of [d]; its
    first row is that of [d], and a cell of [d'] differs from the cell of
    [d] at most in the primary token column. *)
Definition same_but_token (d d' : DataFrame) : Prop :=
  columns d' = columns d
  /\ hd_error (rows d') = hd_error (rows d)
  /\ Forall2 (fun r r' =>
                fst r' = fst r
                /\ List.length (snd r') = List.length (snd r)
                /\ forall j, get_loc WCA_TOKEN_FIELD (columns d) <> Some j ->
                             nth_error (snd r') j = nth_error (snd r) j)
             (rows d) (rows d').

Definition same_columns (s s' : self) : Prop :=
  columns (df s') = columns (df s).

Definition same_bad_token_column (s s' : self) : Prop :=
  bad_token_column s' = bad_token_column s.

Definition frame_but_token (s s' : self) : Prop :=
  same_but_token (df s) (df s').

Definition same_frame (s s' : self) : Prop :=
  df s' = df s /\ bad_token_column s' = bad_token_column s.

Definition to_delete_grows (s s' : self) : Prop :=
  exists fails, to_delete s' = to_delete s ++ fails.

(** The state [run] hands to [run_list] or [run_delete]: the frame [d]
    read from the survey file, the lines of the token file [text], and
    the name [name] of the last column kept when it holds the
    placeholder. *)
Definition loaded (s0 : self) (d : DataFrame) (text : string) (name : string) : self :=
  set_bad_token_column
    (if PyStr.contains "Unnamed" name then Some name else None)
    (set_total_responses (Z.of_nat (len d) - 1)%Z
       (set_token_list (PyStr.split_nl text)
          (set_df d
             (set_logger (logger s0 ++ [(Verbose, "Opening files...")]) s0)))).

(** A state in which delete mode can run to its end: a frame of
    strings with distinct labels and a token column, and an overflow
    column that, when one was detected, is a column of the frame. *)
Definition ready (s : self) : Prop :=
  strings_frame (df s) = true
  /\ NoDup (index (df s))
  /\ (exists j, get_loc WCA_TOKEN_FIELD (columns (df s)) = Some j)
  /\ (forall name, bad_token_column s = Some name ->
                   exists jb, get_loc name (columns (df s)) = Some jb).

(** A state in which list mode can run to its end: moreover the labels
    are the positions, the frame has an identifier column, and an
    overflow column was detected. *)
Definition ready_list (s : self) : Prop :=
  ready s
  /\ index (df s) = seq 0 (len (df s))
  /\ (exists jid, get_loc ID_FIELD (columns (df s)) = Some jid)
  /\ (exists name, bad_token_column s = Some name).

(** ** Sample inputs *)

Definition A64 : string :=
  "AAAAAAAAAAAAAAAAAAAAAAAAAAAAAAAAAAAAAAAAAAAAAAAAAAAAAAAAAAAAAAAA".
Definition B64 : string :=
  "BBBBBBBBBBBBBBBBBBBBBBBBBBBBBBBBBBBBBBBBBBBBBBBBBBBBBBBBBBBBBBBB".

(** A survey with a trailing column that has no name: one respondent
    typed the token into it. *)
Definition survey_with_overflow : csv :=
  {| header := ["Respondent ID"; "wca_token"; ""];
     records := [["Response ID"; "Token"; ""];
                 ["1"; A64; ""];
                 ["2"; A64; ""];
                 ["3"; ""; ""];
                 ["4"; "short"; ""];
                 ["5"; " "; B64];
                 ["6"; ""; ""]] |}.

(** The same survey without the trailing column. *)
Definition survey_without_overflow : csv :=
  {| header := ["Respondent ID"; "wca_token"];
     records := [["Response ID"; "Token"];
                 ["1"; A64];
                 ["2"; A64];
                 ["3"; ""];
                 ["4"; "short"]] |}.

(** A token file of two lines, each ended by a line feed. *)
Definition token_file : string :=
  A64 +++ PyStr.nl +++ B64 +++ PyStr.nl.

(** A survey of 401 columns whose cells all read [007]. *)
Definition wide_survey : csv :=
  {| header := map (fun i => "c" +++ PyStr.of_nat i) (seq 0 401);
     records := [repeat "007" 401] |}.

(** The frame of [survey_with_overflow] and a [self] that holds it at
    the start of [run_list] or [run_delete]. *)
Definition sample_frame : DataFrame :=
  {| columns := ["Respondent ID"; "wca_token"; "Unnamed: 2"];
     rows := [(0, [CStr "Response ID"; CStr "Token"; CStr ""]);
              (1, [CStr "1"; CStr A64; CStr ""]);
              (2, [CStr "2"; CStr A64; CStr ""]);
              (3, [CStr "3"; CStr ""; CStr ""]);
              (4, [CStr "4"; CStr "short"; CStr ""]);
              (5, [CStr "5"; CStr " "; CStr B64]);
              (6, [CStr "6"; CStr ""; CStr ""])] |}.

Definition sample_self (list_only_arg : bool) : self :=
  loaded (init list_only_arg) sample_frame token_file "Unnamed: 2".

(** The frame of [survey_without_overflow] at the start of [run_list]. *)
Definition plain_frame : DataFrame :=
  {| columns := ["Respondent ID"; "wca_token"];
     rows := [(0, [CStr "Response ID"; CStr "Token"]);
              (1, [CStr "1"; CStr A64]);
              (2, [CStr "2"; CStr A64]);
              (3, [CStr "3"; CStr ""]);
              (4, [CStr "4"; CStr "short"])] |}.

Definition plain_self : self :=
  loaded (init true) plain_frame token_file "wca_token".

(** A frame whose first row has an empty token, like two later rows. *)
Definition blank_frame : DataFrame :=
  {| columns := ["Respondent ID"; "wca_token"];
     rows := [(0, [CStr "Response ID"; CStr ""]);
              (1, [CStr "1"; CStr A64]);
              (2, [CStr "2"; CStr ""]);
              (3, [CStr "3"; CStr ""])] |}.

Definition blank_self (list_only_arg : bool) : self :=
  loaded (init list_only_arg) blank_frame token_file "wca_token".

(** ** The passes as functions on frames *)

(** What Column Repair makes of a frame of strings: when an overflow
    column was detected, every row after the first is repaired. *)
Definition repair_frame (bad : option string) (d : DataFrame) : DataFrame :=
  if truthy bad then
    {| columns := columns d;
       rows := match rows d with
               | [] => []
               | r0 :: rest => r0 :: map (repair (columns d) bad) rest
               end |}
  else d.

(** The mask of the Deduplicator over the token column of [d]. *)
Definition token_mask (d : DataFrame) : list bool :=
  match get_loc WCA_TOKEN_FIELD (columns d) with
  | Some j => duplicated_from [] (map (token_at j) (rows d))
  | None => []
  end.

(** What the Deduplicator of delete mode leaves of [d]. *)
Definition dedup_frame (d : DataFrame) : DataFrame :=
  getitem_mask d (map negb (token_mask d)).

(** What the validation pass of delete mode leaves of [d]: the first
    row, and the later rows that pass. *)
Definition validated_frame (toks : list string) (d : DataFrame) : DataFrame :=
  {| columns := columns d;
     rows := match rows d with
             | [] => []
             | r0 :: rest => r0 :: filter (passes (columns d) toks) rest
             end |}.

(** The identifiers of the rows [l], read in the column at position
    [jid]. *)
Definition ids_of (jid : nat) (l : list (nat * list cell)) : list cell :=
  map (token_at jid) l.

(** The identifiers list mode collects from [d]: those of the rows the
    mask marks, then those of the rows after the first that fail. *)
Definition flagged_ids (jid : nat) (toks : list string) (d : DataFrame) : list cell :=
  ids_of jid (mask_select (token_mask d) (rows d))
  ++ ids_of jid (filter (fun r => negb (passes (columns d) toks r))
                        (skipn 1 (rows d))).

(** ** More sample inputs *)

(** A table in which every token is valid and no token is repeated. *)
Definition tidy_frame : DataFrame :=
  {| columns := ["Respondent ID"; "wca_token"; "Unnamed: 2"];
     rows := [(0, [CStr "Response ID"; CStr "Token"; CStr ""]);
              (1, [CStr "1"; CStr A64; CStr ""]);
              (2, [CStr "2"; CStr B64; CStr ""])] |}.

Definition tidy_self : self :=
  loaded (init false) tidy_frame token_file "Unnamed: 2".

(** A table without the column [wca_token]. *)
Definition tokenless_frame : DataFrame :=
  {| columns := ["Respondent ID"; "Unnamed: 1"];
     rows := [(0, [CStr "Response ID"; CStr ""]);
              (1, [CStr "1"; CStr A64])] |}.

Definition tokenless_self : self :=
  loaded (init false) tokenless_frame token_file "Unnamed: 1".

(** A table without the column [Respondent ID]. *)
Definition nameless_frame : DataFrame :=
  {| columns := ["wca_token"; "Unnamed: 1"];
     rows := [(0, [CStr "Token"; CStr ""]);
              (1, [CStr A64; CStr ""]);
              (2, [CStr A64; CStr ""])] |}.

Definition nameless_self : self :=
  loaded (init true) nameless_frame token_file "Unnamed: 1".

(** A state whose output file holds a text without placeholder. *)
Definition written_self : self :=
  set_output (Some (lines ["Respondent ID,wca_token"; "1,abc"])) (init false).

(** * Properties *)

(** ** Cells *)

Lemma cell_eqb_eq (a b : cell) : cell_eqb a b = true <-> a = b.
Proof.
  destruct a, b; simpl; split; intro H; try discriminate; try reflexivity.
  - apply String.eqb_eq in H. now subst.
  - inversion H. apply String.eqb_refl.
  - apply Z.eqb_eq in H. now subst.
  - inversion H. apply Z.eqb_refl.
Qed.

Lemma cell_eqb_refl (a : cell) : cell_eqb a a = true.
Proof. now apply cell_eqb_eq. Qed.

Lemma cell_eqb_sym (a b : cell) : cell_eqb a b = cell_eqb b a.
Proof.
  destruct (cell_eqb a b) eqn:E.
  - apply cell_eqb_eq in E. subst. symmetry. apply cell_eqb_refl.
  - destruct (cell_eqb b a) eqn:E'; [|reflexivity].
    apply cell_eqb_eq in E'. subst. now rewrite cell_eqb_refl in E.
Qed.

Lemma existsb_cell_In (k : cell) (l : list cell) :
  existsb (cell_eqb k) l = true <-> In k l.
Proof.
  rewrite existsb_exists. split.
  - intros [x [Hx E]]. apply cell_eqb_eq in E. now subst.
  - intro H. exists k. split; [assumption | apply cell_eqb_refl].
Qed.

(** ** The Deduplicator on lists *)

Lemma duplicated_from_length (keys seen : list cell) :
  List.length (duplicated_from seen keys) = List.length keys.
Proof.
  revert seen. induction keys as [|k ks IH]; intro seen; simpl; [reflexivity|].
  now rewrite IH.
Qed.

(** A key is marked when it was seen before the scan or stands earlier
    in the scan. *)
Lemma duplicated_from_nth (keys seen : list cell) (i : nat) (k : cell) :
  nth_error keys i = Some k ->
  nth i (duplicated_from seen keys) false
  = existsb (cell_eqb k) seen || existsb (cell_eqb k) (firstn i keys).
Proof.
  revert seen i. induction keys as [|k0 ks IH]; intros seen i H.
  - destruct i; discriminate.
  - destruct i as [|i]; simpl in *.
    + inversion H; subst. now rewrite orb_false_r.
    + rewrite (IH _ _ H). simpl.
      destruct (cell_eqb k k0), (existsb (cell_eqb k) seen); reflexivity.
Qed.

Lemma In_firstn_nth {A} (l : list A) (i : nat) (x : A) :
  In x (firstn i l) <-> exists i', i' < i /\ nth_error l i' = Some x.
Proof.
  revert i. induction l as [|a l IH]; intro i.
  - rewrite firstn_nil. split; [intros [] | intros [i' [_ H]]; destruct i'; discriminate].
  - destruct i as [|i]; simpl.
    + split; [intros [] | intros [i' [H _]]; lia].
    + rewrite IH. split.
      * intros [E | [i' [Hlt H]]].
        -- exists 0. split; [lia | now subst].
        -- exists (S i'). split; [lia | assumption].
      * intros [[|i'] [Hlt H]]; simpl in H.
        -- left. now inversion H.
        -- right. exists i'. split; [lia | assumption].
Qed.

Lemma mask_select_first (j : nat) (t : cell) (l : list (nat * list cell))
      (seen : list cell) :
  with_token j t
    (mask_select (map negb (duplicated_from seen (map (token_at j) l))) l)
  = if existsb (cell_eqb t) seen then [] else firstn 1 (with_token j t l).
Proof.
  unfold with_token.
  revert seen. induction l as [|r l IH]; intro seen; simpl.
  - now destruct (existsb (cell_eqb t) seen).
  - destruct (existsb (cell_eqb (token_at j r)) seen) eqn:Eseen; simpl.
    + rewrite IH. simpl.
      destruct (cell_eqb t (token_at j r)) eqn:Et; simpl.
      * apply cell_eqb_eq in Et. subst t. now rewrite Eseen.
      * destruct (existsb (cell_eqb t) seen) eqn:Es; [reflexivity|].
        rewrite cell_eqb_sym, Et.
        reflexivity.
    + rewrite IH. simpl.
      destruct (cell_eqb (token_at j r) t) eqn:Et.
      * rewrite cell_eqb_sym, Et. simpl.
        apply cell_eqb_eq in Et. subst t. now rewrite Eseen.
      * rewrite cell_eqb_sym, Et. simpl. reflexivity.
Qed.

Lemma mask_select_In {A} (mask : list bool) (l : list A) (x : A) :
  In x (mask_select mask l) -> In x l.
Proof.
  revert mask. induction l as [|a l IH]; intros mask H.
  - now destruct mask.
  - destruct mask as [|b mask]; simpl in H; [contradiction|].
    destruct b; simpl in *; [destruct H as [H|H]; [now left|] |]; right; eauto.
Qed.

Lemma getitem_token (d : DataFrame) (name : string) (j : nat) :
  get_loc name (columns d) = Some j ->
  getitem d (Some name) = Ok (map (token_at j) (rows d)).
Proof. intro H. unfold getitem. now rewrite H. Qed.

Lemma get_loc_columns (name : string) (d : DataFrame) (j : nat) :
  get_loc name (columns d) = Some j -> empty (columns d) = false.
Proof. destruct (columns d); [discriminate | reflexivity]. Qed.

Lemma duplicated_token (d : DataFrame) (name : string) (j : nat) :
  get_loc name (columns d) = Some j ->
  duplicated d name = Ok (duplicated_from [] (map (token_at j) (rows d))).
Proof.
  intro H. unfold duplicated, frame_empty.
  rewrite (get_loc_columns _ _ _ H), (getitem_token _ _ _ H).
  now destruct (rows d).
Qed.

Lemma drop_duplicates_token (d : DataFrame) (name : string) (j : nat) :
  get_loc name (columns d) = Some j ->
  drop_duplicates d name
  = Ok (getitem_mask d (map negb (duplicated_from [] (map (token_at j) (rows d))))).
Proof.
  intro H. unfold drop_duplicates, frame_empty.
  rewrite (get_loc_columns _ _ _ H), (duplicated_token _ _ _ H).
  destruct d as [cols [|r l]]; reflexivity.
Qed.

Lemma delete_older_duplicates_list (s : self) (j : nat) :
  get_loc WCA_TOKEN_FIELD (columns (df s)) = Some j ->
  delete_older_duplicates true s
  = (Ok (Some (duplicated_from [] (map (token_at j) (rows (df s))))), s).
Proof.
  intro H. unfold delete_older_duplicates, bind, get, lift, ret.
  now rewrite (duplicated_token _ _ _ H).
Qed.

Lemma delete_older_duplicates_delete (s : self) (j : nat) :
  get_loc WCA_TOKEN_FIELD (columns (df s)) = Some j ->
  delete_older_duplicates false s
  = (Ok None,
     set_df (getitem_mask (df s)
               (map negb (duplicated_from [] (map (token_at j) (rows (df s))))))
            s).
Proof.
  intro H.
  unfold delete_older_duplicates, bind, get, lift, ret, modify.
  now rewrite (drop_duplicates_token _ _ _ H).
Qed.

(** C4. Among the records that share a token value, the Deduplicator
    retains exactly the one that stands first in table order: in list
    mode the mask marks a record exactly when an earlier record has the
    same token, in delete mode the frame keeps the unmarked records, so
    that of every group only its first member is left.  The mask is
    computed from the token column alone. *)
Theorem C4_deduplicator_keeps_first_occurrence (s : self) (j : nat) :
  get_loc WCA_TOKEN_FIELD (columns (df s)) = Some j ->
  exists mask d,
    delete_older_duplicates true s = (Ok (Some mask), s)
    /\ delete_older_duplicates false s = (Ok None, set_df d s)
    /\ mask = duplicated_from [] (map (token_at j) (rows (df s)))
    /\ List.length mask = len (df s)
    /\ (forall i r, nth_error (rows (df s)) i = Some r ->
          (nth i mask false = true <->
           exists i' r', i' < i /\ nth_error (rows (df s)) i' = Some r'
                         /\ token_at j r' = token_at j r))
    /\ columns d = columns (df s)
    /\ rows d = mask_select (map negb mask) (rows (df s))
    /\ (forall t, with_token j t (rows d)
                  = firstn 1 (with_token j t (rows (df s)))).
Proof.
  intro H.
  exists (duplicated_from [] (map (token_at j) (rows (df s)))).
  eexists.
  split; [exact (delete_older_duplicates_list _ _ H)|].
  split; [exact (delete_older_duplicates_delete _ _ H)|].
  split; [reflexivity|].
  split; [unfold len; now rewrite duplicated_from_length, length_map|].
  split.
  - intros i r Hr.
    rewrite (duplicated_from_nth _ _ i (token_at j r))
      by (rewrite nth_error_map, Hr; reflexivity).
    simpl. rewrite existsb_cell_In, In_firstn_nth. split.
    + intros [i' [Hlt Hi']]. rewrite nth_error_map in Hi'.
      destruct (nth_error (rows (df s)) i') as [r'|] eqn:E; [|discriminate].
      exists i', r'. split; [assumption|]. split; [assumption|]. now inversion Hi'.
    + intros [i' [r' [Hlt [Hi' E]]]]. exists i'. split; [assumption|].
      now rewrite nth_error_map, Hi', <- E.
  - split; [reflexivity|]. split; [reflexivity|].
    intro t. simpl. now rewrite mask_select_first.
Qed.

(** ** Python strings *)

Lemma lstrip_whitespace_only (s : string) :
  whitespace_only s = true -> PyStr.lstrip s = EmptyString.
Proof.
  induction s as [|c s IH]; simpl; [reflexivity|].
  intro H. apply andb_prop in H as [Hc Hs]. rewrite Hc. now apply IH.
Qed.

Lemma strip_whitespace_only (s : string) :
  whitespace_only s = true -> PyStr.strip s = EmptyString.
Proof.
  intro H. unfold PyStr.strip. now rewrite lstrip_whitespace_only.
Qed.

Lemma string_of_uint_digits (d : Decimal.uint) :
  PyStr.digits_run (NilEmpty.string_of_uint d)
  = String.length (NilEmpty.string_of_uint d).
Proof. induction d; simpl; congruence. Qed.

Lemma of_nat_not_empty (n : nat) : PyStr.of_nat n <> EmptyString.
Proof.
  unfold PyStr.of_nat. destruct (Nat.to_uint n) eqn:E; try discriminate.
  pose proof (f_equal Nat.of_uint E) as E0. rewrite Unsigned.of_to in E0.
  simpl in E0. subst n. discriminate E.
Qed.

Lemma substring_all (s : string) : substring 0 (String.length s) s = s.
Proof. induction s as [|c s IH]; simpl; [reflexivity | now rewrite IH]. Qed.

Lemma sub_from_short (k : nat) (s : string) :
  String.length s <= k -> PyStr.sub_from k s = EmptyString.
Proof.
  revert k. induction s as [|c s IH]; intros k H; simpl in *; [reflexivity|].
  destruct k as [|k]; [lia|]. apply IH. lia.
Qed.

(** The name pandas gives to a column without a name is a match of
    the pattern of [fix_headers]: the substitution blanks it. *)
Lemma sub_unnamed_placeholder (i : nat) :
  PyStr.sub_unnamed (column_name i EmptyString) = EmptyString.
Proof.
  unfold column_name, PyStr.sub_unnamed, PyStr.of_nat. cbn [PyStr.is_empty].
  pose proof (of_nat_not_empty i) as Hne.
  pose proof (string_of_uint_digits (Nat.to_uint i)) as Hd.
  unfold PyStr.of_nat in Hne.
  destruct (NilEmpty.string_of_uint (Nat.to_uint i)) as [|c ds] eqn:E;
    [contradiction|].
  cbn [String.append PyStr.sub_from]. unfold PyStr.match_len.
  cbn [prefix PyStr.unnamed_prefix Ascii.ascii_dec Ascii.ascii_rec
       Ascii.ascii_rect sumbool_rec sumbool_rect Bool.bool_dec bool_rec
       bool_rect String.length substring Nat.sub].
  rewrite (substring_all ds). rewrite Hd. cbn [String.length Nat.add Nat.sub].
  apply sub_from_short. simpl. lia.
Qed.

(** ** Reasoning about methods *)

Lemma set_df_same (s : self) : set_df (df s) s = s.
Proof. now destruct s. Qed.

Lemma bind_modify {B} (f : self -> self) (k : unit -> M B) (s : self) :
  bind (modify f) k s = k tt (f s).
Proof. reflexivity. Qed.

Lemma bind_get {B} (k : self -> M B) (s : self) : bind get k s = k s s.
Proof. reflexivity. Qed.

Lemma bind_ret {A B} (a : A) (k : A -> M B) (s : self) : bind (ret a) k s = k a s.
Proof. reflexivity. Qed.

(** ** Relations between the state before and after a method *)

Section Respects.

Context (R : self -> self -> Prop) `{PreOrder self R}.

Lemma respects_ret {A} (a : A) : respects R (ret a).
Proof. intro s. simpl. reflexivity. Qed.

Lemma respects_raise {A} (e : exn) : respects R (@raise A e).
Proof. intro s. simpl. reflexivity. Qed.

Lemma respects_lift {A} (r : result A) : respects R (lift r).
Proof. intro s. simpl. reflexivity. Qed.

Lemma respects_get : respects R get.
Proof. intro s. simpl. reflexivity. Qed.

Lemma respects_modify (f : self -> self) :
  (forall s, R s (f s)) -> respects R (modify f).
Proof. intros Hf s. apply Hf. Qed.

Lemma respects_bind {A B} (m : M A) (k : A -> M B) :
  respects R m -> (forall a, respects R (k a)) -> respects R (bind m k).
Proof.
  intros Hm Hk s. unfold bind. specialize (Hm s).
  destruct (m s) as [[a|e] s']; simpl in *.
  - etransitivity; [exact Hm | apply Hk].
  - exact Hm.
Qed.

Lemma respects_for_each {X} (l : list X) (body : X -> M unit) :
  (forall x, respects R (body x)) -> respects R (for_each l body).
Proof.
  intro Hbody. induction l as [|x l IH]; simpl.
  - apply respects_ret.
  - apply respects_bind; [apply Hbody | intros _; exact IH].
Qed.

End Respects.

(** One step along the shape of a method. *)
Ltac respects_shape :=
  first
    [ apply respects_ret; solve [typeclasses eauto]
    | apply respects_raise; solve [typeclasses eauto]
    | apply respects_lift; solve [typeclasses eauto]
    | apply respects_get; solve [typeclasses eauto]
    | apply respects_bind; [typeclasses eauto | | intro]
    | apply respects_for_each; [typeclasses eauto | intro]
    | match goal with
      | |- respects _ (if ?b then _ else _) => destruct b
      | |- respects _ (match ?x with Some _ => _ | None => _ end) => destruct x
      end ].

#[local] Instance same_columns_preorder : PreOrder same_columns.
Proof.
  split.
  - intro s. reflexivity.
  - intros s1 s2 s3 H12 H23. unfold same_columns in *. congruence.
Qed.

#[local] Instance same_bad_token_column_preorder : PreOrder same_bad_token_column.
Proof.
  split.
  - intro s. reflexivity.
  - intros s1 s2 s3 H12 H23. unfold same_bad_token_column in *. congruence.
Qed.

#[local] Instance to_delete_grows_preorder : PreOrder to_delete_grows.
Proof.
  split.
  - intro s. exists []. now rewrite app_nil_r.
  - intros s1 s2 s3 [f12 H12] [f23 H23]. exists (f12 ++ f23).
    now rewrite H23, H12, app_assoc.
Qed.

#[local] Instance same_frame_preorder : PreOrder same_frame.
Proof.
  split.
  - intro s. now split.
  - intros s1 s2 s3 [H12 H12'] [H23 H23']. split; congruence.
Qed.

Lemma same_but_token_refl (d : DataFrame) : same_but_token d d.
Proof.
  split; [reflexivity|]. split; [reflexivity|].
  induction (rows d) as [|r l IH]; constructor; [now repeat split | exact IH].
Qed.

Lemma Forall2_compose {A} (R12 R23 R13 : A -> A -> Prop) (l1 l2 l3 : list A) :
  (forall x y z, R12 x y -> R23 y z -> R13 x z) ->
  Forall2 R12 l1 l2 -> Forall2 R23 l2 l3 -> Forall2 R13 l1 l3.
Proof.
  intros Hc H12. revert l3.
  induction H12 as [|x y l1 l2 Hxy H12 IH]; intros l3 H23;
    inversion H23; subst; constructor; eauto.
Qed.

Lemma same_but_token_trans (d1 d2 d3 : DataFrame) :
  same_but_token d1 d2 -> same_but_token d2 d3 -> same_but_token d1 d3.
Proof.
  intros [Hc12 [Hh12 H12]] [Hc23 [Hh23 H23]].
  split; [congruence|]. split; [congruence|].
  rewrite Hc12 in H23.
  eapply Forall2_compose; [|exact H12|exact H23].
  intros x y z [Hf [Hl Hn]] [Hf' [Hl' Hn']].
  split; [congruence|]. split; [congruence|].
  intros j Hj. rewrite (Hn' j Hj). now apply Hn.
Qed.

#[local] Instance frame_but_token_preorder : PreOrder frame_but_token.
Proof.
  split.
  - intro s. apply same_but_token_refl.
  - intros s1 s2 s3. apply same_but_token_trans.
Qed.

(** A method built from reads, raises, logs, and writes to attributes
    other than those [R] speaks of; [tac] settles the calls that have a
    lemma of their own. *)
Ltac respects_frame tac :=
  repeat first
    [ tac
    | respects_shape
    | match goal with
      | |- respects _ (let (_, _) := ?x in _) => destruct x
      | |- respects _ (match ?x with Ok _ => _ | Raise _ => _ end) => destruct x
      | |- respects _ (modify _) =>
          apply respects_modify; intro; hnf; cbn;
          first [apply same_but_token_refl | repeat split; reflexivity]
      end
    | progress unfold linfo, lverbose, lwarn, lerr, log, is_valid,
        validate_list_body, validate_delete_body, fix_token_position_body,
        fix_headers ].

(** ** Frames *)

Lemma get_loc_lt (name : string) (cols : list string) (j : nat) :
  get_loc name cols = Some j -> j < List.length cols.
Proof.
  revert j. induction cols as [|c cols IH]; intros j H; simpl in *; [discriminate|].
  destruct (String.eqb name c).
  - inversion H. lia.
  - destruct (get_loc name cols) as [j'|]; [|discriminate].
    inversion H. specialize (IH j' eq_refl). lia.
Qed.

Lemma forallb_is_str_nth (row : list cell) (j : nat) :
  forallb is_str row = true -> j < List.length row ->
  exists t, nth_error row j = Some (CStr t).
Proof.
  revert j. induction row as [|c row IH]; intros j H Hlt; simpl in *; [lia|].
  apply andb_prop in H as [Hc Hrow].
  destruct j as [|j]; simpl.
  - destruct c; try discriminate. now eexists.
  - apply IH; [assumption | lia].
Qed.

Lemma row_getitem_str (cols : list string) (row : list cell) (name : string)
      (j : nat) :
  List.length row = List.length cols -> forallb is_str row = true ->
  get_loc name cols = Some j ->
  exists t, nth_error row j = Some (CStr t)
            /\ row_getitem cols row (Some name) = Ok (CStr t).
Proof.
  intros Hlen Hstr Hj.
  destruct (forallb_is_str_nth row j Hstr) as [t Ht].
  - rewrite Hlen. now apply get_loc_lt in Hj.
  - exists t. split; [assumption|]. unfold row_getitem. now rewrite Hj, Ht.
Qed.

Lemma update_nth_app {A} (pre : list A) (x : A) (rest : list A) (f : A -> A) :
  update_nth (List.length pre) f (pre ++ x :: rest) = pre ++ f x :: rest.
Proof.
  induction pre as [|a pre IH]; simpl; [reflexivity|]. now rewrite IH.
Qed.

Lemma update_nth_length {A} (n : nat) (f : A -> A) (l : list A) :
  List.length (update_nth n f l) = List.length l.
Proof.
  revert n. induction l as [|a l IH]; intros [|n]; simpl; auto.
Qed.

Lemma nth_error_update_nth {A} (n : nat) (f : A -> A) (l : list A) (x : A) :
  nth_error l n = Some x -> nth_error (update_nth n f l) n = Some (f x).
Proof.
  revert n. induction l as [|a l IH]; intros [|n] H; simpl in *;
    try discriminate.
  - now inversion H.
  - now apply IH.
Qed.

Lemma nth_error_update_nth_other {A} (n m : nat) (f : A -> A) (l : list A) :
  n <> m -> nth_error (update_nth n f l) m = nth_error l m.
Proof.
  revert n m. induction l as [|a l IH]; intros [|n] [|m] H; simpl;
    try reflexivity; try lia.
  apply IH. lia.
Qed.

Lemma forallb_is_str_update (row : list cell) (j : nat) (t : string) :
  forallb is_str row = true ->
  forallb is_str (update_nth j (fun _ => CStr t) row) = true.
Proof.
  revert j. induction row as [|c row IH]; intros [|j] H; simpl in *;
    try reflexivity; apply andb_prop in H as [Hc Hrow].
  - assumption.
  - rewrite Hc. now apply IH.
Qed.

(** ** Column Repair *)

Lemma repair_fst (cols : list string) (bad : option string)
      (r : nat * list cell) :
  fst (repair cols bad r) = fst r.
Proof.
  unfold repair.
  destruct (get_loc WCA_TOKEN_FIELD cols); [|reflexivity].
  destruct (row_getitem cols (snd r) (Some WCA_TOKEN_FIELD)) as [[tok| |]|];
    try reflexivity.
  destruct (row_getitem cols (snd r) bad) as [[ov| |]|]; try reflexivity.
  now destruct (PyStr.is_empty (PyStr.strip tok) && (String.length ov =? WCA_TOKEN_LEN)).
Qed.

(** On a frame of strings the loop raises nothing and leaves every row
    after the first one repaired. *)
Lemma fix_token_position_loop (cols : list string) (bad : string) (j jb : nat) :
  get_loc WCA_TOKEN_FIELD cols = Some j ->
  get_loc bad cols = Some jb ->
  forall (rest pre : list (nat * list cell)) (k : nat) (s : self),
    List.length pre = S k ->
    df s = {| columns := cols; rows := pre ++ rest |} ->
    bad_token_column s = Some bad ->
    forallb (fun r => (List.length (snd r) =? List.length cols)
                      && forallb is_str (snd r)) rest = true ->
    for_each (mapi_from k (fun i x => (i, x)) rest)
             (fix_token_position_body cols true) s
    = (Ok tt,
       set_df {| columns := cols;
                 rows := pre ++ map (repair cols (Some bad)) rest |} s).
Proof.
  intros Hj Hjb.
  induction rest as [|[index row] rest IH]; intros pre k s Hlen Hdf Hbad Hstr.
  - simpl. rewrite app_nil_r in *. rewrite <- Hdf. now rewrite set_df_same.
  - simpl in Hstr. apply andb_prop in Hstr as [Hrow Hrest].
    apply andb_prop in Hrow as [Hl Hs]. apply Nat.eqb_eq in Hl.
    destruct (row_getitem_str cols row _ j Hl Hs Hj) as [tok [Htok Hgtok]].
    destruct (row_getitem_str cols row _ jb Hl Hs Hjb) as [ov [Hov Hgov]].
    assert (Hrep :
      for_each (mapi_from (S k) (fun i x => (i, x)) rest)
               (fix_token_position_body cols true)
               (set_df {| columns := cols;
                          rows := pre ++ repair cols (Some bad) (index, row) :: rest |} s)
      = (Ok tt,
         set_df {| columns := cols;
                   rows := pre ++ repair cols (Some bad) (index, row)
                               :: map (repair cols (Some bad)) rest |} s)).
    { rewrite (IH (pre ++ [repair cols (Some bad) (index, row)]) (S k)
                  (set_df {| columns := cols;
                             rows := pre ++ repair cols (Some bad) (index, row) :: rest |} s)).
      - simpl. now rewrite <- app_assoc.
      - rewrite length_app. simpl. lia.
      - simpl. now rewrite <- app_assoc.
      - exact Hbad.
      - exact Hrest. }
    assert (Hr : repair cols (Some bad) (index, row)
                 = if PyStr.is_empty (PyStr.strip tok)
                      && (String.length ov =? WCA_TOKEN_LEN)
                   then (index, update_nth j (fun _ => CStr (PyStr.strip ov)) row)
                   else (index, row)).
    { unfold repair. simpl fst. simpl snd. now rewrite Hj, Hgtok, Hgov. }
    rewrite Hr in Hrep.
    cbn [for_each mapi_from map]. rewrite Hr. unfold bind at 1.
    unfold fix_token_position_body at 1. unfold bind, lift, get.
    rewrite Hgtok. simpl str_strip. cbv iota beta.
    destruct (PyStr.is_empty (PyStr.strip tok)) eqn:Eempty; cbv iota beta.
    + rewrite Hbad, Hgov. simpl py_len. cbv iota beta.
      destruct (String.length ov =? WCA_TOKEN_LEN) eqn:E64; simpl andb in *;
        cbv iota beta in *.
      * simpl str_strip. cbv iota beta.
        unfold row_setitem, bind, get, modify. rewrite Hdf. cbn [columns rows].
        rewrite Hj. cbv iota beta.
        unfold set_cell. cbn [columns rows].
        replace (1 + k) with (List.length pre) by lia.
        rewrite update_nth_app. simpl fst. simpl snd.
        exact Hrep.
      * unfold ret. cbv iota beta.
        replace s with (set_df (df s) s) at 1 by apply set_df_same.
        rewrite Hdf. exact Hrep.
    + unfold ret. simpl andb in *. cbv iota beta in *.
      replace s with (set_df (df s) s) at 1 by apply set_df_same.
      rewrite Hdf. exact Hrep.
Qed.

Lemma strings_frame_single_block (d : DataFrame) :
  strings_frame d = true -> is_single_block d = true.
Proof.
  unfold strings_frame, is_single_block. intro H.
  rewrite forallb_forall in *. intros r Hr. specialize (H r Hr).
  apply andb_prop in H as [_ H]. rewrite forallb_forall in *.
  intros c Hc. specialize (H c Hc). now destruct c.
Qed.

Lemma row_getitem_Some (cols : list string) (row : list cell) (name : string)
      (c : cell) :
  row_getitem cols row (Some name) = Ok c ->
  exists j, get_loc name cols = Some j /\ nth_error row j = Some c.
Proof.
  unfold row_getitem. destruct (get_loc name cols) as [j|]; [|discriminate].
  destruct (nth_error row j) as [c'|] eqn:E; [|discriminate].
  intro H. inversion H. subst. now exists j.
Qed.

Lemma fix_token_position_strings (s : self) (bad : string) (j jb : nat) :
  strings_frame (df s) = true ->
  get_loc WCA_TOKEN_FIELD (columns (df s)) = Some j ->
  bad_token_column s = Some bad ->
  get_loc bad (columns (df s)) = Some jb ->
  fix_token_position s
  = (Ok tt,
     set_df {| columns := columns (df s);
               rows := match rows (df s) with
                       | [] => []
                       | r0 :: rest =>
                           r0 :: map (repair (columns (df s)) (Some bad)) rest
                       end |} s).
Proof.
  intros Hstr Hj Hbad Hjb.
  unfold fix_token_position, bind, get. cbn [iloc_from columns rows].
  rewrite (strings_frame_single_block _ Hstr).
  unfold strings_frame in Hstr.
  destruct (rows (df s)) as [|r0 rest] eqn:E.
  - simpl. unfold ret. f_equal.
    replace s with (set_df (df s) s) at 1 by apply set_df_same.
    f_equal. destruct (df s). simpl in *. now subst.
  - simpl in Hstr. apply andb_prop in Hstr as [_ Hrest].
    unfold enumerate, mapi. simpl skipn.
    apply (fix_token_position_loop _ bad j jb Hj Hjb rest [r0] 0 s);
      try assumption; try reflexivity.
    destruct (df s). simpl in *. now subst.
Qed.

(** C2. On a table of strings with an overflow column, a record after
    the first row whose primary token is empty or whitespace-only and
    whose overflow value has exactly 64 characters leaves Column Repair
    with the trimmed overflow value as its primary token, in the frame
    [self.df] that the Deduplicator and the Validator read next. *)
Theorem C2_column_repair_moves_token
        (s : self) (bad : string) (k index : nat) (row : list cell)
        (tok ov : string) :
  strings_frame (df s) = true ->
  bad_token_column s = Some bad ->
  nth_error (rows (df s)) (S k) = Some (index, row) ->
  row_getitem (columns (df s)) row (Some WCA_TOKEN_FIELD) = Ok (CStr tok) ->
  whitespace_only tok = true ->
  row_getitem (columns (df s)) row (Some bad) = Ok (CStr ov) ->
  String.length ov = WCA_TOKEN_LEN ->
  fst (fix_token_position s) = Ok tt
  /\ exists row',
      nth_error (rows (df (snd (fix_token_position s)))) (S k)
      = Some (index, row')
      /\ row_getitem (columns (df (snd (fix_token_position s)))) row'
                     (Some WCA_TOKEN_FIELD)
         = Ok (CStr (PyStr.strip ov)).
Proof.
  intros Hstr Hbad Hrow Htok Hws Hov Hlen.
  destruct (row_getitem_Some _ _ _ _ Htok) as [j [Hj Hnj]].
  destruct (row_getitem_Some _ _ _ _ Hov) as [jb [Hjb _]].
  rewrite (fix_token_position_strings s bad j jb Hstr Hj Hbad Hjb).
  cbn [fst snd]. split; [reflexivity|].
  cbn [df set_df columns rows].
  destruct (rows (df s)) as [|r0 rest]; [discriminate|].
  simpl in Hrow.
  exists (update_nth j (fun _ => CStr (PyStr.strip ov)) row). split.
  - cbn [nth_error]. rewrite nth_error_map, Hrow. cbn [option_map].
    unfold repair. cbn [fst snd]. rewrite Hj, Htok, Hov.
    rewrite (strip_whitespace_only _ Hws), Hlen. reflexivity.
  - unfold row_getitem. rewrite Hj.
    now rewrite (nth_error_update_nth _ _ _ _ Hnj).
Qed.

(** ** The Validator *)

Lemma filter_label_fresh (label : nat) (l : list (nat * list cell)) :
  ~ In label (map fst l) ->
  filter (fun r => negb (Nat.eqb label (fst r))) l = l.
Proof.
  induction l as [|r l IH]; intro H; simpl in *; [reflexivity|].
  destruct (Nat.eqb label (fst r)) eqn:E.
  - apply Nat.eqb_eq in E. exfalso. apply H. now left.
  - simpl. f_equal. apply IH. intro Hin. apply H. now right.
Qed.

Lemma drop_label_unique (cols : list string) (pre post : list (nat * list cell))
      (label : nat) (row : list cell) :
  NoDup (map fst (pre ++ (label, row) :: post)) ->
  drop_label label {| columns := cols; rows := pre ++ (label, row) :: post |}
  = Ok {| columns := cols; rows := pre ++ post |}.
Proof.
  intro Hnd. unfold drop_label, index. cbn [rows columns].
  assert (Hin : existsb (Nat.eqb label) (map fst (pre ++ (label, row) :: post)) = true).
  { apply existsb_exists. exists label. split; [|apply Nat.eqb_refl].
    rewrite map_app. apply in_or_app. right. now left. }
  rewrite Hin. f_equal. f_equal.
  rewrite map_app in Hnd. simpl in Hnd.
  pose proof (NoDup_remove_2 _ _ _ Hnd) as Hfresh.
  rewrite filter_app. simpl. rewrite Nat.eqb_refl. simpl.
  rewrite !filter_label_fresh; [reflexivity| |];
    intro Hx; apply Hfresh; apply in_or_app; [now right | now left].
Qed.

Lemma validate_delete_body_spec (cols : list string) (j : nat)
      (pre post : list (nat * list cell)) (label : nat) (row : list cell)
      (s : self) :
  get_loc WCA_TOKEN_FIELD cols = Some j ->
  df s = {| columns := cols; rows := pre ++ (label, row) :: post |} ->
  NoDup (map fst (pre ++ (label, row) :: post)) ->
  List.length row = List.length cols -> forallb is_str row = true ->
  exists s',
    validate_delete_body cols (label, row) s = (Ok tt, s')
    /\ token_list s' = token_list s
    /\ df s' = {| columns := cols;
                  rows := pre ++ filter (passes cols (token_list s)) [(label, row)]
                              ++ post |}.
Proof.
  intros Hj Hdf Hnd Hl Hs.
  destruct (row_getitem_str cols row _ j Hl Hs Hj) as [tok [Htok Hgtok]].
  unfold validate_delete_body, is_valid. unfold bind, lift, get, ret.
  rewrite Hgtok. simpl str_strip. cbv iota beta.
  cbn [filter]. unfold passes. cbn [snd]. rewrite Hgtok.
  destruct (existsb (String.eqb (PyStr.strip tok)) (token_list s));
    destruct (PyStr.is_empty (PyStr.strip tok));
    cbn [negb orb andb app]; cbv iota beta.
  2: { eexists. split; [reflexivity|]. split; [reflexivity|]. exact Hdf. }
  all: unfold linfo, _delete, lverbose, log, modify, bind, get, lift;
    cbv iota beta; cbn [df set_logger]; rewrite Hdf;
    rewrite (drop_label_unique _ _ _ _ _ Hnd); cbv iota beta;
    eexists; split; [reflexivity|]; split; reflexivity.
Qed.

Lemma validate_delete_loop (cols : list string) (toks : list string) (j : nat) :
  get_loc WCA_TOKEN_FIELD cols = Some j ->
  forall (remaining pre : list (nat * list cell)) (s : self),
    df s = {| columns := cols; rows := pre ++ remaining |} ->
    token_list s = toks ->
    NoDup (map fst (pre ++ remaining)) ->
    forallb (fun r => (List.length (snd r) =? List.length cols)
                      && forallb is_str (snd r)) remaining = true ->
    fst (for_each remaining (validate_delete_body cols) s) = Ok tt
    /\ df (snd (for_each remaining (validate_delete_body cols) s))
       = {| columns := cols; rows := pre ++ filter (passes cols toks) remaining |}
    /\ token_list (snd (for_each remaining (validate_delete_body cols) s)) = toks.
Proof.
  intro Hj.
  induction remaining as [|[label row] remaining IH];
    intros pre s Hdf Htoks Hnd Hstr.
  - simpl. now rewrite app_nil_r in *.
  - simpl in Hstr. apply andb_prop in Hstr as [Hrow Hrest].
    apply andb_prop in Hrow as [Hl Hs]. apply Nat.eqb_eq in Hl.
    destruct (validate_delete_body_spec cols j pre remaining label row s
                Hj Hdf Hnd Hl Hs) as [s' [Hbody [Htl Hdf']]].
    cbn [for_each]. unfold bind. rewrite Hbody.
    rewrite Htoks in Hdf'. cbn [filter] in *.
    destruct (passes cols toks (label, row)).
    + cbn [app] in Hdf'.
      destruct (IH (pre ++ [(label, row)]) s') as [H1 [H2 H3]].
      * now rewrite <- app_assoc.
      * congruence.
      * now rewrite <- app_assoc.
      * exact Hrest.
      * rewrite <- app_assoc in H2. now repeat split.
    + cbn [app] in Hdf'.
      destruct (IH pre s') as [H1 [H2 H3]].
      * exact Hdf'.
      * congruence.
      * rewrite map_app in *. simpl in Hnd. now apply NoDup_remove_1 in Hnd.
      * exact Hrest.
      * now repeat split.
Qed.

Lemma validate_list_body_spec (cols : list string) (j jid : nat)
      (label : nat) (row : list cell) (s : self) :
  get_loc WCA_TOKEN_FIELD cols = Some j ->
  get_loc ID_FIELD cols = Some jid ->
  columns (df s) = cols ->
  nth_error (rows (df s)) label = Some (label, row) ->
  List.length row = List.length cols -> forallb is_str row = true ->
  exists s',
    validate_list_body cols (label, row) s = (Ok tt, s')
    /\ token_list s' = token_list s
    /\ df s' = df s
    /\ to_delete s'
       = to_delete s ++ (if passes cols (token_list s) (label, row) then []
                         else [token_at jid (label, row)]).
Proof.
  intros Hj Hjid Hcols Hpos Hl Hs.
  destruct (row_getitem_str cols row _ j Hl Hs Hj) as [tok [Htok Hgtok]].
  assert (Hids : getitem (df s) (Some ID_FIELD)
                 = Ok (map (token_at jid) (rows (df s)))).
  { apply getitem_token. now rewrite Hcols. }
  assert (Hiloc : iloc (map (token_at jid) (rows (df s))) label
                  = Ok (token_at jid (label, row))).
  { unfold iloc. now rewrite nth_error_map, Hpos. }
  unfold validate_list_body, is_valid. unfold bind, lift, get, ret.
  rewrite Hgtok. simpl str_strip. cbv iota beta.
  unfold passes. cbn [snd]. rewrite Hgtok.
  destruct (existsb (String.eqb (PyStr.strip tok)) (token_list s));
    destruct (PyStr.is_empty (PyStr.strip tok));
    cbn [negb orb andb app]; cbv iota beta.
  2: { eexists. split; [reflexivity|]. repeat split.
       cbn. now rewrite app_nil_r. }
  all: unfold linfo, log, modify; cbv iota beta; cbn [df set_logger];
    rewrite Hids; cbv iota beta; rewrite Hiloc; cbv iota beta;
    eexists; split; [reflexivity|]; repeat split.
Qed.

Lemma validate_list_loop (cols : list string) (toks : list string)
      (j jid : nat) :
  get_loc WCA_TOKEN_FIELD cols = Some j ->
  get_loc ID_FIELD cols = Some jid ->
  forall (remaining : list (nat * list cell)) (d : DataFrame) (s : self),
    df s = d -> columns d = cols ->
    token_list s = toks ->
    (forall r, In r remaining ->
               nth_error (rows d) (fst r) = Some r
               /\ List.length (snd r) = List.length cols
               /\ forallb is_str (snd r) = true) ->
    fst (for_each remaining (validate_list_body cols) s) = Ok tt
    /\ df (snd (for_each remaining (validate_list_body cols) s)) = d
    /\ token_list (snd (for_each remaining (validate_list_body cols) s)) = toks
    /\ to_delete (snd (for_each remaining (validate_list_body cols) s))
       = to_delete s
         ++ map (token_at jid)
                (filter (fun r => negb (passes cols toks r)) remaining).
Proof.
  intros Hj Hjid.
  induction remaining as [|[label row] remaining IH];
    intros d s Hdf Hcols Htoks Hrows.
  - simpl. repeat split; try assumption. now rewrite app_nil_r.
  - destruct (Hrows (label, row) (or_introl eq_refl)) as [Hpos [Hl Hs]].
    cbn [fst snd] in *.
    destruct (validate_list_body_spec cols j jid label row s Hj Hjid)
      as [s' [Hbody [Htl [Hdf' Htd]]]]; try assumption; try congruence.
    cbn [for_each]. unfold bind. rewrite Hbody.
    destruct (IH d s') as [H1 [H2 [H3 H4]]]; try congruence.
    { intros r Hr. apply Hrows. now right. }
    repeat split; try assumption.
    rewrite H4, Htd, Htoks. cbn [filter].
    destruct (passes cols toks (label, row)); cbn [negb map].
    + now rewrite app_nil_r.
    + now rewrite <- app_assoc.
Qed.

Lemma range_index_label {A} (l : list (nat * A)) (p : nat) (r : nat * A) :
  map fst l = seq 0 (List.length l) ->
  nth_error l p = Some r -> fst r = p.
Proof.
  intros Hidx Hp.
  assert (H : nth_error (map fst l) p = Some (fst r))
    by (now rewrite nth_error_map, Hp).
  rewrite Hidx in H.
  assert (Hlt : p < List.length l) by (apply nth_error_Some; congruence).
  rewrite nth_error_seq in H.
  destruct (Nat.ltb_spec p (List.length l)); [|lia].
  now inversion H.
Qed.

Lemma NoDup_label_row {A} (l : list (nat * A)) (a : nat) (x y : A) :
  NoDup (map fst l) -> In (a, x) l -> In (a, y) l -> x = y.
Proof.
  induction l as [|[b z] l IH]; intros Hnd Hx Hy; simpl in *; [contradiction|].
  inversion Hnd as [|? ? Hnotin Hnd']; subst.
  destruct Hx as [Hx|Hx], Hy as [Hy|Hy].
  - congruence.
  - inversion Hx; subst. exfalso. apply Hnotin.
    change a with (fst (a, y)). now apply in_map.
  - inversion Hy; subst. exfalso. apply Hnotin.
    change a with (fst (a, x)). now apply in_map.
  - now apply IH.
Qed.

Lemma strings_frame_rows (d : DataFrame) (r : nat * list cell) :
  strings_frame d = true -> In r (rows d) ->
  List.length (snd r) = List.length (columns d) /\ forallb is_str (snd r) = true.
Proof.
  unfold strings_frame. intros H Hr. rewrite forallb_forall in H.
  specialize (H r Hr). apply andb_prop in H as [Hl Hs].
  now apply Nat.eqb_eq in Hl.
Qed.

Lemma passes_empty (cols : list string) (toks : list string) (label : nat)
      (row : list cell) (tok : string) :
  row_getitem cols row (Some WCA_TOKEN_FIELD) = Ok (CStr tok) ->
  PyStr.strip tok = EmptyString ->
  passes cols toks (label, row) = false.
Proof.
  intros Hg He. unfold passes. cbn [snd]. rewrite Hg, He. simpl.
  apply andb_false_r.
Qed.

Lemma validate_delete_strings (s : self) (j : nat)
      (r0 : nat * list cell) (rest : list (nat * list cell)) :
  strings_frame (df s) = true ->
  get_loc WCA_TOKEN_FIELD (columns (df s)) = Some j ->
  rows (df s) = r0 :: rest ->
  NoDup (index (df s)) ->
  fst (validate_delete s) = Ok tt
  /\ df (snd (validate_delete s))
     = {| columns := columns (df s);
          rows := r0 :: filter (passes (columns (df s)) (token_list s)) rest |}
  /\ token_list (snd (validate_delete s)) = token_list s.
Proof.
  intros Hstr Hj Hrows Hnd.
  unfold validate_delete, bind, get. cbn [iloc_from columns rows].
  rewrite Hrows. cbn [skipn].
  apply (validate_delete_loop _ (token_list s) j Hj rest [r0] s).
  - destruct (df s). simpl in *. now subst.
  - reflexivity.
  - unfold index in Hnd. now rewrite Hrows in Hnd.
  - unfold strings_frame in Hstr. rewrite Hrows in Hstr. simpl in Hstr.
    now apply andb_prop in Hstr as [_ Hrest].
Qed.

Lemma validate_list_strings (s : self) (j jid : nat) :
  strings_frame (df s) = true ->
  get_loc WCA_TOKEN_FIELD (columns (df s)) = Some j ->
  get_loc ID_FIELD (columns (df s)) = Some jid ->
  index (df s) = seq 0 (len (df s)) ->
  fst (validate_list s) = Ok tt
  /\ df (snd (validate_list s)) = df s
  /\ token_list (snd (validate_list s)) = token_list s
  /\ to_delete (snd (validate_list s))
     = to_delete s
       ++ map (token_at jid)
              (filter (fun r => negb (passes (columns (df s)) (token_list s) r))
                      (skipn 1 (rows (df s)))).
Proof.
  intros Hstr Hj Hjid Hidx.
  unfold validate_list, bind, get. cbn [iloc_from columns rows].
  apply (validate_list_loop _ (token_list s) j jid Hj Hjid _ (df s) s);
    try reflexivity.
  intros r Hr.
  assert (Hin : In r (rows (df s))).
  { destruct (rows (df s)); [contradiction | now right]. }
  destruct (strings_frame_rows _ _ Hstr Hin) as [Hl Hs].
  split; [|now split].
  destruct (In_nth_error _ _ Hin) as [p Hp].
  now rewrite (range_index_label _ _ _ Hidx Hp).
Qed.

(** C5. A record after the first row whose token is empty once trimmed
    fails validation whatever the token list holds, the empty string
    included: the delete-mode pass removes it from the frame and the
    list-mode pass appends its identifier to [to_delete]. *)
Theorem C5_empty_token_fails_validation
        (s : self) (k label : nat) (row : list cell) (tok : string) :
  strings_frame (df s) = true ->
  nth_error (rows (df s)) (S k) = Some (label, row) ->
  row_getitem (columns (df s)) row (Some WCA_TOKEN_FIELD) = Ok (CStr tok) ->
  PyStr.strip tok = EmptyString ->
  (NoDup (index (df s)) ->
   fst (validate_delete s) = Ok tt
   /\ ~ In label (index (df (snd (validate_delete s)))))
  /\ (forall id,
         index (df s) = seq 0 (len (df s)) ->
         row_getitem (columns (df s)) row (Some ID_FIELD) = Ok id ->
         fst (validate_list s) = Ok tt
         /\ In id (to_delete (snd (validate_list s)))).
Proof.
  intros Hstr Hrow Htok Hempty.
  destruct (row_getitem_Some _ _ _ _ Htok) as [j [Hj _]].
  destruct (rows (df s)) as [|r0 rest] eqn:Erows; [discriminate|].
  simpl in Hrow.
  assert (Hin : In (label, row) rest) by (eapply nth_error_In; eassumption).
  pose proof (passes_empty _ (token_list s) label _ _ Htok Hempty) as Hfail.
  split.
  - intro Hnd.
    destruct (validate_delete_strings s j r0 rest Hstr Hj Erows Hnd)
      as [H1 [H2 _]].
    split; [assumption|]. rewrite H2. unfold index in *. cbn [rows map].
    rewrite Erows in Hnd. cbn [map] in Hnd.
    inversion Hnd as [|? ? Hnotin Hnd']; subst.
    intros [Heq | Hl].
    + apply Hnotin. rewrite Heq.
      change label with (fst (label, row)). now apply in_map.
    + apply in_map_iff in Hl as [[label' row'] [Heq Hr]]. cbn [fst] in Heq.
      subst label'. apply filter_In in Hr as [Hr Hpass].
      rewrite (NoDup_label_row _ _ _ _ Hnd' Hr Hin) in Hpass. congruence.
  - intros id Hidx Hid.
    destruct (row_getitem_Some _ _ _ _ Hid) as [jid [Hjid Hnid]].
    destruct (validate_list_strings s j jid Hstr Hj Hjid Hidx)
      as [H1 [_ [_ H4]]].
    split; [assumption|]. rewrite H4. apply in_or_app. right.
    rewrite Erows. cbn [skipn].
    replace id with (token_at jid (label, row)).
    + apply in_map. apply filter_In. split; [assumption|]. now rewrite Hfail.
    + unfold token_at. cbn [snd]. now apply nth_error_nth.
Qed.

(** ** The cleaned deletion list *)

Lemma mapi_from_nth {A B} (f : nat -> A -> B) (l : list A) (k i : nat) :
  nth_error (mapi_from k f l) i = option_map (f (k + i)) (nth_error l i).
Proof.
  revert k i. induction l as [|a l IH]; intros k [|i]; simpl; try reflexivity.
  - now rewrite Nat.add_0_r.
  - rewrite IH. now replace (S k + i) with (k + S i) by lia.
Qed.

Lemma enumerate_In {A} (l : list A) (i : nat) (x : A) :
  In (i, x) (enumerate l) <-> nth_error l i = Some x.
Proof.
  unfold enumerate, mapi. split.
  - intro H. apply In_nth_error in H as [n Hn].
    rewrite mapi_from_nth in Hn. simpl in Hn.
    destruct (nth_error l n) eqn:E; [|discriminate].
    inversion Hn. now subst.
  - intro H. apply (nth_error_In _ i).
    rewrite mapi_from_nth. simpl. now rewrite H.
Qed.

(** The positions listed by [enumerate] grow strictly, and so do those
    of any selection from it. *)
Lemma mapi_from_sorted {A} (l : list A) (k : nat) (keep : nat * A -> bool) :
  StronglySorted (fun a b => fst a < fst b)
                 (filter keep (mapi_from k (fun i x => (i, x)) l))
  /\ Forall (fun a => k <= fst a)
            (filter keep (mapi_from k (fun i x => (i, x)) l)).
Proof.
  revert k. induction l as [|a l IH]; intro k; simpl.
  - split; constructor.
  - destruct (IH (S k)) as [Hs Hf].
    assert (Hf' : Forall (fun b : nat * A => k <= fst b)
                         (filter keep (mapi_from (S k) (fun i x => (i, x)) l))).
    { eapply Forall_impl; [|exact Hf]. simpl. intros; lia. }
    destruct (keep (k, a)).
    + split.
      * constructor; [assumption|].
        eapply Forall_impl; [|exact Hf]. simpl. intros; lia.
      * constructor; [simpl; lia | assumption].
    + now split.
Qed.

Lemma StronglySorted_nth {A} (R : A -> A -> Prop) (l : list A) (i j : nat)
      (x y : A) :
  StronglySorted R l -> i < j ->
  nth_error l i = Some x -> nth_error l j = Some y -> R x y.
Proof.
  intro Hs. revert i j. induction Hs as [|a l Hs IH Hall]; intros i j Hlt Hi Hj.
  - destruct i; discriminate.
  - destruct j as [|j]; [lia|]. simpl in Hj.
    destruct i as [|i]; simpl in Hi.
    + inversion Hi; subst. rewrite Forall_forall in Hall.
      apply Hall. eapply nth_error_In. eassumption.
    + apply (IH i j); [lia | assumption | assumption].
Qed.

Lemma first_pos_first (x : cell) (l : list cell) (p : nat) :
  nth_error l p = Some x -> ~ In x (firstn p l) -> first_pos x l = Some p.
Proof.
  revert p. induction l as [|y l IH]; intros [|p] Hp Hnot; simpl in *;
    try discriminate.
  - inversion Hp; subst. now rewrite cell_eqb_refl.
  - destruct (cell_eqb x y) eqn:E.
    + apply cell_eqb_eq in E. subst. exfalso. apply Hnot. now left.
    + rewrite (IH p Hp); [reflexivity|]. intro H. apply Hnot. now right.
Qed.

Lemma first_pos_In (x : cell) (l : list cell) :
  In x l -> exists p, nth_error l p = Some x /\ ~ In x (firstn p l).
Proof.
  induction l as [|y l IH]; intro H; [contradiction|].
  destruct (cell_eqb x y) eqn:E.
  - apply cell_eqb_eq in E. subst. exists 0. split; [reflexivity | intros []].
  - destruct H as [H|H].
    + subst. now rewrite cell_eqb_refl in E.
    + destruct (IH H) as [p [Hp Hnot]]. exists (S p). split; [assumption|].
      simpl. intros [Hy|Hin]; [|contradiction].
      subst. now rewrite cell_eqb_refl in E.
Qed.

(** What [clean] keeps: the elements of [l], each at its first
    occurrence. *)
Lemma clean_kept (l : list cell) (i : nat) (x : cell) :
  In (i, x)
     (filter (fun '(i, elem) => negb (existsb (cell_eqb elem) (firstn i l)))
             (enumerate l))
  <-> nth_error l i = Some x /\ ~ In x (firstn i l).
Proof.
  rewrite filter_In, enumerate_In. split; intros [H1 H2]; split; try assumption.
  - intro Hin. apply existsb_cell_In in Hin. now rewrite Hin in H2.
  - destruct (existsb (cell_eqb x) (firstn i l)) eqn:E; [|reflexivity].
    apply existsb_cell_In in E. contradiction.
Qed.

Lemma clean_In (l : list cell) (x : cell) : In x (clean l) <-> In x l.
Proof.
  unfold clean. rewrite in_map_iff. split.
  - intros [[i y] [Hy Hin]]. simpl in Hy. subst y.
    apply clean_kept in Hin as [Hn _]. eapply nth_error_In. eassumption.
  - intro H. destruct (first_pos_In _ _ H) as [p [Hp Hnot]].
    exists (p, x). split; [reflexivity|]. now apply clean_kept.
Qed.

Lemma clean_nth (l : list cell) (i : nat) (x : cell) :
  nth_error (clean l) i = Some x ->
  exists p,
    nth_error (filter (fun '(i, elem) => negb (existsb (cell_eqb elem) (firstn i l)))
                      (enumerate l)) i = Some (p, x)
    /\ first_pos x l = Some p.
Proof.
  unfold clean. rewrite nth_error_map.
  destruct (nth_error _ i) as [[p y]|] eqn:E; [|discriminate].
  simpl. intro H. inversion H; subst. exists p. split; [reflexivity|].
  apply nth_error_In in E. apply clean_kept in E as [Hn Hnot].
  now apply first_pos_first.
Qed.

Lemma clean_order (l : list cell) (i j : nat) (x y : cell) :
  nth_error (clean l) i = Some x -> nth_error (clean l) j = Some y -> i < j ->
  exists p q, first_pos x l = Some p /\ first_pos y l = Some q /\ p < q.
Proof.
  intros Hi Hj Hlt.
  destruct (clean_nth _ _ _ Hi) as [p [Hp Hfp]].
  destruct (clean_nth _ _ _ Hj) as [q [Hq Hfq]].
  exists p, q. split; [assumption|]. split; [assumption|].
  unfold enumerate, mapi in Hp, Hq.
  destruct (mapi_from_sorted l 0
              (fun '(i, elem) => negb (existsb (cell_eqb elem) (firstn i l))))
    as [Hs _].
  exact (StronglySorted_nth _ _ _ _ _ _ Hs Hlt Hp Hq).
Qed.

Lemma clean_NoDup (l : list cell) : NoDup (clean l).
Proof.
  apply NoDup_nth_error. intros i j Hi Heq.
  destruct (nth_error (clean l) i) as [x|] eqn:Ei;
    [|apply nth_error_None in Ei; lia].
  symmetry in Heq.
  destruct (Nat.lt_trichotomy i j) as [Hlt|[Heq'|Hgt]]; [|assumption|].
  - destruct (clean_order _ _ _ _ _ Ei Heq Hlt) as [p [q [Hp [Hq Hpq]]]].
    rewrite Hp in Hq. inversion Hq. lia.
  - destruct (clean_order _ _ _ _ _ Heq Ei Hgt) as [p [q [Hp [Hq Hpq]]]].
    rewrite Hp in Hq. inversion Hq. lia.
Qed.

Lemma append_empty_r (a : string) : a +++ EmptyString = a.
Proof. induction a as [|c a IH]; simpl; [reflexivity | now rewrite IH]. Qed.

Lemma append_assoc3 (a b c : string) : (a +++ b) +++ c = a +++ (b +++ c).
Proof. induction a as [|x a IH]; simpl; [reflexivity | now rewrite IH]. Qed.

Lemma lines_cons (i : string) (ids : list string) :
  lines (i :: ids) = (i +++ PyStr.nl) +++ lines ids.
Proof.
  unfold lines. simpl. destruct (map _ ids) eqn:E.
  - simpl. now rewrite append_empty_r.
  - reflexivity.
Qed.

Lemma strings_of_cells (l : list cell) :
  forallb is_str l = true -> exists ids, l = map CStr ids.
Proof.
  induction l as [|c l IH]; intro H; simpl in *.
  - now exists [].
  - apply andb_prop in H as [Hc Hl]. destruct (IH Hl) as [ids Hids].
    destruct c as [i| |]; try discriminate.
    exists (i :: ids). simpl. now rewrite Hids.
Qed.

(** The loop that writes the file: one line per identifier. *)
Lemma write_lines (ids : list string) (acc : string) (s : self) :
  output s = Some acc ->
  for_each (map CStr ids)
    (fun elem =>
       bind (lift (add_newline elem))
            (fun line =>
               modify (fun s => set_output
                                  (option_map (fun f => f +++ line) (output s)) s)))
    s
  = (Ok tt, set_output (Some (acc +++ lines ids)) s).
Proof.
  revert acc s. induction ids as [|i ids IH]; intros acc s Hout.
  - simpl. unfold ret, lines. simpl. rewrite append_empty_r, <- Hout.
    now destruct s.
  - cbn [map for_each]. unfold bind at 1. unfold bind, lift, modify.
    cbn [add_newline]. rewrite (IH (acc +++ i +++ PyStr.nl)).
    + rewrite lines_cons, append_assoc3. reflexivity.
    + simpl. now rewrite Hout.
Qed.

Lemma validate_list_to_delete_grows : respects to_delete_grows validate_list.
Proof.
  respects_frame ltac:(
    apply respects_modify; intro; hnf; cbn;
    first [eexists; reflexivity | exists []; now rewrite app_nil_r]).
Qed.

(** What [write_list] does when the overflow column is found and the
    cleaned list holds strings. *)
Lemma write_list_strings (s : self) (col : list cell) (ids : list string) :
  getitem (df s) (bad_token_column s) = Ok col ->
  clean (to_delete s) = map CStr ids ->
  write_list s
  = (Ok tt,
     set_deleted (List.length (clean (to_delete s)))
       (set_output (Some (lines ids))
          (if negb (empty col)
           then set_logger
                  (logger s ++ [(Warn, "bad_token_column is not empty.")]) s
           else s))).
Proof.
  intros Hcol Hids.
  unfold write_list. unfold bind at 1. unfold get at 1. cbv iota beta.
  unfold bind at 1. unfold lift at 1. rewrite Hcol. cbv iota beta.
  unfold bind at 1.
  destruct (negb (empty col)); unfold lwarn, log, modify, ret; cbv iota beta;
    unfold bind at 1; unfold get at 1; cbv iota beta;
    unfold bind at 1; cbv iota beta; unfold bind at 1;
    cbn [to_delete set_logger set_output]; rewrite Hids;
    rewrite (write_lines ids EmptyString) by reflexivity; reflexivity.
Qed.

(** C6. The list written in list mode has no duplicate identifier, also
    when an identifier comes both from the duplicate mask and from the
    validation pass, and its identifiers stand in the order of their
    first occurrence in the mask-derived identifiers followed by the
    failures of validation.  [s] is the state at the end of the
    duplicate-detection pass, [to_delete s] the mask-derived
    identifiers. *)
Theorem C6_deletion_list_has_no_duplicates (s : self) (col : list cell) :
  getitem (df (snd (validate_list s)))
          (bad_token_column (snd (validate_list s))) = Ok col ->
  forallb is_str (to_delete (snd (validate_list s))) = true ->
  exists fails ids,
    to_delete (snd (validate_list s)) = to_delete s ++ fails
    /\ fst (write_list (snd (validate_list s))) = Ok tt
    /\ output (snd (write_list (snd (validate_list s)))) = Some (lines ids)
    /\ map CStr ids = clean (to_delete s ++ fails)
    /\ NoDup ids
    /\ (forall x, In x ids <-> In (CStr x) (to_delete s) \/ In (CStr x) fails)
    /\ (forall i j x y,
           nth_error ids i = Some x -> nth_error ids j = Some y -> i < j ->
           exists p q,
             first_pos (CStr x) (to_delete s ++ fails) = Some p
             /\ first_pos (CStr y) (to_delete s ++ fails) = Some q
             /\ p < q).
Proof.
  destruct (validate_list_to_delete_grows s) as [fails Hfails].
  set (s1 := snd (validate_list s)) in *.
  intros Hcol Hstr.
  assert (Hclean : forallb is_str (clean (to_delete s1)) = true).
  { apply forallb_forall. intros x Hx. apply (proj1 (clean_In _ _)) in Hx.
    rewrite forallb_forall in Hstr. now apply Hstr. }
  destruct (strings_of_cells _ Hclean) as [ids Hids].
  exists fails, ids.
  split; [assumption|].
  pose proof (write_list_strings s1 col ids Hcol Hids) as Hrun.
  rewrite Hrun. cbn [fst snd output set_deleted set_output].
  split; [reflexivity|]. split; [reflexivity|].
  rewrite <- Hfails. split; [now symmetry|].
  split.
  { apply (NoDup_map_inv CStr). rewrite <- Hids. apply clean_NoDup. }
  split.
  { intro x. rewrite <- in_app_iff, <- Hfails, <- clean_In, Hids.
    split.
    - now apply in_map.
    - intro H. apply in_map_iff in H as [y [Hy Hin]]. inversion Hy; subst. exact Hin. }
  intros i j x y Hi Hj Hlt.
  apply (clean_order (to_delete s1) i j); try assumption;
    rewrite Hids, nth_error_map; [now rewrite Hi | now rewrite Hj].
Qed.

(** ** What each method leaves untouched *)

Lemma same_but_token_set_cell (d0 d : DataFrame) (k j : nat) (c : cell) :
  same_but_token d0 d ->
  get_loc WCA_TOKEN_FIELD (columns d) = Some j ->
  same_but_token d0 (set_cell (S k) j c d).
Proof.
  intros Hsame Hj. apply (same_but_token_trans _ d); [assumption|].
  split; [reflexivity|]. unfold set_cell. cbn [rows columns]. split.
  - now destruct (rows d).
  - generalize (S k). induction (rows d) as [|r l IH]; intro n.
    + destruct n; constructor.
    + destruct n as [|n]; simpl; constructor.
      * split; [reflexivity|]. split; [apply update_nth_length|].
        intros j' Hj'. apply nth_error_update_nth_other. congruence.
      * clear IH. induction l; constructor; [now repeat split | assumption].
      * now repeat split.
      * apply IH.
Qed.

Lemma row_setitem_frame_but_token (view : bool) (k : nat) (c : cell) :
  respects frame_but_token (row_setitem view (S k) WCA_TOKEN_FIELD c).
Proof.
  intro s. unfold row_setitem, bind, get.
  destruct (get_loc WCA_TOKEN_FIELD (columns (df s))) as [j|] eqn:Hj;
    [destruct view|]; simpl; try apply same_but_token_refl.
  apply same_but_token_set_cell; [apply same_but_token_refl | assumption].
Qed.

Lemma row_setitem_same_columns (view : bool) (pos : nat) (name : string)
      (c : cell) :
  respects same_columns (row_setitem view pos name c).
Proof.
  intro s. unfold row_setitem, bind, get.
  destruct (get_loc name (columns (df s))); [destruct view|]; reflexivity.
Qed.

Lemma row_setitem_same_bad (view : bool) (pos : nat) (name : string)
      (c : cell) :
  respects same_bad_token_column (row_setitem view pos name c).
Proof.
  intro s. unfold row_setitem, bind, get.
  destruct (get_loc name (columns (df s))); [destruct view|]; reflexivity.
Qed.

Lemma row_setitem_copy (pos : nat) (name : string) (c : cell) :
  respects same_frame (row_setitem false pos name c).
Proof.
  intro s. unfold row_setitem, bind, get.
  destruct (get_loc name (columns (df s))); now split.
Qed.

(** On a frame with an [int64] column the rows are copies: Column
    Repair changes nothing. *)
Lemma fix_token_position_copy (s : self) :
  is_single_block (df s) = false -> df (snd (fix_token_position s)) = df s.
Proof.
  intro H.
  assert (Hr : respects same_frame
                 (for_each (enumerate (rows (iloc_from 1 (df s))))
                    (fix_token_position_body (columns (iloc_from 1 (df s))) false))).
  { respects_frame ltac:(apply row_setitem_copy). }
  unfold fix_token_position. rewrite bind_get, H. apply Hr.
Qed.

Lemma fix_token_position_frame_but_token :
  respects frame_but_token fix_token_position.
Proof. respects_frame ltac:(apply row_setitem_frame_but_token). Qed.

Lemma fix_token_position_same_columns : respects same_columns fix_token_position.
Proof. respects_frame ltac:(apply row_setitem_same_columns). Qed.

Lemma fix_token_position_same_bad :
  respects same_bad_token_column fix_token_position.
Proof. respects_frame ltac:(apply row_setitem_same_bad). Qed.

Lemma delete_older_duplicates_same_columns (b : bool) :
  respects same_columns (delete_older_duplicates b).
Proof.
  intro s. unfold delete_older_duplicates, bind, get, lift, ret, modify.
  destruct b.
  - destruct (duplicated (df s) WCA_TOKEN_FIELD); reflexivity.
  - unfold drop_duplicates, rbind.
    destruct (frame_empty (df s)); [reflexivity|].
    destruct (duplicated (df s) WCA_TOKEN_FIELD); reflexivity.
Qed.

Lemma delete_older_duplicates_same_frame :
  respects same_frame (delete_older_duplicates true).
Proof.
  intro s. unfold delete_older_duplicates, bind, get, lift, ret.
  destruct (duplicated (df s) WCA_TOKEN_FIELD); now split.
Qed.

Lemma delete_older_duplicates_same_bad (b : bool) :
  respects same_bad_token_column (delete_older_duplicates b).
Proof.
  intro s. unfold delete_older_duplicates, bind, get, lift, ret, modify.
  destruct b.
  - destruct (duplicated (df s) WCA_TOKEN_FIELD); reflexivity.
  - destruct (drop_duplicates (df s) WCA_TOKEN_FIELD); reflexivity.
Qed.

Lemma _delete_same_columns (label : nat) : respects same_columns (_delete label).
Proof.
  intro s. unfold _delete, lverbose, log, bind, get, lift, modify. cbn.
  unfold drop_label. now destruct (existsb _ _).
Qed.

Lemma same_frame_but_token (s s' : self) : same_frame s s' -> frame_but_token s s'.
Proof.
  intros [H _]. unfold frame_but_token. rewrite H. apply same_but_token_refl.
Qed.

Lemma list_duplicates_same_frame : respects same_frame list_duplicates.
Proof. respects_frame ltac:(apply delete_older_duplicates_same_frame). Qed.

Lemma validate_list_same_frame : respects same_frame validate_list.
Proof. respects_frame fail. Qed.

Lemma write_list_same_frame : respects same_frame write_list.
Proof. respects_frame fail. Qed.

(** From the duplicate-detection pass on, list mode leaves the frame as
    it is. *)
Lemma run_list_tail_same_frame :
  respects same_frame
    (bind list_duplicates
       (fun _ => bind (linfo "Validating responses...")
          (fun _ => bind validate_list (fun _ => write_list)))).
Proof.
  respects_frame ltac:(first [ apply list_duplicates_same_frame
                             | apply validate_list_same_frame
                             | apply write_list_same_frame ]).
Qed.

Lemma delete_duplicates_same_columns : respects same_columns delete_duplicates.
Proof. respects_frame ltac:(apply delete_older_duplicates_same_columns). Qed.

Lemma validate_delete_same_columns : respects same_columns validate_delete.
Proof. respects_frame ltac:(apply _delete_same_columns). Qed.

Lemma write_csv_same_frame : respects same_frame write_csv.
Proof. respects_frame fail. Qed.

(** What [run] does before it calls [run_list] or [run_delete]. *)
Lemma run_loaded (infer : list string -> list cell) (c : csv) (text : string)
      (s0 : self) (d : DataFrame) (name : string) (others : list string) :
  read_csv infer MAX_COLUMNS (Some c) = Ok d ->
  rev (columns d) = name :: others ->
  run infer (Some c) (Some text) s0
  = (if list_only s0 then run_list else run_delete) (loaded s0 d text name).
Proof.
  intros Hread Hlast.
  unfold run, bind, try_except, lift, lverbose, log, modify, get, ret.
  rewrite Hread. cbn [df set_df set_logger set_token_list set_total_responses
                      set_bad_token_column columns].
  rewrite Hlast. unfold loaded.
  destruct (PyStr.contains "Unnamed" name); reflexivity.
Qed.

Lemma respects_same_frame_but_token {A} (m : M A) :
  respects same_frame m -> respects frame_but_token m.
Proof. intros H s. apply same_frame_but_token, H. Qed.

Lemma run_list_frame_but_token : respects frame_but_token run_list.
Proof.
  unfold run_list.
  respects_frame ltac:(first
    [ apply fix_token_position_frame_but_token
    | apply respects_same_frame_but_token, list_duplicates_same_frame
    | apply respects_same_frame_but_token, validate_list_same_frame
    | apply respects_same_frame_but_token, write_list_same_frame ]).
Qed.

(** ** The first row *)

(** C10. The Deduplicator scans every row, the first one included: the
    first row is never marked and stays the first row of the frame, and
    a later row whose token cell equals that of the first row, empty or
    not, is marked in list mode and removed in delete mode.  Column
    Repair and the validation pass of delete mode, which start at the
    second row, leave the first row where it is. *)
Theorem C10_deduplicator_scans_first_row
        (s : self) (j : nat) (r0 : nat * list cell)
        (rest : list (nat * list cell)) :
  get_loc WCA_TOKEN_FIELD (columns (df s)) = Some j ->
  rows (df s) = r0 :: rest ->
  (exists m,
      delete_older_duplicates true s = (Ok (Some (false :: m)), s)
      /\ forall i r, nth_error rest i = Some r ->
                     token_at j r = token_at j r0 -> nth i m false = true)
  /\ (exists rest',
         delete_older_duplicates false s
         = (Ok None,
            set_df {| columns := columns (df s); rows := r0 :: rest' |} s)
         /\ forall r, In r rest' ->
                      In r rest /\ token_at j r <> token_at j r0)
  /\ hd_error (rows (df (snd (fix_token_position s)))) = Some r0
  /\ (strings_frame (df s) = true -> NoDup (index (df s)) ->
      hd_error (rows (df (snd (validate_delete s)))) = Some r0).
Proof.
  intros H Hrows. split; [|split; [|split]].
  - rewrite (delete_older_duplicates_list _ _ H), Hrows. simpl.
    eexists. split; [reflexivity|].
    intros i r Hr E.
    rewrite (duplicated_from_nth _ _ i (token_at j r))
      by (rewrite nth_error_map, Hr; reflexivity).
    simpl. now rewrite E, cell_eqb_refl.
  - rewrite (delete_older_duplicates_delete _ _ H), Hrows.
    unfold getitem_mask. rewrite Hrows. simpl.
    eexists. split; [reflexivity|].
    intros r Hr. split; [now apply mask_select_In in Hr|].
    intro E.
    assert (Hin : In r (with_token j (token_at j r0)
               (mask_select
                  (map negb (duplicated_from [token_at j r0] (map (token_at j) rest)))
                  rest))).
    { unfold with_token. apply filter_In. split; [assumption|].
      now apply cell_eqb_eq. }
    rewrite mask_select_first in Hin. simpl in Hin.
    now rewrite cell_eqb_refl in Hin.
  - destruct (fix_token_position_frame_but_token s) as [_ [Hhd _]].
    now rewrite Hhd, Hrows.
  - intros Hstr Hnd.
    destruct (validate_delete_strings s j r0 rest Hstr H Hrows Hnd) as [_ [Hdf _]].
    now rewrite Hdf.
Qed.

(** ** Delete mode and the columns *)

(** The frame keeps its columns all along [run_delete]: the frame
    [drop] builds without the overflow column is discarded. *)
Lemma run_delete_same_columns : respects same_columns run_delete.
Proof.
  assert (Hw : respects same_columns write_csv).
  { intro s. destruct (write_csv_same_frame s) as [H _].
    unfold same_columns. now rewrite H. }
  unfold run_delete.
  respects_frame ltac:(first
    [ apply fix_token_position_same_columns
    | apply delete_duplicates_same_columns
    | apply validate_delete_same_columns
    | apply Hw ]).
Qed.

(** ** The Loader *)

Lemma mapi_from_length {A B} (f : nat -> A -> B) (l : list A) (k : nat) :
  List.length (mapi_from k f l) = List.length l.
Proof.
  revert k. induction l as [|a l IH]; intro k; simpl; [reflexivity|].
  now rewrite IH.
Qed.

Lemma mapi_from_labels {A B} (f : nat -> A -> B) (l : list A) (k : nat) :
  map fst (mapi_from k (fun i x => (i, f i x)) l) = seq k (List.length l).
Proof.
  revert k. induction l as [|a l IH]; intro k; simpl; [reflexivity|].
  now rewrite IH.
Qed.

Lemma mapi_from_converted (nconv : nat) (g : nat -> string -> cell)
      (l : list string) (k : nat) :
  k + List.length l <= nconv ->
  forallb is_str
    (mapi_from k (fun j x => if j <? nconv then CStr x else g j x) l) = true.
Proof.
  revert k. induction l as [|a l IH]; intros k Hk; simpl in *; [reflexivity|].
  destruct (Nat.ltb_spec k nconv); [|lia]. simpl. apply IH. lia.
Qed.

Lemma pad_length (n : nat) (fields : list string) :
  List.length fields <= n -> List.length (pad n fields) = n.
Proof.
  intro H. unfold pad. rewrite length_app, repeat_length. lia.
Qed.

(** Of a survey with at most [nconv] columns the reader makes a frame
    of strings labelled 0, 1, 2, ... *)
Lemma read_csv_strings (infer : list string -> list cell) (nconv : nat)
      (c : csv) (d : DataFrame) :
  List.length (header c) <= nconv ->
  read_csv infer nconv (Some c) = Ok d ->
  strings_frame d = true /\ index d = seq 0 (len d).
Proof.
  intros Hn. unfold read_csv.
  destruct (header c) as [|h hs] eqn:Eh; [discriminate|].
  set (n := List.length (h :: hs)) in *.
  destruct (forallb _ (records c)) eqn:Ewide; [|discriminate].
  intro H. inversion H; subst d; clear H. unfold mapi. split.
  - unfold strings_frame. cbn [rows columns].
    rewrite forallb_forall in Ewide.
    apply forallb_forall. intros [label row] Hin.
    apply In_nth_error in Hin as [p Hp]. rewrite mapi_from_nth in Hp.
    destruct (nth_error (map (pad n) (records c)) p)
      as [fields|] eqn:Ef; [|discriminate].
    simpl in Hp. inversion Hp; subst label row; clear Hp.
    apply nth_error_In in Ef. apply in_map_iff in Ef as [raw [Hraw Hin]].
    specialize (Ewide raw Hin). apply Nat.leb_le in Ewide.
    subst fields. cbn [snd].
    rewrite !mapi_from_length, pad_length by assumption.
    fold n. rewrite Nat.eqb_refl. cbn [andb].
    apply mapi_from_converted. rewrite pad_length by assumption. simpl. lia.
  - unfold index, len. cbn [rows].
    now rewrite mapi_from_labels, mapi_from_length.
Qed.

(** C9, at a survey of 401 columns. The converters stop at column
    [MAX_COLUMNS]: the cell [007] of column 399 is read as the string
    [007], the cell [007] of column 400 as the number 7. *)
Theorem C9_column_past_max_columns_is_not_a_string :
  exists d row,
    read_csv infer_dtype MAX_COLUMNS (Some wide_survey) = Ok d
    /\ rows d = [(0, row)]
    /\ nth_error row 399 = Some (CStr "007")
    /\ nth_error row 400 = Some (CInt 7)
    /\ strings_frame d = false.
Proof.
  eexists. eexists. split; [vm_compute; reflexivity|].
  split; [reflexivity|]. split; [reflexivity|]. split; reflexivity.
Qed.

(** ** Missing files *)

(** C7, at the two missing files. Without the survey file the run logs
    at the error level and exits with status 1; without the token file
    it ends in the [FileNotFoundError] that [open] raises, which no
    handler catches: the logger is not called and [sysexit] is not
    reached.  Neither run writes to the output. *)
Theorem C7_missing_token_file_is_not_handled
        (infer : list string -> list cell) (c : csv) (d : DataFrame)
        (tokens : option string) (s0 : self) :
  run infer None tokens s0
  = (Raise (SystemExit 1),
     set_logger (logger s0 ++ [(Verbose, "Opening files...");
                               (Err, "Survey file not found.")]) s0)
  /\ (read_csv infer MAX_COLUMNS (Some c) = Ok d ->
      run infer (Some c) None s0
      = (Raise FileNotFoundError,
         set_df d (set_logger (logger s0 ++ [(Verbose, "Opening files...")]) s0))).
Proof.
  split.
  - unfold run, bind, try_except, lift, lverbose, lerr, log, modify, raise.
    cbn. now rewrite <- app_assoc.
  - intro Hread.
    unfold run, bind, try_except, lift, lverbose, log, modify, raise.
    now rewrite Hread.
Qed.

(** ** List mode without an overflow column *)

Lemma bind_raises {A B} (P : self -> Prop) (m : M A) (k : A -> M B) (s : self) :
  P s -> respects (fun s s' => P s -> P s') m ->
  (forall a s', P s' -> exists e, fst (k a s') = Raise e) ->
  exists e, fst (bind m k s) = Raise e.
Proof.
  intros Hs Hm Hk. unfold bind. specialize (Hm s Hs).
  destruct (m s) as [[a|e] s']; simpl in *.
  - now apply Hk.
  - now exists e.
Qed.

Lemma same_bad_keeps_none {A} (m : M A) :
  respects same_bad_token_column m ->
  respects (fun s s' => bad_token_column s = None -> bad_token_column s' = None) m.
Proof. intros H s Hs. now rewrite (H s). Qed.

Lemma list_duplicates_same_bad : respects same_bad_token_column list_duplicates.
Proof. respects_frame ltac:(apply delete_older_duplicates_same_bad). Qed.

Lemma validate_list_same_bad : respects same_bad_token_column validate_list.
Proof. respects_frame fail. Qed.

Lemma run_list_raises_without_overflow (s : self) :
  bad_token_column s = None -> exists e, fst (run_list s) = Raise e.
Proof.
  intro Hs. unfold run_list.
  eapply (bind_raises (fun s => bad_token_column s = None));
    [exact Hs | apply same_bad_keeps_none; respects_frame fail|].
  clear s Hs. intros _ s Hs. rewrite bind_get.
  eapply (bind_raises (fun s => bad_token_column s = None)); [exact Hs | apply same_bad_keeps_none |].
  { destruct (truthy (bad_token_column s));
      [apply fix_token_position_same_bad | respects_frame fail]. }
  clear s Hs. intros _ s Hs.
  eapply (bind_raises (fun s => bad_token_column s = None));
    [exact Hs | apply same_bad_keeps_none, list_duplicates_same_bad|].
  clear s Hs. intros _ s Hs.
  eapply (bind_raises (fun s => bad_token_column s = None));
    [exact Hs | apply same_bad_keeps_none; respects_frame fail|].
  clear s Hs. intros _ s Hs.
  eapply (bind_raises (fun s => bad_token_column s = None));
    [exact Hs | apply same_bad_keeps_none, validate_list_same_bad|].
  clear s Hs. intros _ s Hs.
  unfold write_list. rewrite bind_get. unfold bind, lift. rewrite Hs.
  now exists KeyError.
Qed.

(** ** Delete mode and the overflow column *)

Lemma bind_ok {A B} (m : M A) (k : A -> M B) (s : self) (a : A) :
  fst (m s) = Ok a -> bind m k s = k a (snd (m s)).
Proof. unfold bind. destruct (m s) as [r s']. simpl. now intros ->. Qed.

Lemma get_loc_of_In (name : string) (cols : list string) :
  In name cols -> exists j, get_loc name cols = Some j.
Proof.
  induction cols as [|c cols IH]; intro H; [contradiction|]. simpl.
  destruct (String.eqb name c) eqn:E; [now exists 0|].
  destruct H as [H|H]; [subst; now rewrite String.eqb_refl in E|].
  destruct (IH H) as [j Hj]. rewrite Hj. now exists (S j).
Qed.

Lemma mask_select_labels (mask : list bool) (l : list (nat * list cell)) :
  NoDup (map fst l) -> NoDup (map fst (mask_select mask l)).
Proof.
  revert mask. induction l as [|r l IH]; intros mask H.
  - destruct mask; constructor.
  - destruct mask as [|b mask]; [constructor|].
    inversion H as [|? ? Hnotin Hnd]; subst. simpl.
    destruct b; [|now apply IH].
    simpl. constructor; [|now apply IH].
    intro Hin. apply Hnotin. apply in_map_iff in Hin as [x [Hx Hin]].
    apply in_map_iff. exists x. split; [assumption|].
    eapply mask_select_In. eassumption.
Qed.

Lemma filter_labels (f : nat * list cell -> bool) (l : list (nat * list cell)) :
  NoDup (map fst l) -> NoDup (map fst (filter f l)).
Proof.
  induction l as [|r l IH]; intro H; [constructor|].
  inversion H as [|? ? Hnotin Hnd]; subst. simpl.
  destruct (f r); [|now apply IH].
  simpl. constructor; [|now apply IH].
  intro Hin. apply Hnotin. apply in_map_iff in Hin as [x [Hx Hin]].
  apply in_map_iff. exists x. split; [assumption|].
  now apply filter_In in Hin as [Hin _].
Qed.

Lemma strings_frame_sub (cols : list string) (l l' : list (nat * list cell)) :
  (forall r, In r l' -> In r l) ->
  strings_frame {| columns := cols; rows := l |} = true ->
  strings_frame {| columns := cols; rows := l' |} = true.
Proof.
  unfold strings_frame. cbn [rows columns]. intros Hsub H.
  rewrite forallb_forall in *. intros r Hr. apply H, Hsub, Hr.
Qed.

Lemma repair_strings (cols : list string) (bad : option string)
      (r : nat * list cell) :
  List.length (snd r) = List.length cols -> forallb is_str (snd r) = true ->
  List.length (snd (repair cols bad r)) = List.length cols
  /\ forallb is_str (snd (repair cols bad r)) = true.
Proof.
  intros Hl Hs. unfold repair.
  destruct (get_loc WCA_TOKEN_FIELD cols); [|now split].
  destruct (row_getitem cols (snd r) (Some WCA_TOKEN_FIELD)) as [[tok| |]|];
    try now split.
  destruct (row_getitem cols (snd r) bad) as [[ov| |]|]; try now split.
  destruct (PyStr.is_empty (PyStr.strip tok) && (String.length ov =? WCA_TOKEN_LEN));
    [|now split].
  cbn [snd]. rewrite update_nth_length. split; [assumption|].
  now apply forallb_is_str_update.
Qed.

(** *** The passes of delete mode complete *)

Lemma repair_pass_ready (s : self) :
  ready s ->
  fst ((if truthy (bad_token_column s) then fix_token_position else ret tt) s)
  = Ok tt
  /\ ready (snd ((if truthy (bad_token_column s)
                  then fix_token_position else ret tt) s)).
Proof.
  intros Hready.
  destruct (truthy (bad_token_column s)) eqn:Etruthy;
    [|split; [reflexivity | exact Hready]].
  destruct Hready as [Hstr [Hnd [[j Hj] Hbad]]].
  destruct (bad_token_column s) as [[|c bad]|] eqn:Eb; try discriminate.
  destruct (Hbad _ eq_refl) as [jb Hjb].
  rewrite (fix_token_position_strings s _ j jb Hstr Hj Eb Hjb).
  cbn [fst snd]. split; [reflexivity|].
  unfold ready. cbn [df set_df columns bad_token_column].
  split; [|split; [|split; [eauto | now rewrite Eb]]].
  - unfold strings_frame in *. cbn [rows columns].
    destruct (rows (df s)) as [|r0 rest]; [reflexivity|].
    cbn [forallb] in *. apply andb_prop in Hstr as [H0 Hrest].
    rewrite H0. cbn [andb]. rewrite forallb_forall in *.
    intros r Hr. apply in_map_iff in Hr as [r' [Hr' Hin]]. subst r.
    specialize (Hrest r' Hin). apply andb_prop in Hrest as [Hl Hs].
    apply Nat.eqb_eq in Hl.
    destruct (repair_strings (columns (df s)) (Some (String c bad)) r' Hl Hs)
      as [Hl' Hs'].
    rewrite Hl', Nat.eqb_refl, Hs'. reflexivity.
  - unfold index in *. cbn [rows].
    destruct (rows (df s)) as [|r0 rest]; [constructor|].
    cbn [map] in *. rewrite map_map.
    erewrite map_ext; [exact Hnd|]. intro r. apply repair_fst.
Qed.

Lemma delete_duplicates_ready (s : self) :
  ready s ->
  fst (delete_duplicates s) = Ok tt /\ ready (snd (delete_duplicates s)).
Proof.
  intros [Hstr [Hnd [[j Hj] Hbad]]].
  unfold delete_duplicates, linfo, log.
  rewrite bind_modify, bind_get.
  rewrite (bind_ok _ _ _ None)
    by (rewrite delete_older_duplicates_delete with (j := j); [reflexivity|exact Hj]).
  rewrite delete_older_duplicates_delete with (j := j) by exact Hj.
  cbn [snd]. rewrite bind_get, bind_modify.
  cbn [fst snd modify]. split; [reflexivity|].
  unfold ready. cbn [df set_df set_logger set_deleted columns bad_token_column
                      getitem_mask].
  split; [|split; [|split; [eauto | exact Hbad]]].
  - destruct (df s) as [cols l]. cbn [columns rows] in *.
    eapply strings_frame_sub; [|exact Hstr].
    intros r Hr. eapply mask_select_In. exact Hr.
  - unfold index in *. cbn [rows]. now apply mask_select_labels.
Qed.

Lemma validate_delete_ready (s : self) :
  ready s ->
  fst (validate_delete s) = Ok tt /\ ready (snd (validate_delete s)).
Proof.
  intros [Hstr [Hnd [[j Hj] Hbad]]].
  assert (Hb : respects same_bad_token_column validate_delete).
  { respects_frame ltac:(
      apply respects_modify; intro; reflexivity). }
  destruct (rows (df s)) as [|r0 rest] eqn:Erows.
  - unfold validate_delete, bind, get. cbn [iloc_from rows]. rewrite Erows.
    cbn. split; [reflexivity|]. now repeat split; eauto.
  - destruct (validate_delete_strings s j r0 rest Hstr Hj Erows Hnd)
      as [H1 [H2 _]].
    split; [assumption|]. unfold ready. rewrite H2, (Hb s).
    cbn [columns]. split; [|split; [|split; [eauto | exact Hbad]]].
    + destruct (df s) as [cols l]. cbn [columns rows] in *. subst l.
      eapply strings_frame_sub; [|exact Hstr].
      intros r [Hr|Hr]; [now left | right].
      now apply filter_In in Hr as [Hr _].
    + unfold index in *. cbn [rows map]. rewrite Erows in Hnd. cbn [map] in Hnd.
      inversion Hnd as [|? ? Hnotin Hnd']; subst.
      constructor; [|now apply filter_labels].
      intro Hin. apply Hnotin. apply in_map_iff in Hin as [x [Hx Hin]].
      apply in_map_iff. exists x. split; [assumption|].
      now apply filter_In in Hin as [Hin _].
Qed.

Lemma write_csv_completes (s : self) :
  ready s ->
  fst (write_csv s) = Ok tt
  /\ df (snd (write_csv s)) = df s
  /\ output (snd (write_csv s))
     = Some (PyStr.sub_unnamed (PyStr.universal_newlines (to_csv (df s)))).
Proof.
  intros [_ [_ [_ Hbad]]]. unfold write_csv. rewrite bind_get.
  destruct (bad_token_column s) as [[|c bad]|] eqn:Eb; cbn [truthy];
    try (repeat split; reflexivity).
  destruct (Hbad _ eq_refl) as [jb Hjb].
  unfold bind at 1 4 7. unfold bind at 1 3 5. unfold lift at 1 3 5.
  rewrite (getitem_token _ _ _ Hjb). cbv iota beta.
  unfold bind at 1 3 5.
  unfold drop_column. rewrite Hjb. unfold lift, bind, ret.
  destruct (negb (empty (map (token_at jb) (rows (df s)))));
    repeat split; reflexivity.
Qed.

(** On a frame of strings that has a token column, delete mode runs to
    its end, with an overflow column or without one, and writes the
    frame with every column it has. *)
Lemma run_delete_completes (s : self) :
  ready s ->
  fst (run_delete s) = Ok tt
  /\ columns (df (snd (run_delete s))) = columns (df s)
  /\ output (snd (run_delete s))
     = Some (PyStr.sub_unnamed
               (PyStr.universal_newlines (to_csv (df (snd (run_delete s)))))).
Proof.
  intro Hready.
  split; [|split; [apply run_delete_same_columns|]];
    unfold run_delete, linfo, log;
    rewrite bind_modify, bind_get;
    set (s1 := set_logger (logger s ++ [(Info, "Fixing columns...")]) s);
    assert (H1 : ready s1) by exact Hready;
    change (bad_token_column s1) with (bad_token_column s);
    change (bad_token_column s) with (bad_token_column s1);
    destruct (repair_pass_ready s1 H1) as [Hok2 H2];
    rewrite (bind_ok _ _ _ tt Hok2);
    destruct (delete_duplicates_ready _ H2) as [Hok3 H3];
    rewrite (bind_ok _ _ _ tt Hok3);
    rewrite bind_modify;
    match goal with
    | |- context [bind validate_delete _ ?s4] =>
        assert (H4 : ready s4) by exact H3;
        destruct (validate_delete_ready s4 H4) as [Hok5 H5];
        rewrite (bind_ok _ _ _ tt Hok5);
        destruct (write_csv_completes _ H5) as [Hok6 [Hdf6 Hout6]]
    end.
  - exact Hok6.
  - rewrite Hout6, Hdf6. reflexivity.
Qed.

Lemma run_delete_mode_completes
      (infer : list string -> list cell) (c : csv) (text : string)
      (s0 : self) (d : DataFrame) :
  list_only s0 = false ->
  List.length (header c) <= MAX_COLUMNS ->
  read_csv infer MAX_COLUMNS (Some c) = Ok d ->
  In WCA_TOKEN_FIELD (columns d) ->
  fst (run infer (Some c) (Some text) s0) = Ok tt.
Proof.
  intros Hmode Hn Hread Hwca.
  destruct (read_csv_strings infer _ c d Hn Hread) as [Hstr Hidx].
  destruct (rev (columns d)) as [|name others] eqn:Elast.
  { apply (f_equal (@rev string)) in Elast. rewrite rev_involutive in Elast.
    rewrite Elast in Hwca. contradiction. }
  rewrite (run_loaded infer c text s0 d name others Hread Elast), Hmode.
  apply run_delete_completes. unfold ready, loaded.
  cbn [df set_df set_bad_token_column set_total_responses set_token_list
          set_logger bad_token_column].
  split; [exact Hstr|]. split; [rewrite Hidx; apply seq_NoDup|].
  split; [now apply get_loc_of_In|].
  intros bad Hbad. apply get_loc_of_In.
  destruct (PyStr.contains "Unnamed" name); [|discriminate].
  inversion Hbad; subst bad. apply in_rev. rewrite Elast. now left.
Qed.

(** C3. When the last column of the table does not hold the
    placeholder, [run] in list mode never completes: with
    [bad_token_column] set to [None], the check of the overflow column
    at the end of [run_list] looks up the column [None] in the frame and
    raises, before the output is opened.  Delete mode, which guards that
    lookup, runs to its end on such a table (of at most [MAX_COLUMNS]
    columns, with a token column). *)
Theorem C3_list_mode_raises_without_overflow_column
        (infer : list string -> list cell) (c : csv) (text : string)
        (s0 : self) (d : DataFrame) (name : string) (others : list string) :
  read_csv infer MAX_COLUMNS (Some c) = Ok d ->
  rev (columns d) = name :: others ->
  PyStr.contains "Unnamed" name = false ->
  (list_only s0 = true ->
   exists e, fst (run infer (Some c) (Some text) s0) = Raise e)
  /\ (list_only s0 = false ->
      List.length (header c) <= MAX_COLUMNS ->
      In WCA_TOKEN_FIELD (columns d) ->
      fst (run infer (Some c) (Some text) s0) = Ok tt).
Proof.
  intros Hread Hlast Hname. split.
  - intro Hmode.
    rewrite (run_loaded infer c text s0 d name others Hread Hlast), Hmode.
    apply run_list_raises_without_overflow.
    unfold loaded. now rewrite Hname.
  - intros Hmode Hn Hwca.
    exact (run_delete_mode_completes infer c text s0 d Hmode Hn Hread Hwca).
Qed.

(** *** The passes of list mode complete *)

Lemma same_but_token_index (d d' : DataFrame) :
  same_but_token d d' -> index d' = index d /\ len d' = len d.
Proof.
  intros [_ [_ H]]. unfold index, len.
  induction H as [|r r' l l' [Hf _] _ [IH1 IH2]]; [now split|].
  simpl. now rewrite Hf, IH1, IH2.
Qed.

Lemma repair_pass_ready_list (s : self) :
  ready_list s ->
  fst ((if truthy (bad_token_column s) then fix_token_position else ret tt) s)
  = Ok tt
  /\ ready_list (snd ((if truthy (bad_token_column s)
                       then fix_token_position else ret tt) s)).
Proof.
  intros [Hready [Hidx [Hid Hbad]]].
  destruct (repair_pass_ready s Hready) as [Hok Hready'].
  split; [assumption|]. split; [assumption|].
  assert (Hframe : frame_but_token s
            (snd ((if truthy (bad_token_column s)
                   then fix_token_position else ret tt) s))).
  { destruct (truthy (bad_token_column s));
      [apply fix_token_position_frame_but_token | apply same_but_token_refl]. }
  assert (Hsame : same_bad_token_column s
            (snd ((if truthy (bad_token_column s)
                   then fix_token_position else ret tt) s))).
  { destruct (truthy (bad_token_column s));
      [apply fix_token_position_same_bad | reflexivity]. }
  destruct (same_but_token_index _ _ Hframe) as [Hi Hl].
  destruct Hframe as [Hcols _].
  rewrite Hi, Hl, Hcols, Hsame. now repeat split.
Qed.

Lemma token_at_str (d : DataFrame) (r : nat * list cell) (name : string)
      (j : nat) :
  strings_frame d = true -> In r (rows d) ->
  get_loc name (columns d) = Some j ->
  is_str (token_at j r) = true.
Proof.
  intros Hstr Hin Hj. destruct (strings_frame_rows _ _ Hstr Hin) as [Hl Hs].
  destruct (forallb_is_str_nth (snd r) j Hs) as [t Ht].
  - rewrite Hl. now apply get_loc_lt in Hj.
  - unfold token_at. now rewrite (nth_error_nth _ _ _ Ht).
Qed.

Lemma list_duplicates_ready (s : self) :
  ready_list s ->
  fst (list_duplicates s) = Ok tt
  /\ ready_list (snd (list_duplicates s))
  /\ forallb is_str (to_delete (snd (list_duplicates s))) = true.
Proof.
  intros [[Hstr [Hnd [[j Hj] Hbadcol]]] [Hidx [[jid Hjid] Hbad]]].
  unfold list_duplicates, linfo, log. rewrite bind_modify.
  rewrite (bind_ok _ _ _ (Some (duplicated_from [] (map (token_at j) (rows (df s))))))
    by (rewrite delete_older_duplicates_list with (j := j); [reflexivity|exact Hj]).
  rewrite delete_older_duplicates_list with (j := j) by exact Hj.
  cbn [snd]. rewrite bind_get. unfold bind at 1. unfold lift.
  cbn [df set_logger].
  rewrite (getitem_token _ _ jid) by exact Hjid.
  cbv iota beta. rewrite bind_modify. cbn [fst snd modify].
  split; [reflexivity|]. split.
  - unfold ready_list, ready.
    cbn [df set_logger set_to_delete bad_token_column].
    repeat split; eauto.
  - cbn [to_delete set_logger set_to_delete getitem_mask rows].
    apply forallb_forall. intros c Hc.
    apply in_map_iff in Hc as [r [Hr Hin]]. subst c.
    apply (token_at_str (df s) r ID_FIELD); try assumption.
    eapply mask_select_In. exact Hin.
Qed.

Lemma validate_list_ready (s : self) :
  ready_list s -> forallb is_str (to_delete s) = true ->
  fst (validate_list s) = Ok tt
  /\ ready_list (snd (validate_list s))
  /\ forallb is_str (to_delete (snd (validate_list s))) = true.
Proof.
  intros [[Hstr [Hnd [[j Hj] Hbadcol]]] [Hidx [[jid Hjid] Hbad]]] Htd.
  destruct (validate_list_strings s j jid Hstr Hj Hjid Hidx)
    as [H1 [H2 [_ H4]]].
  pose proof (validate_list_same_bad s) as H5. unfold same_bad_token_column in H5.
  split; [assumption|]. split.
  - unfold ready_list, ready. rewrite H2, H5. repeat split; eauto.
  - rewrite H4, forallb_app, Htd. cbn [andb].
    apply forallb_forall. intros c Hc.
    apply in_map_iff in Hc as [r [Hr Hin]]. subst c.
    apply (token_at_str (df s) r ID_FIELD); try assumption.
    apply filter_In in Hin as [Hin _].
    destruct (rows (df s)); [contradiction | now right].
Qed.

Lemma write_list_completes (s : self) :
  ready_list s -> forallb is_str (to_delete s) = true ->
  fst (write_list s) = Ok tt.
Proof.
  intros [[_ [_ [_ Hbadcol]]] [_ [_ [name Hbad]]]] Htd.
  destruct (Hbadcol _ Hbad) as [jb Hjb].
  assert (Hclean : forallb is_str (clean (to_delete s)) = true).
  { apply forallb_forall. intros x Hx. apply (proj1 (clean_In _ _)) in Hx.
    rewrite forallb_forall in Htd. now apply Htd. }
  destruct (strings_of_cells _ Hclean) as [ids Hids].
  rewrite (write_list_strings s (map (token_at jb) (rows (df s))) ids);
    [reflexivity | | exact Hids].
  rewrite Hbad. now apply getitem_token.
Qed.

(** On a frame of strings read by the Loader, with a token column, an
    identifier column and a detected overflow column, list mode runs to
    its end. *)
Lemma run_list_completes (s : self) : ready_list s -> fst (run_list s) = Ok tt.
Proof.
  intro Hready. unfold run_list, linfo, log.
  rewrite bind_modify, bind_get.
  set (s1 := set_logger (logger s ++ [(Info, "Fixing columns...")]) s).
  assert (H1 : ready_list s1) by exact Hready.
  change (bad_token_column s1) with (bad_token_column s).
  change (bad_token_column s) with (bad_token_column s1).
  destruct (repair_pass_ready_list s1 H1) as [Hok2 H2].
  rewrite (bind_ok _ _ _ tt Hok2).
  destruct (list_duplicates_ready _ H2) as [Hok3 [H3 Htd3]].
  rewrite (bind_ok _ _ _ tt Hok3).
  rewrite bind_modify.
  match goal with
  | |- fst (bind validate_list _ ?s4) = _ =>
      assert (H4 : ready_list s4) by exact H3;
      assert (Htd4 : forallb is_str (to_delete s4) = true) by exact Htd3;
      destruct (validate_list_ready s4 H4 Htd4) as [Hok5 [H5 Htd5]];
      rewrite (bind_ok _ _ _ tt Hok5)
  end.
  now apply write_list_completes.
Qed.

Lemma run_list_mode_completes_with_overflow
      (infer : list string -> list cell) (c : csv) (text : string)
      (s0 : self) (d : DataFrame) (name : string) (others : list string) :
  list_only s0 = true ->
  List.length (header c) <= MAX_COLUMNS ->
  read_csv infer MAX_COLUMNS (Some c) = Ok d ->
  rev (columns d) = name :: others ->
  PyStr.contains "Unnamed" name = true ->
  In WCA_TOKEN_FIELD (columns d) ->
  In ID_FIELD (columns d) ->
  fst (run infer (Some c) (Some text) s0) = Ok tt.
Proof.
  intros Hmode Hn Hread Hlast Hname Hwca Hid.
  destruct (read_csv_strings infer _ c d Hn Hread) as [Hstr Hidx].
  rewrite (run_loaded infer c text s0 d name others Hread Hlast), Hmode.
  apply run_list_completes. unfold ready_list, ready, loaded. rewrite Hname.
  cbn [df set_df set_bad_token_column set_total_responses set_token_list
          set_logger bad_token_column].
  split; [split; [exact Hstr|]|].
  - split; [rewrite Hidx; apply seq_NoDup|].
    split; [now apply get_loc_of_In|].
    intros bad Hbad. apply get_loc_of_In.
    inversion Hbad; subst bad. apply in_rev. rewrite Hlast. now left.
  - split; [exact Hidx|]. split; [now apply get_loc_of_In | now exists name].
Qed.

(** C1, at [survey_with_overflow]. Delete mode completes and the frame
    it writes still has the overflow column: every line of the output
    has three fields, the token the respondent typed into the overflow
    column is still there, and only the name of the column has been
    blanked by [fix_headers]. *)
Theorem C1_overflow_column_is_still_written :
  exists s',
    run infer_dtype (Some survey_with_overflow) (Some token_file) (init false)
    = (Ok tt, s')
    /\ columns (df s') = ["Respondent ID"; "wca_token"; "Unnamed: 2"]
    /\ output s'
       = Some (lines ["Respondent ID,wca_token,";
                      "Response ID,Token,";
                      "1," +++ A64 +++ ",";
                      "5," +++ B64 +++ "," +++ B64]).
Proof.
  eexists. split; [vm_compute; reflexivity|]. split; reflexivity.
Qed.

(** * The passes end to end *)

(** ** Each pass as a function on the frame *)

Lemma bind_step {A B} (m : M A) (k : A -> M B) (s s' : self) (a : A) :
  m s = (Ok a, s') -> bind m k s = k a s'.
Proof. intro H. unfold bind. now rewrite H. Qed.

Lemma run_result {A} (m : M A) (s : self) (a : A) :
  fst (m s) = Ok a -> m s = (Ok a, snd (m s)).
Proof. destruct (m s) as [r s']. simpl. now intros ->. Qed.

Lemma repair_frame_columns (bad : option string) (d : DataFrame) :
  columns (repair_frame bad d) = columns d.
Proof. unfold repair_frame. now destruct (truthy bad). Qed.

Lemma repair_frame_index (bad : option string) (d : DataFrame) :
  index (repair_frame bad d) = index d.
Proof.
  unfold repair_frame, index. destruct (truthy bad); [|reflexivity].
  cbn [rows]. destruct (rows d) as [|r0 rest]; [reflexivity|].
  cbn [map]. rewrite map_map. f_equal. apply map_ext. intro r. apply repair_fst.
Qed.

Lemma repair_frame_len (bad : option string) (d : DataFrame) :
  len (repair_frame bad d) = len d.
Proof.
  unfold len. rewrite <- (length_map fst), <- (length_map fst (rows d)).
  exact (f_equal (@List.length nat) (repair_frame_index bad d)).
Qed.

(** Column Repair, when it is called, and the state it leaves. *)
Lemma repair_pass_frame (s : self) :
  ready s ->
  (if truthy (bad_token_column s) then fix_token_position else ret tt) s
  = (Ok tt, set_df (repair_frame (bad_token_column s) (df s)) s).
Proof.
  intros [Hstr [Hnd [[j Hj] Hbad]]]. unfold repair_frame.
  destruct (bad_token_column s) as [[|c bad]|] eqn:Eb; cbn [truthy];
    try (unfold ret; now rewrite set_df_same).
  destruct (Hbad _ eq_refl) as [jb Hjb].
  exact (fix_token_position_strings s _ j jb Hstr Hj Eb Hjb).
Qed.

Lemma repair_pass_keeps_ready (s : self) :
  ready s -> ready (set_df (repair_frame (bad_token_column s) (df s)) s).
Proof.
  intro H. destruct (repair_pass_ready s H) as [_ H'].
  now rewrite (repair_pass_frame s H) in H'.
Qed.

(** The deduplication pass of delete mode. *)
Lemma delete_duplicates_frame (s : self) (j : nat) :
  get_loc WCA_TOKEN_FIELD (columns (df s)) = Some j ->
  exists s',
    delete_duplicates s = (Ok tt, s')
    /\ df s' = dedup_frame (df s)
    /\ token_list s' = token_list s
    /\ bad_token_column s' = bad_token_column s
    /\ deleted s' = deleted s + (len (df s) - len (dedup_frame (df s))).
Proof.
  intro Hj. unfold delete_duplicates, linfo, log.
  rewrite bind_modify, bind_get.
  set (s1 := set_logger _ s).
  rewrite (bind_step _ _ _ _ _ (delete_older_duplicates_delete s1 j Hj)).
  rewrite bind_get, bind_modify.
  eexists. split; [reflexivity|].
  unfold dedup_frame, token_mask. rewrite Hj.
  repeat split; reflexivity.
Qed.

Lemma validate_delete_body_deleted (cols : list string) (j : nat)
      (pre post : list (nat * list cell)) (label : nat) (row : list cell)
      (s : self) :
  get_loc WCA_TOKEN_FIELD cols = Some j ->
  df s = {| columns := cols; rows := pre ++ (label, row) :: post |} ->
  NoDup (map fst (pre ++ (label, row) :: post)) ->
  List.length row = List.length cols -> forallb is_str row = true ->
  deleted (snd (validate_delete_body cols (label, row) s))
  = deleted s + (if passes cols (token_list s) (label, row) then 0 else 1)
  /\ bad_token_column (snd (validate_delete_body cols (label, row) s))
     = bad_token_column s.
Proof.
  intros Hj Hdf Hnd Hl Hs.
  destruct (row_getitem_str cols row _ j Hl Hs Hj) as [tok [Htok Hgtok]].
  unfold validate_delete_body, is_valid. unfold bind, lift, get, ret.
  rewrite Hgtok. simpl str_strip. cbv iota beta.
  unfold passes. cbn [snd]. rewrite Hgtok.
  destruct (existsb (String.eqb (PyStr.strip tok)) (token_list s));
    destruct (PyStr.is_empty (PyStr.strip tok));
    cbn [negb orb andb]; cbv iota beta.
  2: { split; cbn; [lia | reflexivity]. }
  all: unfold linfo, _delete, lverbose, log, modify, bind, get, lift;
    cbv iota beta; cbn [df set_logger]; rewrite Hdf;
    rewrite (drop_label_unique _ _ _ _ _ Hnd); cbv iota beta;
    split; reflexivity.
Qed.

Lemma validate_delete_loop_deleted (cols : list string) (toks : list string)
      (j : nat) :
  get_loc WCA_TOKEN_FIELD cols = Some j ->
  forall (remaining pre : list (nat * list cell)) (s : self),
    df s = {| columns := cols; rows := pre ++ remaining |} ->
    token_list s = toks ->
    NoDup (map fst (pre ++ remaining)) ->
    forallb (fun r => (List.length (snd r) =? List.length cols)
                      && forallb is_str (snd r)) remaining = true ->
    deleted (snd (for_each remaining (validate_delete_body cols) s))
    + List.length (filter (passes cols toks) remaining)
    = deleted s + List.length remaining
    /\ bad_token_column (snd (for_each remaining (validate_delete_body cols) s))
       = bad_token_column s.
Proof.
  intro Hj.
  induction remaining as [|[label row] remaining IH];
    intros pre s Hdf Htoks Hnd Hstr.
  - simpl. split; [lia | reflexivity].
  - simpl in Hstr. apply andb_prop in Hstr as [Hrow Hrest].
    apply andb_prop in Hrow as [Hl Hs]. apply Nat.eqb_eq in Hl.
    destruct (validate_delete_body_spec cols j pre remaining label row s
                Hj Hdf Hnd Hl Hs) as [s' [Hbody [Htl Hdf']]].
    destruct (validate_delete_body_deleted cols j pre remaining label row s
                Hj Hdf Hnd Hl Hs) as [Hdel Hbad].
    rewrite Hbody in Hdel, Hbad. cbn [snd] in Hdel, Hbad.
    cbn [for_each]. rewrite (bind_step _ _ _ _ _ Hbody).
    rewrite Htoks in Hdf', Hdel. cbn [filter] in *.
    destruct (passes cols toks (label, row)).
    + cbn [app] in Hdf'.
      destruct (IH (pre ++ [(label, row)]) s') as [H1 H2].
      * now rewrite <- app_assoc.
      * congruence.
      * now rewrite <- app_assoc.
      * exact Hrest.
      * split; [cbn [List.length]; lia | congruence].
    + cbn [app] in Hdf'.
      destruct (IH pre s') as [H1 H2].
      * exact Hdf'.
      * congruence.
      * rewrite map_app in *. simpl in Hnd. now apply NoDup_remove_1 in Hnd.
      * exact Hrest.
      * split; [cbn [List.length]; lia | congruence].
Qed.

(** The validation pass of delete mode. *)
Lemma validate_delete_frame (s : self) (j : nat) :
  strings_frame (df s) = true ->
  get_loc WCA_TOKEN_FIELD (columns (df s)) = Some j ->
  NoDup (index (df s)) ->
  fst (validate_delete s) = Ok tt
  /\ df (snd (validate_delete s)) = validated_frame (token_list s) (df s)
  /\ token_list (snd (validate_delete s)) = token_list s
  /\ bad_token_column (snd (validate_delete s)) = bad_token_column s
  /\ deleted (snd (validate_delete s))
     = deleted s + (len (df s) - len (validated_frame (token_list s) (df s))).
Proof.
  intros Hstr Hj Hnd. unfold validated_frame, len. cbn [rows].
  destruct (rows (df s)) as [|r0 rest] eqn:Erows.
  - unfold validate_delete, bind, get. cbn [iloc_from rows]. rewrite Erows.
    cbn. repeat split; try lia.
    destruct (df s). simpl in *. now subst.
  - destruct (validate_delete_strings s j r0 rest Hstr Hj Erows Hnd)
      as [H1 [H2 H3]].
    split; [assumption|]. split; [assumption|]. split; [assumption|].
    unfold validate_delete, bind, get. cbn [iloc_from columns rows].
    rewrite Erows. cbn [skipn].
    destruct (validate_delete_loop_deleted _ (token_list s) j Hj rest [r0] s)
      as [Hdel Hbad].
    + destruct (df s). simpl in *. now subst.
    + reflexivity.
    + unfold index in Hnd. now rewrite Erows in Hnd.
    + unfold strings_frame in Hstr. rewrite Erows in Hstr. simpl in Hstr.
      now apply andb_prop in Hstr as [_ Hrest].
    + split; [assumption|]. cbn [List.length].
      pose proof (filter_length_le (passes (columns (df s)) (token_list s)) rest).
      lia.
Qed.

Lemma write_csv_counters (s : self) :
  deleted (snd (write_csv s)) = deleted s
  /\ token_list (snd (write_csv s)) = token_list s.
Proof.
  unfold write_csv, bind, lift, get, ret, raise.
  destruct (truthy (bad_token_column s)); [|split; reflexivity].
  destruct (getitem (df s) (bad_token_column s)) as [col|e];
    [|split; reflexivity].
  destruct (bad_token_column s) as [name|];
    [destruct (drop_column name (df s))|];
    destruct (negb (empty col)); split; reflexivity.
Qed.

Lemma mask_select_length_le {A} (mask : list bool) (l : list A) :
  List.length (mask_select mask l) <= List.length l.
Proof.
  revert mask. induction l as [|a l IH]; intros [|b mask]; simpl; try lia.
  specialize (IH mask). destruct b; simpl; lia.
Qed.

(** Delete mode from its first line to its last, on a state in which it
    can run: the frame it writes is the frame it was given, repaired,
    deduplicated and validated, in this order. *)
Lemma run_delete_frame (s : self) :
  ready s ->
  fst (run_delete s) = Ok tt
  /\ df (snd (run_delete s))
     = validated_frame (token_list s)
         (dedup_frame (repair_frame (bad_token_column s) (df s)))
  /\ deleted (snd (run_delete s)) + len (df (snd (run_delete s)))
     = deleted s + len (df s)
  /\ token_list (snd (run_delete s)) = token_list s.
Proof.
  intro Hready.
  unfold run_delete, linfo, log. rewrite bind_modify, bind_get.
  set (s1 := set_logger (logger s ++ [(Info, "Fixing columns...")]) s).
  assert (H1 : ready s1) by exact Hready.
  rewrite (bind_step _ _ _ _ _ (repair_pass_frame s1 H1)).
  pose proof (repair_pass_keeps_ready s1 H1) as H2.
  set (s2 := set_df (repair_frame (bad_token_column s1) (df s1)) s1) in *.
  destruct H2 as [Hstr2 [Hnd2 [[j Hj2] Hbad2]]].
  destruct (delete_duplicates_frame s2 j Hj2)
    as [s3 [Hrun3 [Hdf3 [Htl3 [Hb3 Hdel3]]]]].
  assert (H3 : ready s3).
  { destruct (delete_duplicates_ready s2) as [_ H];
      [now repeat split; eauto|]. now rewrite Hrun3 in H. }
  rewrite (bind_step _ _ _ _ _ Hrun3). rewrite bind_modify.
  set (s4 := set_logger (logger s3 ++ [(Info, "Validating responses...")]) s3).
  assert (H4 : ready s4) by exact H3.
  destruct H4 as [Hstr4 [Hnd4 [[j4 Hj4] Hbad4]]].
  destruct (validate_delete_frame s4 j4 Hstr4 Hj4 Hnd4)
    as [Hok5 [Hdf5 [Htl5 [Hb5 Hdel5]]]].
  rewrite (bind_step _ _ _ _ _ (run_result _ _ _ Hok5)).
  set (s5 := snd (validate_delete s4)) in *.
  assert (H5 : ready s5).
  { destruct (validate_delete_ready s4) as [_ H]; [|exact H].
    now repeat split; eauto. }
  destruct (write_csv_completes s5 H5) as [Hok6 [Hdf6 _]].
  destruct (write_csv_counters s5) as [Hdel6 Htl6].
  split; [exact Hok6|].
  assert (Hframe : df s5
            = validated_frame (token_list s)
                (dedup_frame (repair_frame (bad_token_column s) (df s)))).
  { rewrite Hdf5. change (df s4) with (df s3).
    change (token_list s4) with (token_list s3).
    rewrite Hdf3, Htl3. reflexivity. }
  split; [now rewrite Hdf6|].
  split;
    [|now rewrite Htl6, Htl5; change (token_list s4) with (token_list s3);
      rewrite Htl3].
  rewrite Hdel6, Hdf6.
  rewrite <- Hdf5 in Hdel5. rewrite <- Hdf3 in Hdel3.
  change (deleted s4) with (deleted s3) in Hdel5.
  change (df s4) with (df s3) in Hdel5.
  change (deleted s2) with (deleted s) in Hdel3.
  assert (Hl2 : len (df s2) = len (df s)) by apply repair_frame_len.
  assert (Hl3 : len (df s3) <= len (df s2))
    by (rewrite Hdf3; apply mask_select_length_le).
  assert (Hl5 : len (df s5) <= len (df s3)).
  { rewrite Hdf5. change (df s4) with (df s3).
    unfold validated_frame, len. cbn [rows].
    destruct (rows (df s3)) as [|r0 rest]; [lia|].
    cbn [List.length].
    pose proof (filter_length_le
                  (passes (columns (df s3)) (token_list s4)) rest).
    lia. }
  lia.
Qed.

(** The duplicate-detection pass of list mode. *)
Lemma list_duplicates_frame (s : self) (j jid : nat) :
  get_loc WCA_TOKEN_FIELD (columns (df s)) = Some j ->
  get_loc ID_FIELD (columns (df s)) = Some jid ->
  exists s',
    list_duplicates s = (Ok tt, s')
    /\ df s' = df s
    /\ token_list s' = token_list s
    /\ bad_token_column s' = bad_token_column s
    /\ to_delete s' = ids_of jid (mask_select (token_mask (df s)) (rows (df s))).
Proof.
  intros Hj Hjid. unfold list_duplicates, linfo, log. rewrite bind_modify.
  set (s1 := set_logger _ s).
  rewrite (bind_step _ _ _ _ _ (delete_older_duplicates_list s1 j Hj)).
  rewrite bind_get. unfold bind at 1. unfold lift.
  rewrite (getitem_token _ _ jid) by exact Hjid.
  cbv iota beta. rewrite bind_modify.
  eexists. split; [reflexivity|].
  unfold token_mask. rewrite Hj. repeat split; reflexivity.
Qed.

(** List mode from its first line to its last, on a state in which it
    can run: the frame is left repaired, and the file holds the cleaned
    list of the identifiers collected from the repaired frame. *)
Lemma run_list_frame (s : self) (jid : nat) :
  ready_list s ->
  get_loc ID_FIELD (columns (df s)) = Some jid ->
  exists ids,
    fst (run_list s) = Ok tt
    /\ df (snd (run_list s)) = repair_frame (bad_token_column s) (df s)
    /\ to_delete (snd (run_list s))
       = flagged_ids jid (token_list s)
           (repair_frame (bad_token_column s) (df s))
    /\ map CStr ids = clean (to_delete (snd (run_list s)))
    /\ output (snd (run_list s)) = Some (lines ids)
    /\ deleted (snd (run_list s)) = List.length ids.
Proof.
  intros Hready Hjid.
  unfold run_list, linfo, log. rewrite bind_modify, bind_get.
  set (s1 := set_logger (logger s ++ [(Info, "Fixing columns...")]) s).
  assert (H1 : ready_list s1) by exact Hready.
  rewrite (bind_step _ _ _ _ _ (repair_pass_frame s1 (proj1 H1))).
  destruct (repair_pass_ready_list s1 H1) as [_ H2].
  rewrite (repair_pass_frame s1 (proj1 H1)) in H2. cbn [snd] in H2.
  set (s2 := set_df (repair_frame (bad_token_column s1) (df s1)) s1) in *.
  assert (Hjid2 : get_loc ID_FIELD (columns (df s2)) = Some jid).
  { unfold s2. cbn [df set_df]. now rewrite repair_frame_columns. }
  pose proof H2 as [[Hstr2 [Hnd2 [[j Hj2] Hbadcol2]]] [Hidx2 _]].
  destruct (list_duplicates_frame s2 j jid Hj2 Hjid2)
    as [s3 [Hrun3 [Hdf3 [Htl3 [Hb3 Htd3]]]]].
  destruct (list_duplicates_ready s2 H2) as [_ [H3 Hstr3]].
  rewrite Hrun3 in H3, Hstr3. cbn [snd] in H3, Hstr3.
  rewrite (bind_step _ _ _ _ _ Hrun3). rewrite bind_modify.
  set (s4 := set_logger (logger s3 ++ [(Info, "Validating responses...")]) s3).
  assert (H4 : ready_list s4) by exact H3.
  assert (Hstr4 : forallb is_str (to_delete s4) = true) by exact Hstr3.
  assert (Hj4 : get_loc WCA_TOKEN_FIELD (columns (df s4)) = Some j)
    by (change (df s4) with (df s3); now rewrite Hdf3).
  assert (Hjid4 : get_loc ID_FIELD (columns (df s4)) = Some jid)
    by (change (df s4) with (df s3); now rewrite Hdf3).
  destruct (validate_list_strings s4 j jid (proj1 (proj1 H4)) Hj4 Hjid4
              (proj1 (proj2 H4))) as [Hok5 [Hdf5 [Htl5 Htd5]]].
  destruct (validate_list_ready s4 H4 Hstr4) as [_ [H5 Hstr5]].
  rewrite (bind_step _ _ _ _ _ (run_result _ _ _ Hok5)).
  set (s5 := snd (validate_list s4)) in *.
  destruct H5 as [[_ [_ [_ Hbadcol5]]] [_ [_ [name Hbad5]]]].
  destruct (Hbadcol5 _ Hbad5) as [jb Hjb].
  assert (Hclean : forallb is_str (clean (to_delete s5)) = true).
  { apply forallb_forall. intros x Hx. apply (proj1 (clean_In _ _)) in Hx.
    rewrite forallb_forall in Hstr5. now apply Hstr5. }
  destruct (strings_of_cells _ Hclean) as [ids Hids].
  exists ids.
  rewrite (write_list_strings s5 (map (token_at jb) (rows (df s5))) ids);
    [| rewrite Hbad5; now apply getitem_token | exact Hids].
  cbn [fst snd]. split; [reflexivity|].
  assert (Hframe : df s5 = repair_frame (bad_token_column s) (df s)).
  { rewrite Hdf5. change (df s4) with (df s3). now rewrite Hdf3. }
  assert (Hlist : to_delete s5
            = flagged_ids jid (token_list s)
                (repair_frame (bad_token_column s) (df s))).
  { rewrite Htd5. change (to_delete s4) with (to_delete s3).
    change (df s4) with (df s3). change (token_list s4) with (token_list s3).
    rewrite Htd3, Hdf3, Htl3. reflexivity. }
  split; [|split; [|split; [|split]]].
  - rewrite <- Hframe.
    destruct (negb (empty (map (token_at jb) (rows (df s5))))); reflexivity.
  - rewrite <- Hlist.
    destruct (negb (empty (map (token_at jb) (rows (df s5))))); reflexivity.
  - rewrite <- Hids.
    destruct (negb (empty (map (token_at jb) (rows (df s5))))); reflexivity.
  - destruct (negb (empty (map (token_at jb) (rows (df s5))))); reflexivity.
  - cbn [deleted set_deleted]. now rewrite Hids, length_map.
Qed.

(** ** List mode and the frame *)

(** Past Column Repair, list mode does not write to the frame, whether
    it runs to its end or stops in an exception. *)
Lemma run_list_repaired (s : self) :
  ready s ->
  df (snd (run_list s)) = repair_frame (bad_token_column s) (df s).
Proof.
  intro Hready. unfold run_list, linfo, log. rewrite bind_modify, bind_get.
  set (s1 := set_logger (logger s ++ [(Info, "Fixing columns...")]) s).
  assert (H1 : ready s1) by exact Hready.
  rewrite (bind_step _ _ _ _ _ (repair_pass_frame s1 H1)).
  exact (proj1 (run_list_tail_same_frame
                  (set_df (repair_frame (bad_token_column s1) (df s1)) s1))).
Qed.

(** C8, as the code has it. List mode removes no row, adds none and
    reorders none, and changes no cell outside the primary token
    column: whatever the state, the frame after a list-mode run has the
    columns, the labels and the row order it had, its first row is
    untouched, and when no overflow column was detected the frame is
    left exactly as it was.  The cells that change are those Column
    Repair fills in: on a table of strings with distinct labels and a
    token column, the frame after the run is the repaired frame, in
    which a record after the first row has its token cell replaced by
    the trimmed overflow value when its trimmed token is empty and its
    overflow value has 64 characters, and is left exactly as it was
    otherwise. *)
Theorem C8_list_mode_changes_only_repaired_tokens (s : self) :
  same_but_token (df s) (df (snd (run_list s)))
  /\ (truthy (bad_token_column s) = false -> df (snd (run_list s)) = df s)
  /\ (ready s ->
      df (snd (run_list s)) = repair_frame (bad_token_column s) (df s)
      /\ forall (bad : string) (j k label : nat) (row : list cell)
                (tok ov : string),
           bad_token_column s = Some bad -> bad <> EmptyString ->
           get_loc WCA_TOKEN_FIELD (columns (df s)) = Some j ->
           nth_error (rows (df s)) (S k) = Some (label, row) ->
           row_getitem (columns (df s)) row (Some WCA_TOKEN_FIELD)
           = Ok (CStr tok) ->
           row_getitem (columns (df s)) row (Some bad) = Ok (CStr ov) ->
           nth_error (rows (df (snd (run_list s)))) (S k)
           = Some (label,
                   if PyStr.is_empty (PyStr.strip tok)
                      && (String.length ov =? WCA_TOKEN_LEN)
                   then update_nth j (fun _ => CStr (PyStr.strip ov)) row
                   else row)).
Proof.
  split; [apply run_list_frame_but_token|]. split.
  - intro Hbad. unfold run_list, linfo, log.
    rewrite bind_modify, bind_get. cbn [bad_token_column set_logger].
    rewrite Hbad, bind_ret.
    apply (run_list_tail_same_frame
             (set_logger (logger s ++ [(Info, "Fixing columns...")]) s)).
  - intro Hready. pose proof (run_list_repaired s Hready) as Hdf.
    split; [exact Hdf|].
    intros bad j k label row tok ov Hbad Hne Hj Hrow Htok Hov.
    rewrite Hdf. unfold repair_frame. rewrite Hbad.
    destruct bad as [|c bad]; [contradiction|]. cbn [truthy rows].
    destruct (rows (df s)) as [|r0 rest]; [discriminate|].
    simpl in Hrow. cbn [nth_error]. rewrite nth_error_map, Hrow.
    cbn [option_map]. unfold repair. cbn [fst snd].
    rewrite Hj, Htok, Hov.
    now destruct (PyStr.is_empty (PyStr.strip tok)
                  && (String.length ov =? WCA_TOKEN_LEN)).
Qed.

(** ** Lists, masks and keys *)

Lemma filter_id {A} (f : A -> bool) (l : list A) :
  (forall x, In x l -> f x = true) -> filter f l = l.
Proof.
  induction l as [|a l IH]; intro H; simpl; [reflexivity|].
  rewrite (H a (or_introl eq_refl)). f_equal. apply IH.
  intros x Hx. apply H. now right.
Qed.

Lemma NoDup_map_In {A B} (f : A -> B) (l : list A) (x y : A) :
  NoDup (map f l) -> In x l -> In y l -> f x = f y -> x = y.
Proof.
  induction l as [|a l IH]; intros Hnd Hx Hy E; [contradiction|].
  simpl in Hnd. inversion Hnd as [|? ? Hnotin Hnd']; subst.
  destruct Hx as [Hx|Hx], Hy as [Hy|Hy].
  - congruence.
  - subst a. exfalso. apply Hnotin. rewrite E. now apply in_map.
  - subst a. exfalso. apply Hnotin. rewrite <- E. now apply in_map.
  - now apply IH.
Qed.

Lemma NoDup_of_map {A B} (f : A -> B) (l : list A) :
  NoDup (map f l) -> NoDup l.
Proof.
  induction l as [|a l IH]; intro H; [constructor|].
  simpl in H. inversion H as [|? ? Hnotin Hnd]; subst.
  constructor; [|now apply IH].
  intro Hin. apply Hnotin. now apply in_map.
Qed.

(** Of a list without repeats, a mask and its complement select
    disjoint parts that cover the list. *)
Lemma mask_select_complement {A} (mask : list bool) (l : list A) (x : A) :
  NoDup l -> List.length mask = List.length l -> In x l ->
  (In x (mask_select (map negb mask) l) <-> ~ In x (mask_select mask l)).
Proof.
  revert mask. induction l as [|a l IH]; intros mask Hnd Hlen Hx;
    [contradiction|].
  destruct mask as [|b mask]; [discriminate|].
  inversion Hnd as [|? ? Hnotin Hnd']; subst.
  simpl in Hlen. injection Hlen as Hlen.
  assert (Hout : forall m, ~ In a (mask_select m l)).
  { intros m Hin. apply Hnotin. eapply mask_select_In. exact Hin. }
  destruct Hx as [Hx|Hx].
  - subst x. destruct b; simpl.
    + split; [intro H; now apply Hout in H | intro H; exfalso; apply H; now left].
    + split; [intros _ H; now apply Hout in H | intros _; now left].
  - assert (Hne : a <> x) by (intro E; subst; contradiction).
    specialize (IH mask Hnd' Hlen Hx).
    destruct b; simpl.
    + rewrite IH. split.
      * intros H [E|Hin]; [contradiction | contradiction].
      * intros H Hin. apply H. now right.
    + split.
      * intros [E|Hin]; [contradiction | now apply IH].
      * intro H. right. now apply IH.
Qed.

(** Keys without repeats: nothing is marked. *)
Lemma mask_select_distinct_keys (j : nat) (l : list (nat * list cell))
      (seen : list cell) :
  NoDup (map (token_at j) l) ->
  (forall r, In r l -> ~ In (token_at j r) seen) ->
  mask_select (map negb (duplicated_from seen (map (token_at j) l))) l = l.
Proof.
  revert seen. induction l as [|r l IH]; intros seen Hnd Hseen; [reflexivity|].
  simpl in Hnd. inversion Hnd as [|? ? Hnotin Hnd']; subst.
  cbn [map duplicated_from mask_select].
  destruct (existsb (cell_eqb (token_at j r)) seen) eqn:E.
  - apply existsb_cell_In in E. exfalso. exact (Hseen r (or_introl eq_refl) E).
  - cbn [negb]. f_equal. apply IH; [assumption|].
    intros r' Hr' [Hin|Hin].
    + apply Hnotin. rewrite Hin. now apply in_map.
    + exact (Hseen r' (or_intror Hr') Hin).
Qed.

(** The rows the Deduplicator keeps are the first ones with their key. *)
Lemma dedup_first_occurrence (j : nat) (l : list (nat * list cell))
      (r : nat * list cell) :
  In r (mask_select (map negb (duplicated_from [] (map (token_at j) l))) l)
  <-> hd_error (with_token j (token_at j r) l) = Some r.
Proof.
  pose proof (mask_select_first j (token_at j r) l []) as H.
  cbn [existsb] in H. split.
  - intro Hin.
    assert (Hw : In r (with_token j (token_at j r)
                (mask_select
                   (map negb (duplicated_from [] (map (token_at j) l))) l))).
    { unfold with_token. apply filter_In. split; [assumption|].
      apply cell_eqb_refl. }
    rewrite H in Hw.
    destruct (with_token j (token_at j r) l) as [|x rest]; [contradiction|].
    simpl in Hw. destruct Hw as [Hw|[]]. now subst.
  - intro Hhd.
    destruct (with_token j (token_at j r) l) as [|x rest] eqn:E; [discriminate|].
    simpl in Hhd. inversion Hhd; subst x.
    assert (Hw : In r (with_token j (token_at j r)
                (mask_select
                   (map negb (duplicated_from [] (map (token_at j) l))) l))).
    { rewrite H. now left. }
    unfold with_token in Hw. now apply filter_In in Hw as [Hw _].
Qed.

Lemma get_loc_nth (name : string) (cols : list string) (j : nat) :
  get_loc name cols = Some j -> nth_error cols j = Some name.
Proof.
  revert j. induction cols as [|c cols IH]; intros j H; simpl in *; [discriminate|].
  destruct (String.eqb name c) eqn:E.
  - inversion H. apply String.eqb_eq in E. now subst.
  - destruct (get_loc name cols) as [j'|]; [|discriminate].
    inversion H. simpl. now apply IH.
Qed.

Lemma nth_of_nth_error {A} (l l' : list A) (j : nat) (d : A) :
  nth_error l j = nth_error l' j -> nth j l d = nth j l' d.
Proof.
  intro H.
  rewrite <- (nth_default_eq j l d), <- (nth_default_eq j l' d).
  unfold nth_default. now rewrite H.
Qed.

(** Column Repair writes to the token column only. *)
Lemma repair_other_column (cols : list string) (bad : option string)
      (r : nat * list cell) (j jid : nat) :
  get_loc WCA_TOKEN_FIELD cols = Some j -> jid <> j ->
  token_at jid (repair cols bad r) = token_at jid r.
Proof.
  intros Hj Hne. unfold repair. rewrite Hj.
  destruct (row_getitem cols (snd r) (Some WCA_TOKEN_FIELD)) as [[tok| |]|];
    try reflexivity.
  destruct (row_getitem cols (snd r) bad) as [[ov| |]|]; try reflexivity.
  destruct (PyStr.is_empty (PyStr.strip tok) && (String.length ov =? WCA_TOKEN_LEN));
    [|reflexivity].
  unfold token_at. cbn [snd]. apply nth_of_nth_error.
  apply nth_error_update_nth_other. congruence.
Qed.

(** A row that passes has a token: Column Repair leaves it alone. *)
Lemma repair_passes (cols : list string) (toks : list string)
      (bad : option string) (r : nat * list cell) :
  passes cols toks r = true -> repair cols bad r = r.
Proof.
  unfold passes, repair. intro H.
  destruct (get_loc WCA_TOKEN_FIELD cols); [|reflexivity].
  destruct (row_getitem cols (snd r) (Some WCA_TOKEN_FIELD)) as [[tok| |]|];
    try reflexivity.
  destruct (row_getitem cols (snd r) bad) as [[ov| |]|]; try reflexivity.
  apply andb_prop in H as [_ H].
  destruct (PyStr.is_empty (PyStr.strip tok)); [discriminate | reflexivity].
Qed.

Lemma id_and_token_columns (cols : list string) (j jid : nat) :
  get_loc WCA_TOKEN_FIELD cols = Some j -> get_loc ID_FIELD cols = Some jid ->
  jid <> j.
Proof.
  intros Hj Hjid E. subst jid.
  apply get_loc_nth in Hj. apply get_loc_nth in Hjid.
  rewrite Hj in Hjid. discriminate Hjid.
Qed.

Lemma validated_frame_len_le (toks : list string) (d : DataFrame) :
  len (validated_frame toks d) <= len d.
Proof.
  unfold validated_frame, len. cbn [rows].
  destruct (rows d) as [|r0 rest]; [lia|]. cbn [List.length].
  pose proof (filter_length_le (passes (columns d) toks) rest). lia.
Qed.

Lemma dedup_frame_rows (d : DataFrame) (j : nat) :
  get_loc WCA_TOKEN_FIELD (columns d) = Some j ->
  rows (dedup_frame d)
  = mask_select (map negb (duplicated_from [] (map (token_at j) (rows d))))
                (rows d).
Proof. intro Hj. unfold dedup_frame, token_mask. now rewrite Hj. Qed.

(** The Deduplicator keeps the first row where it is. *)
Lemma dedup_frame_head (d : DataFrame) (j : nat) (r0 : nat * list cell)
      (rest : list (nat * list cell)) :
  get_loc WCA_TOKEN_FIELD (columns d) = Some j ->
  rows d = r0 :: rest ->
  rows (dedup_frame d)
  = r0 :: mask_select
            (map negb (duplicated_from [token_at j r0] (map (token_at j) rest)))
            rest.
Proof.
  intros Hj Hrows. rewrite (dedup_frame_rows d j Hj), Hrows. reflexivity.
Qed.

(** ** Column Repair on the records it does not repair *)

(** X5. On a table of strings with an overflow column, Column Repair
    leaves a record after the first row exactly as it is when its
    primary token is not blank or its overflow value does not have 64
    characters; the loop raises nothing and the table keeps its
    length. *)
Theorem X5_column_repair_leaves_other_records
        (s : self) (bad : string) (k label : nat) (row : list cell)
        (tok ov : string) :
  strings_frame (df s) = true ->
  bad_token_column s = Some bad ->
  nth_error (rows (df s)) (S k) = Some (label, row) ->
  row_getitem (columns (df s)) row (Some WCA_TOKEN_FIELD) = Ok (CStr tok) ->
  row_getitem (columns (df s)) row (Some bad) = Ok (CStr ov) ->
  PyStr.strip tok <> EmptyString \/ String.length ov <> WCA_TOKEN_LEN ->
  fst (fix_token_position s) = Ok tt
  /\ nth_error (rows (df (snd (fix_token_position s)))) (S k) = Some (label, row)
  /\ len (df (snd (fix_token_position s))) = len (df s).
Proof.
  intros Hstr Hbad Hrow Htok Hov Hcond.
  destruct (row_getitem_Some _ _ _ _ Htok) as [j [Hj Hnj]].
  destruct (row_getitem_Some _ _ _ _ Hov) as [jb [Hjb _]].
  rewrite (fix_token_position_strings s bad j jb Hstr Hj Hbad Hjb).
  cbn [fst snd]. split; [reflexivity|].
  cbn [df set_df]. unfold len. cbn [rows].
  destruct (rows (df s)) as [|r0 rest]; [discriminate|].
  simpl in Hrow. split.
  - cbn [nth_error]. rewrite nth_error_map, Hrow. cbn [option_map].
    unfold repair. cbn [fst snd]. rewrite Hj, Htok, Hov.
    destruct Hcond as [Hne | Hne].
    + destruct (PyStr.strip tok); [contradiction | reflexivity].
    + apply Nat.eqb_neq in Hne. rewrite Hne. now rewrite andb_false_r.
  - cbn [List.length]. now rewrite length_map.
Qed.

(** X19. Whatever the frame holds, and also when the loop stops in an
    exception, Column Repair writes to the primary token column only:
    the frame keeps its columns, its labels and its row order, the
    first row stays as it is, no cell outside the token column changes,
    the overflow column included, and [bad_token_column] is not
    touched. *)
Theorem X19_column_repair_writes_token_cells_only (s : self) :
  same_but_token (df s) (df (snd (fix_token_position s)))
  /\ bad_token_column (snd (fix_token_position s)) = bad_token_column s.
Proof.
  split.
  - apply fix_token_position_frame_but_token.
  - apply fix_token_position_same_bad.
Qed.

(** ** The validation passes *)

(** X6. On a table of strings with distinct labels, the validation
    pass of delete mode raises nothing and leaves the first row and,
    in their order, exactly the later records whose trimmed token is
    a non-empty member of the token list; [deleted] grows by the number
    of records removed. *)
Theorem X6_delete_validation_keeps_passing_records (s : self) (j : nat) :
  strings_frame (df s) = true ->
  get_loc WCA_TOKEN_FIELD (columns (df s)) = Some j ->
  NoDup (index (df s)) ->
  fst (validate_delete s) = Ok tt
  /\ df (snd (validate_delete s)) = validated_frame (token_list s) (df s)
  /\ deleted (snd (validate_delete s)) + len (df (snd (validate_delete s)))
     = deleted s + len (df s).
Proof.
  intros Hstr Hj Hnd.
  destruct (validate_delete_frame s j Hstr Hj Hnd) as [H1 [H2 [_ [_ H5]]]].
  split; [assumption|]. split; [assumption|].
  rewrite H5, H2.
  pose proof (validated_frame_len_le (token_list s) (df s)). lia.
Qed.

(** X7. On a table of strings labelled by position, the validation
    pass of list mode raises nothing, leaves the frame and the token
    list as they are, and appends to [to_delete] the identifiers of the
    records after the first row that fail, in table order. *)
Theorem X7_list_validation_collects_failing_records (s : self) (j jid : nat) :
  strings_frame (df s) = true ->
  get_loc WCA_TOKEN_FIELD (columns (df s)) = Some j ->
  get_loc ID_FIELD (columns (df s)) = Some jid ->
  index (df s) = seq 0 (len (df s)) ->
  fst (validate_list s) = Ok tt
  /\ df (snd (validate_list s)) = df s
  /\ token_list (snd (validate_list s)) = token_list s
  /\ to_delete (snd (validate_list s))
     = to_delete s
       ++ ids_of jid
            (filter (fun r => negb (passes (columns (df s)) (token_list s) r))
                    (skipn 1 (rows (df s)))).
Proof.
  intros Hstr Hj Hjid Hidx.
  exact (validate_list_strings s j jid Hstr Hj Hjid Hidx).
Qed.

(** ** Delete mode as a whole *)

(** X8. On a table of strings with distinct labels and a token column,
    delete mode runs to its end; the frame it leaves is the frame it
    was given after Column Repair, then the Deduplicator, then the
    validation pass, and the file holds that frame as [to_csv] writes
    it, read back and passed through the substitution of
    [fix_headers]. *)
Theorem X8_delete_mode_composes_the_passes (s : self) :
  ready s ->
  fst (run_delete s) = Ok tt
  /\ df (snd (run_delete s))
     = validated_frame (token_list s)
         (dedup_frame (repair_frame (bad_token_column s) (df s)))
  /\ output (snd (run_delete s))
     = Some (PyStr.sub_unnamed
               (PyStr.universal_newlines (to_csv (df (snd (run_delete s)))))).
Proof.
  intro Hready.
  destruct (run_delete_frame s Hready) as [H1 [H2 _]].
  destruct (run_delete_completes s Hready) as [_ [_ H3]].
  now repeat split.
Qed.

(** X9. A record is in the frame delete mode leaves exactly when,
    after Column Repair, it is the first record of the table with its
    token cell and it is the first row or passes validation.  Token
    cells are compared as they stand, so two records whose tokens
    differ only in surrounding whitespace are both first of their
    kind. *)
Theorem X9_delete_mode_keeps_first_valid_records
        (s : self) (j : nat) (r : nat * list cell) :
  ready s ->
  get_loc WCA_TOKEN_FIELD (columns (df s)) = Some j ->
  In r (rows (df (snd (run_delete s))))
  <-> hd_error (with_token j (token_at j r)
                  (rows (repair_frame (bad_token_column s) (df s)))) = Some r
      /\ (hd_error (rows (repair_frame (bad_token_column s) (df s))) = Some r
          \/ passes (columns (df s)) (token_list s) r = true).
Proof.
  intros Hready Hj.
  destruct (run_delete_frame s Hready) as [_ [Hdf _]]. rewrite Hdf.
  set (d1 := repair_frame (bad_token_column s) (df s)).
  assert (Hc1 : columns d1 = columns (df s)) by apply repair_frame_columns.
  assert (Hj1 : get_loc WCA_TOKEN_FIELD (columns d1) = Some j)
    by now rewrite Hc1.
  rewrite <- Hc1.
  rewrite <- (dedup_first_occurrence j (rows d1) r).
  rewrite <- (dedup_frame_rows d1 j Hj1).
  unfold validated_frame. cbn [rows].
  change (columns (dedup_frame d1)) with (columns d1).
  destruct (rows d1) as [|r0 rest] eqn:E1.
  - rewrite (dedup_frame_rows d1 j Hj1), E1. simpl. tauto.
  - rewrite (dedup_frame_head d1 j r0 rest Hj1 E1). cbn [hd_error]. split.
    + intros [H|H].
      * subst r. split; [now left | now left].
      * apply filter_In in H as [H Hp]. split; [now right | now right].
    + intros [[H|H] [H0|Hp]].
      * now left.
      * now left.
      * inversion H0. now left.
      * right. apply filter_In. now split.
Qed.

(** X10. Delete mode counts what it removes: at its end [deleted] has
    grown by the number of records the frame has lost, duplicates and
    failures of validation together. *)
Theorem X10_delete_mode_counts_removed_records (s : self) :
  ready s ->
  deleted (snd (run_delete s)) + len (df (snd (run_delete s)))
  = deleted s + len (df s).
Proof.
  intro Hready. now destruct (run_delete_frame s Hready) as [_ [_ [H _]]].
Qed.

(** X11. Delete mode leaves a clean table as it is: when no two
    records have the same token cell and every record after the first
    row passes validation, the frame at the end is the frame at the
    start, overflow column or not, and nothing is counted as
    deleted. *)
Theorem X11_delete_mode_leaves_a_clean_table (s : self) (j : nat) :
  ready s ->
  get_loc WCA_TOKEN_FIELD (columns (df s)) = Some j ->
  NoDup (map (token_at j) (rows (df s))) ->
  (forall r, In r (skipn 1 (rows (df s))) ->
             passes (columns (df s)) (token_list s) r = true) ->
  fst (run_delete s) = Ok tt
  /\ df (snd (run_delete s)) = df s
  /\ deleted (snd (run_delete s)) = deleted s.
Proof.
  intros Hready Hj Hkeys Hpass.
  destruct (run_delete_frame s Hready) as [H1 [H2 [H3 _]]].
  assert (Hrep : repair_frame (bad_token_column s) (df s) = df s).
  { unfold repair_frame. destruct (truthy (bad_token_column s)); [|reflexivity].
    destruct (df s) as [cols l]. cbn [columns rows] in *. f_equal.
    destruct l as [|r0 rest]; [reflexivity|]. f_equal.
    rewrite <- (map_id rest) at 2. apply map_ext_in.
    intros r Hr. apply (repair_passes cols (token_list s)). now apply Hpass. }
  assert (Hded : dedup_frame (df s) = df s).
  { unfold dedup_frame, getitem_mask, token_mask. rewrite Hj.
    rewrite mask_select_distinct_keys; [now destruct (df s) | assumption |].
    intros r _ []. }
  assert (Hval : validated_frame (token_list s) (df s) = df s).
  { unfold validated_frame. destruct (df s) as [cols l].
    cbn [columns rows] in *. f_equal.
    destruct l as [|r0 rest]; [reflexivity|]. f_equal.
    now apply filter_id. }
  rewrite Hrep, Hded, Hval in H2.
  split; [assumption|]. split; [assumption|].
  rewrite H2 in H3. lia.
Qed.

(** ** List mode as a whole *)

(** X12. On a table of strings labelled by position, with a token
    column, an identifier column and a detected overflow column, list
    mode runs to its end.  It leaves the frame repaired; [to_delete]
    holds the identifiers of the records the Deduplicator marks
    followed by those of the records after the first row that fail
    validation, both read from the repaired frame; the file holds that
    list with repeats removed, one identifier per line, and [deleted]
    is the number of lines. *)
Theorem X12_list_mode_writes_the_flagged_identifiers (s : self) (jid : nat) :
  ready_list s ->
  get_loc ID_FIELD (columns (df s)) = Some jid ->
  exists ids,
    fst (run_list s) = Ok tt
    /\ df (snd (run_list s)) = repair_frame (bad_token_column s) (df s)
    /\ to_delete (snd (run_list s))
       = flagged_ids jid (token_list s)
           (repair_frame (bad_token_column s) (df s))
    /\ map CStr ids = clean (to_delete (snd (run_list s)))
    /\ output (snd (run_list s)) = Some (lines ids)
    /\ deleted (snd (run_list s)) = List.length ids.
Proof. intros Hready Hjid. exact (run_list_frame s jid Hready Hjid). Qed.

(** ** The two modes on the same table *)

Lemma mask_select_cover {A} (mask : list bool) (l : list A) (x : A) :
  List.length mask = List.length l -> In x l ->
  In x (mask_select mask l) \/ In x (mask_select (map negb mask) l).
Proof.
  revert mask. induction l as [|a l IH]; intros mask Hlen Hx; [contradiction|].
  destruct mask as [|b mask]; [discriminate|].
  simpl in Hlen. injection Hlen as Hlen.
  destruct Hx as [Hx|Hx].
  - subst x. destruct b; simpl; [left | right]; now left.
  - destruct (IH mask Hlen Hx) as [H|H]; destruct b; simpl; auto.
Qed.

Lemma In_map_NoDup {A B} (f : A -> B) (l sub : list A) (x : A) :
  NoDup (map f l) -> (forall y, In y sub -> In y l) -> In x l ->
  (In (f x) (map f sub) <-> In x sub).
Proof.
  intros Hnd Hsub Hx. split; [|apply in_map].
  intro H. apply in_map_iff in H as [y [Hy Hin]].
  now rewrite <- (NoDup_map_In f l y x Hnd (Hsub y Hin) Hx Hy).
Qed.

Lemma repair_frame_In (bad : option string) (d : DataFrame) (j : nat)
      (r : nat * list cell) :
  get_loc WCA_TOKEN_FIELD (columns d) = Some j -> In r (rows d) ->
  exists r', In r' (rows (repair_frame bad d))
             /\ fst r' = fst r
             /\ forall jid, jid <> j -> token_at jid r' = token_at jid r.
Proof.
  intros Hj Hr. unfold repair_frame.
  destruct (truthy bad); [|exists r; now repeat split].
  cbn [rows]. destruct (rows d) as [|r0 rest]; [contradiction|].
  destruct Hr as [Hr|Hr].
  - subst r0. exists r. repeat split. now left.
  - exists (repair (columns d) bad r). split; [right; now apply in_map|].
    split; [apply repair_fst|].
    intros jid Hne. now apply (repair_other_column _ _ _ j).
Qed.

Lemma repair_frame_ids (bad : option string) (d : DataFrame) (j jid : nat) :
  get_loc WCA_TOKEN_FIELD (columns d) = Some j -> jid <> j ->
  ids_of jid (rows (repair_frame bad d)) = ids_of jid (rows d).
Proof.
  intros Hj Hne. unfold repair_frame, ids_of.
  destruct (truthy bad); [|reflexivity].
  cbn [rows]. destruct (rows d) as [|r0 rest]; [reflexivity|].
  cbn [map]. f_equal. rewrite map_map. apply map_ext.
  intro r. now apply (repair_other_column _ _ _ j).
Qed.

(** On one frame: the identifiers list mode collects are those of the
    rows the passes of delete mode take out. *)
Lemma modes_agree_frame (d : DataFrame) (j jid : nat) (toks : list string)
      (r : nat * list cell) :
  get_loc WCA_TOKEN_FIELD (columns d) = Some j ->
  NoDup (index d) ->
  NoDup (ids_of jid (rows d)) ->
  In r (rows d) ->
  (In (token_at jid r) (flagged_ids jid toks d)
   <-> ~ In (fst r) (index (validated_frame toks (dedup_frame d)))).
Proof.
  intros Hj Hlabels Hids Hr.
  unfold flagged_ids, index, validated_frame, ids_of in *. cbn [rows].
  change (columns (dedup_frame d)) with (columns d).
  unfold token_mask. rewrite Hj.
  destruct (rows d) as [|r0 rest] eqn:E; [contradiction|].
  rewrite (dedup_frame_head d j r0 rest Hj E).
  cbn [map duplicated_from existsb mask_select skipn].
  set (mt := duplicated_from [token_at j r0] (map (token_at j) rest)).
  set (fails := filter (fun x => negb (passes (columns d) toks x)) rest).
  set (kept := filter (passes (columns d) toks)
                      (mask_select (map negb mt) rest)).
  assert (Hlen : List.length mt = List.length rest)
    by (unfold mt; now rewrite duplicated_from_length, length_map).
  assert (Hrows : NoDup (r0 :: rest)) by exact (NoDup_of_map _ _ Hlabels).
  inversion Hrows as [|? ? Hr0 Hrest]; subst.
  rewrite <- map_app.
  rewrite (In_map_NoDup (token_at jid) (r0 :: rest) _ r Hids); [| |exact Hr].
  2: { intros y Hy. right. apply in_app_or in Hy as [Hy|Hy].
       - eapply mask_select_In. exact Hy.
       - now apply filter_In in Hy as [Hy _]. }
  change (fst r0 :: map fst kept) with (map fst (r0 :: kept)).
  rewrite (In_map_NoDup fst (r0 :: rest) _ r Hlabels); [| |exact Hr].
  2: { intros y [Hy|Hy]; [now left | right].
       apply filter_In in Hy as [Hy _]. eapply mask_select_In. exact Hy. }
  destruct Hr as [Hr|Hr].
  - subst r. split.
    + intro H. exfalso. apply Hr0. apply in_app_or in H as [H|H].
      * eapply mask_select_In. exact H.
      * now apply filter_In in H as [H _].
    + intro H. exfalso. apply H. now left.
  - assert (Hne : r0 <> r) by (intro Heq; subst; contradiction).
    pose proof (mask_select_complement mt rest r Hrest Hlen Hr) as Hcomp.
    pose proof (mask_select_cover mt rest r Hlen Hr) as Hcov.
    unfold kept, fails. rewrite in_app_iff. cbn [In].
    rewrite !filter_In.
    destruct (passes (columns d) toks r); cbn [negb].
    + split.
      * intros [H|[_ H]]; [|discriminate].
        intros [Heq|[Hin _]]; [contradiction|]. now apply Hcomp in Hin.
      * intro H. destruct Hcov as [Hc|Hc]; [now left|].
        exfalso. apply H. right. now split.
    + split.
      * intros _ [Heq|[_ H]]; [contradiction | discriminate].
      * intros _. right. now split.
Qed.

(** X13. The two modes agree on which records go.  On a table that
    both modes can process and whose identifiers are all different,
    the identifiers list mode writes are exactly those of the records
    that delete mode removes from the frame. *)
Theorem X13_list_mode_lists_what_delete_mode_removes (s : self) (jid : nat) :
  ready_list s ->
  get_loc ID_FIELD (columns (df s)) = Some jid ->
  NoDup (ids_of jid (rows (df s))) ->
  exists ids,
    output (snd (run_list s)) = Some (lines ids)
    /\ forall r, In r (rows (df s)) ->
         (In (token_at jid r) (map CStr ids)
          <-> ~ In (fst r) (index (df (snd (run_delete s))))).
Proof.
  intros Hready Hjid Hnd.
  destruct (run_list_frame s jid Hready Hjid)
    as [ids [_ [_ [Htd [Hids [Hout _]]]]]].
  destruct (run_delete_frame s (proj1 Hready)) as [_ [Hdf _]].
  exists ids. split; [exact Hout|].
  intros r Hr. rewrite Hids, clean_In, Htd, Hdf.
  destruct Hready as [[_ [Hlabels [[j Hj] _]]] _].
  pose proof (id_and_token_columns _ j jid Hj Hjid) as Hne.
  destruct (repair_frame_In (bad_token_column s) (df s) j r Hj Hr)
    as [r' [Hr' [Hf Ht]]].
  rewrite <- Hf, <- (Ht jid Hne).
  apply (modes_agree_frame _ j jid (token_list s) r').
  - now rewrite repair_frame_columns.
  - now rewrite repair_frame_index.
  - now rewrite (repair_frame_ids _ _ j jid Hj Hne).
  - exact Hr'.
Qed.

(** ** The token file and the deletion list as lines *)

Lemma contains_char_cons (c q : ascii) (s : string) :
  PyStr.contains (String c EmptyString) (String q s) = false ->
  q <> c /\ PyStr.contains (String c EmptyString) s = false.
Proof.
  cbn [PyStr.contains prefix]. intro H. apply orb_false_elim in H as [H1 H2].
  split; [|exact H2]. intro E. subst q.
  destruct (ascii_dec c c) as [_|Hne]; [|now apply Hne].
  destruct s; discriminate H1.
Qed.

Lemma split_nl_one_line (x : string) :
  PyStr.contains PyStr.nl x = false -> PyStr.split_nl x = [x].
Proof.
  induction x as [|c x IH]; intro H; [reflexivity|].
  apply contains_char_cons in H as [Hc Hx].
  cbn [PyStr.split_nl]. rewrite (proj2 (Ascii.eqb_neq c PyStr.newline) Hc).
  now rewrite (IH Hx).
Qed.

Lemma split_nl_line (x rest : string) :
  PyStr.contains PyStr.nl x = false ->
  PyStr.split_nl (x +++ PyStr.nl +++ rest) = x :: PyStr.split_nl rest.
Proof.
  induction x as [|c x IH]; intro H.
  - cbn [String.append PyStr.nl PyStr.split_nl]. now rewrite Ascii.eqb_refl.
  - apply contains_char_cons in H as [Hc Hx].
    cbn [String.append PyStr.split_nl].
    rewrite (proj2 (Ascii.eqb_neq c PyStr.newline) Hc).
    now rewrite (IH Hx).
Qed.

(** X3. The token reader undoes the line formats.  Lines joined by
    line feeds are read back as those lines; a file in which every
    line is ended by a line feed, such as the list that list mode
    writes, is read back as its lines followed by one empty string, so
    that the empty string is a member of the token list of such a
    file. *)
Theorem X3_token_reader_inverts_lines (toks : list string) :
  (forall t, In t toks -> PyStr.contains PyStr.nl t = false) ->
  PyStr.split_nl (lines toks) = toks ++ [EmptyString]
  /\ (toks <> [] -> PyStr.split_nl (PyStr.join PyStr.nl toks) = toks).
Proof.
  intro H. split.
  - induction toks as [|t toks IH]; [reflexivity|].
    rewrite lines_cons, append_assoc3.
    rewrite split_nl_line by (apply H; now left).
    cbn [app]. f_equal. apply IH. intros x Hx. apply H. now right.
  - induction toks as [|t toks IH]; intro Hne; [contradiction|].
    destruct toks as [|u toks].
    + cbn [PyStr.join]. apply split_nl_one_line, H. now left.
    + change (PyStr.join PyStr.nl (t :: u :: toks))
        with (t +++ PyStr.nl +++ PyStr.join PyStr.nl (u :: toks)).
      rewrite split_nl_line by (apply H; now left).
      f_equal. apply IH; [|discriminate].
      intros x Hx. apply H. now right.
Qed.

(** ** The cleaned list *)

Lemma map_snd_mapi_from {A} (l : list A) (k : nat) :
  map snd (mapi_from k (fun i x => (i, x)) l) = l.
Proof.
  revert k. induction l as [|a l IH]; intro k; simpl; [reflexivity|].
  now rewrite IH.
Qed.

Lemma clean_NoDup_id (l : list cell) : NoDup l -> clean l = l.
Proof.
  intro Hnd. unfold clean. rewrite filter_id.
  - apply map_snd_mapi_from.
  - intros [i x] Hin. apply enumerate_In in Hin.
    destruct (existsb (cell_eqb x) (firstn i l)) eqn:E; [|reflexivity].
    apply existsb_cell_In in E. apply In_firstn_nth in E as [i' [Hlt Hi']].
    assert (Hi : i' < List.length l) by (apply nth_error_Some; congruence).
    pose proof (proj1 (NoDup_nth_error l) Hnd i' i Hi) as Heq.
    rewrite Hi', Hin in Heq. specialize (Heq eq_refl). lia.
Qed.

(** X14. The comprehension that cleans [to_delete] returns a list
    without repeats as it is, and cleaning a second time changes
    nothing; it never makes the list longer. *)
Theorem X14_clean_is_idempotent (l : list cell) :
  clean (clean l) = clean l
  /\ List.length (clean l) <= List.length l
  /\ (NoDup l -> clean l = l).
Proof.
  split; [apply clean_NoDup_id, clean_NoDup|]. split.
  - unfold clean. rewrite length_map.
    etransitivity; [apply filter_length_le|].
    unfold enumerate, mapi. now rewrite mapi_from_length.
  - apply clean_NoDup_id.
Qed.

(** ** [fix_headers] *)

Lemma universal_newlines_plain (s : string) :
  PyStr.contains (String PyStr.carriage EmptyString) s = false ->
  PyStr.universal_newlines s = s.
Proof.
  induction s as [|c s IH]; intro H; [reflexivity|].
  apply contains_char_cons in H as [Hc Hs].
  cbn [PyStr.universal_newlines].
  rewrite (proj2 (Ascii.eqb_neq c PyStr.carriage) Hc).
  now rewrite (IH Hs).
Qed.

Lemma match_len_no_prefix (s : string) :
  prefix PyStr.unnamed_prefix s = false -> PyStr.match_len s = None.
Proof. intro H. unfold PyStr.match_len. now rewrite H. Qed.

Lemma sub_from_no_match (s : string) :
  PyStr.contains PyStr.unnamed_prefix s = false -> PyStr.sub_from 0 s = s.
Proof.
  induction s as [|c s IH]; intro H; [reflexivity|].
  cbn [PyStr.contains] in H. apply orb_false_elim in H as [Hp Hs].
  cbn [PyStr.sub_from]. rewrite (match_len_no_prefix _ Hp).
  now rewrite (IH Hs).
Qed.

(** X16. [fix_headers] raises [FileNotFoundError] when there is no
    file at the path, and writes a file back as it was read when the
    text holds neither a carriage return nor the characters
    [Unnamed: ]. *)
Theorem X16_fix_headers_leaves_plain_text (s : self) :
  (output s = None -> fix_headers s = (Raise FileNotFoundError, s))
  /\ (forall written,
         output s = Some written ->
         PyStr.contains (String PyStr.carriage EmptyString) written = false ->
         PyStr.contains PyStr.unnamed_prefix written = false ->
         fix_headers s = (Ok tt, s)).
Proof.
  unfold fix_headers, bind, get, raise, modify. split.
  - now intros ->.
  - intros written Hout Hcr Hun. rewrite Hout.
    rewrite (universal_newlines_plain _ Hcr).
    unfold PyStr.sub_unnamed. rewrite (sub_from_no_match _ Hun).
    rewrite <- Hout. now destruct s.
Qed.

(** A character that does not occur in a pattern cannot complete it. *)
Lemma prefix_app_false (p a y : string) (c : ascii) :
  PyStr.contains (String c EmptyString) p = false ->
  prefix p a = false -> prefix p (a +++ String c y) = false.
Proof.
  revert a. induction p as [|q p IH]; intros a Hc Ha;
    [destruct a; discriminate Ha|].
  apply contains_char_cons in Hc as [Hq Hp].
  destruct a as [|b a]; cbn [String.append prefix] in *.
  - destruct (ascii_dec q c); [contradiction | reflexivity].
  - destruct (ascii_dec q b); [now apply IH | reflexivity].
Qed.

Lemma unnamed_prefix_app_false (c : ascii) (a y : string) :
  prefix PyStr.unnamed_prefix (String c a) = false ->
  prefix PyStr.unnamed_prefix (String c a +++ String "U" y) = false.
Proof.
  unfold PyStr.unnamed_prefix. cbn [String.append prefix].
  destruct (ascii_dec "U" c); [|reflexivity].
  now apply prefix_app_false.
Qed.

Lemma sub_from_before_match (a y : string) :
  PyStr.contains PyStr.unnamed_prefix a = false ->
  PyStr.sub_from 0 (a +++ String "U" y) = a +++ PyStr.sub_from 0 (String "U" y).
Proof.
  induction a as [|c a IH]; intro H; [reflexivity|].
  cbn [PyStr.contains] in H. apply orb_false_elim in H as [Hp Hs].
  cbn [String.append PyStr.sub_from].
  change (String c (a +++ String "U" y)) with (String c a +++ String "U" y).
  rewrite (match_len_no_prefix _ (unnamed_prefix_app_false c a y Hp)).
  cbn [String.append]. now rewrite (IH Hs).
Qed.

Lemma sub_from_skip (x b : string) :
  PyStr.sub_from (String.length x) (x +++ b) = PyStr.sub_from 0 b.
Proof.
  induction x as [|c x IH]; [reflexivity|].
  cbn [String.length String.append PyStr.sub_from]. exact IH.
Qed.

Lemma digits_run_app (ds b : string) :
  PyStr.digits_run ds = String.length ds -> PyStr.digits_run b = 0 ->
  PyStr.digits_run (ds +++ b) = String.length ds.
Proof.
  induction ds as [|c ds IH]; intros Hd Hb; [exact Hb|].
  cbn [PyStr.digits_run String.length String.append] in *.
  destruct (PyStr.is_digit c); [|discriminate]. f_equal. apply IH; [lia | exact Hb].
Qed.

Lemma sub_from_head (c : ascii) (s : string) :
  PyStr.sub_from 0 (String c s)
  = match PyStr.match_len (String c s) with
    | Some n => PyStr.sub_from (n - 1) s
    | None => String c (PyStr.sub_from 0 s)
    end.
Proof. reflexivity. Qed.

(** The pattern matches the prefix and all the digits that follow. *)
Lemma match_len_placeholder (ds b : string) :
  ds <> EmptyString ->
  PyStr.digits_run ds = String.length ds -> PyStr.digits_run b = 0 ->
  PyStr.match_len (PyStr.unnamed_prefix +++ ds +++ b)
  = Some (String.length PyStr.unnamed_prefix + String.length ds).
Proof.
  intros Hne Hd Hb. pose proof (digits_run_app ds b Hd Hb) as Hrun.
  destruct ds as [|c ds]; [contradiction|].
  unfold PyStr.match_len.
  cbn [prefix PyStr.unnamed_prefix Ascii.ascii_dec Ascii.ascii_rec
       Ascii.ascii_rect sumbool_rec sumbool_rect Bool.bool_dec bool_rec
       bool_rect String.length substring Nat.sub String.append].
  rewrite (substring_all (ds +++ b)).
  change (String c (ds +++ b)) with (String c ds +++ b).
  rewrite Hrun. reflexivity.
Qed.

(** X15. The substitution of [fix_headers] removes the name pandas
    gave to a nameless column wherever it stands: in a text made of
    [a], the name [Unnamed: i] and [b], where [a] does not hold the
    characters [Unnamed: ] and [b] does not start with a digit, [a] is
    kept, the name is dropped whatever the position [i], and the
    substitution goes on in [b]. *)
Theorem X15_fix_headers_blanks_the_placeholder (a b : string) (i : nat) :
  PyStr.contains PyStr.unnamed_prefix a = false ->
  PyStr.digits_run b = 0 ->
  PyStr.sub_unnamed (a +++ column_name i EmptyString +++ b)
  = a +++ PyStr.sub_unnamed b.
Proof.
  intros Ha Hb. unfold PyStr.sub_unnamed, column_name.
  cbn [PyStr.is_empty].
  pose proof (of_nat_not_empty i) as Hne.
  pose proof (string_of_uint_digits (Nat.to_uint i)) as Hd.
  fold (PyStr.of_nat i) in Hd.
  generalize dependent (PyStr.of_nat i). intros ds Hne Hd.
  rewrite append_assoc3.
  change ("Unnamed: " +++ ds +++ b)
    with (String "U" ("nnamed: " +++ ds +++ b)).
  rewrite (sub_from_before_match a _ Ha). f_equal.
  rewrite sub_from_head.
  change (String "U" ("nnamed: " +++ ds +++ b))
    with (PyStr.unnamed_prefix +++ ds +++ b).
  rewrite (match_len_placeholder ds b Hne Hd Hb).
  rewrite <- (sub_from_skip ("nnamed: " +++ ds) b).
  rewrite append_assoc3. reflexivity.
Qed.

(** ** The Loader on a survey within [MAX_COLUMNS] *)

Lemma mapi_from_map {A B C} (f : nat -> B -> C) (g : A -> B) (l : list A)
      (k : nat) :
  mapi_from k f (map g l) = mapi_from k (fun i x => f i (g x)) l.
Proof.
  revert k. induction l as [|a l IH]; intro k; simpl; [reflexivity|].
  now rewrite IH.
Qed.

Lemma mapi_from_ext_in {A B} (f g : nat -> A -> B) (l : list A) (k : nat) :
  (forall i x, In x l -> f i x = g i x) -> mapi_from k f l = mapi_from k g l.
Proof.
  revert k. induction l as [|a l IH]; intros k H; simpl; [reflexivity|].
  rewrite (H k a (or_introl eq_refl)). f_equal. apply IH.
  intros i x Hx. apply H. now right.
Qed.

Lemma mapi_from_app {A B} (f : nat -> A -> B) (l l' : list A) (k : nat) :
  mapi_from k f (l ++ l')
  = mapi_from k f l ++ mapi_from (k + List.length l) f l'.
Proof.
  revert k. induction l as [|a l IH]; intro k; simpl.
  - now rewrite Nat.add_0_r.
  - rewrite IH. now replace (S k + List.length l) with (k + S (List.length l)) by lia.
Qed.

Lemma mapi_from_converters (nconv : nat) (g : nat -> string -> cell)
      (l : list string) (k : nat) :
  k + List.length l <= nconv ->
  mapi_from k (fun j x => if j <? nconv then CStr x else g j x) l = map CStr l.
Proof.
  revert k. induction l as [|a l IH]; intros k Hk; simpl in *; [reflexivity|].
  destruct (Nat.ltb_spec k nconv); [|lia]. f_equal. apply IH. lia.
Qed.

Lemma read_csv_columns (infer : list string -> list cell) (nconv : nat)
      (c : csv) (d : DataFrame) :
  read_csv infer nconv (Some c) = Ok d ->
  columns d = mapi column_name (header c).
Proof.
  unfold read_csv. destruct (header c) as [|h hs]; [discriminate|].
  destruct (forallb _ (records c)); [|discriminate].
  intro H. inversion H. reflexivity.
Qed.

(** X1. Of a survey file whose header has at most [MAX_COLUMNS] fields,
    whose column names, once the nameless ones are numbered, are all
    different, and whose records are no longer than the header, the
    Loader makes a frame with those names in which every cell is the
    text of its field, unchanged, a field missing at the end of a
    record is the empty string, and the rows are labelled 0, 1, 2, ...
    in file order; the type inference of pandas has no say. *)
Theorem X1_loader_reads_every_field_as_text
        (infer : list string -> list cell) (c : csv) :
  header c <> [] ->
  List.length (header c) <= MAX_COLUMNS ->
  NoDup (mapi column_name (header c)) ->
  (forall r, In r (records c) -> List.length r <= List.length (header c)) ->
  exists d,
    read_csv infer MAX_COLUMNS (Some c) = Ok d
    /\ columns d = mapi column_name (header c)
    /\ rows d = mapi (fun i r => (i, map CStr (pad (List.length (header c)) r)))
                     (records c)
    /\ strings_frame d = true.
Proof.
  intros Hne Hn _ Hrec.
  assert (Hwide : forallb (fun r => List.length r <=? List.length (header c))
                          (records c) = true).
  { apply forallb_forall. intros r Hr. apply Nat.leb_le. now apply Hrec. }
  destruct (read_csv infer MAX_COLUMNS (Some c)) as [d|e] eqn:Hread.
  - exists d. split; [reflexivity|].
    split; [exact (read_csv_columns _ _ _ _ Hread)|].
    split; [|exact (proj1 (read_csv_strings _ _ _ _ Hn Hread))].
    unfold read_csv in Hread.
    destruct (header c) as [|h hs] eqn:Eh; [contradiction|].
    rewrite Hwide in Hread. inversion Hread; subst d; clear Hread.
    cbn [rows]. unfold mapi. rewrite mapi_from_map.
    apply mapi_from_ext_in. intros i r Hr. f_equal.
    apply mapi_from_converters.
    rewrite pad_length by (now apply Hrec). exact Hn.
  - exfalso. unfold read_csv in Hread.
    destruct (header c) as [|h hs] eqn:Eh; [contradiction|].
    rewrite Hwide in Hread. discriminate Hread.
Qed.

Lemma contains_unnamed_placeholder (i : nat) :
  PyStr.contains "Unnamed" (column_name i EmptyString) = true.
Proof.
  unfold column_name. cbn [PyStr.is_empty String.append PyStr.contains].
  replace (prefix "Unnamed" _) with true; [reflexivity|].
  cbn [prefix Ascii.ascii_dec Ascii.ascii_rec Ascii.ascii_rect sumbool_rec
       sumbool_rect Bool.bool_dec bool_rec bool_rect]. reflexivity.
Qed.

(** What [run] hands to the mode method when the last field of the
    header is empty: the frame the Loader read, the lines of the token
    file, the number of rows less one, and [bad_token_column] set to
    the name pandas gave that column. *)
Lemma run_with_nameless_last_column
        (infer : list string -> list cell) (c : csv) (text : string)
        (s0 : self) (d : DataFrame) (names : list string) :
  header c = names ++ [EmptyString] ->
  read_csv infer MAX_COLUMNS (Some c) = Ok d ->
  exists s,
    run infer (Some c) (Some text) s0
    = (if list_only s0 then run_list else run_delete) s
    /\ df s = d
    /\ token_list s = PyStr.split_nl text
    /\ total_responses s = (Z.of_nat (len d) - 1)%Z
    /\ bad_token_column s = Some (column_name (List.length names) EmptyString)
    /\ exists jb,
         get_loc (column_name (List.length names) EmptyString) (columns d)
         = Some jb.
Proof.
  intros Hheader Hread.
  assert (Hlast : rev (columns d)
                  = column_name (List.length names) EmptyString
                    :: rev (mapi column_name names)).
  { rewrite (read_csv_columns _ _ _ _ Hread), Hheader. unfold mapi.
    rewrite mapi_from_app, rev_app_distr. reflexivity. }
  exists (loaded s0 d text (column_name (List.length names) EmptyString)).
  split; [exact (run_loaded infer c text s0 d _ _ Hread Hlast)|].
  unfold loaded. rewrite contains_unnamed_placeholder.
  repeat split.
  apply get_loc_of_In. apply in_rev. rewrite Hlast. now left.
Qed.


(** ** A table without the token column or the identifier column *)

Lemma bind_raise {A B} (m : M A) (k : A -> M B) (s s' : self) (e : exn) :
  m s = (Raise e, s') -> bind m k s = (Raise e, s').
Proof. intro H. unfold bind. now rewrite H. Qed.

Lemma duplicated_no_column (d : DataFrame) (name : string) :
  get_loc name (columns d) = None -> frame_empty d = false ->
  duplicated d name = Raise KeyError
  /\ drop_duplicates d name = Raise KeyError.
Proof.
  intros Hj He. unfold drop_duplicates, duplicated, getitem.
  now rewrite He, Hj.
Qed.

(** Without a token column Column Repair stops at the first record it
    looks at, or has no record to look at. *)
Lemma repair_pass_no_token (s : self) :
  get_loc WCA_TOKEN_FIELD (columns (df s)) = None ->
  (if truthy (bad_token_column s) then fix_token_position else ret tt) s
  = (Ok tt, s)
  \/ (if truthy (bad_token_column s) then fix_token_position else ret tt) s
     = (Raise KeyError, s).
Proof.
  intro Hj. destruct (truthy (bad_token_column s)); [|now left].
  unfold fix_token_position. rewrite bind_get. cbn [iloc_from rows columns].
  destruct (skipn 1 (rows (df s))) as [|[label row] rest]; [now left|].
  right. unfold enumerate, mapi. cbn [mapi_from for_each].
  apply bind_raise. cbn [fix_token_position_body].
  apply bind_raise. unfold lift, row_getitem. now rewrite Hj.
Qed.

Lemma delete_duplicates_no_token (s : self) :
  get_loc WCA_TOKEN_FIELD (columns (df s)) = None ->
  frame_empty (df s) = false ->
  delete_duplicates s
  = (Raise KeyError,
     set_logger
       (logger s ++ [(Info, "Checking responses with duplicated tokens...")]) s).
Proof.
  intros Hj He. destruct (duplicated_no_column _ _ Hj He) as [_ Hdrop].
  unfold delete_duplicates, linfo, log. rewrite bind_modify, bind_get.
  apply bind_raise. unfold delete_older_duplicates. rewrite bind_get.
  apply bind_raise. unfold lift. cbn [df set_logger]. now rewrite Hdrop.
Qed.

Lemma list_duplicates_no_token (s : self) :
  get_loc WCA_TOKEN_FIELD (columns (df s)) = None ->
  frame_empty (df s) = false ->
  list_duplicates s
  = (Raise KeyError,
     set_logger
       (logger s ++ [(Info, "Checking responses with duplicated tokens...")]) s).
Proof.
  intros Hj He. destruct (duplicated_no_column _ _ Hj He) as [Hdup _].
  unfold list_duplicates, linfo, log. rewrite bind_modify.
  apply bind_raise. unfold delete_older_duplicates. rewrite bind_get.
  apply bind_raise. unfold lift. cbn [df set_logger]. now rewrite Hdup.
Qed.

Lemma list_duplicates_no_id (s : self) (j : nat) :
  get_loc WCA_TOKEN_FIELD (columns (df s)) = Some j ->
  get_loc ID_FIELD (columns (df s)) = None ->
  list_duplicates s
  = (Raise KeyError,
     set_logger
       (logger s ++ [(Info, "Checking responses with duplicated tokens...")]) s).
Proof.
  intros Hj Hid. unfold list_duplicates, linfo, log. rewrite bind_modify.
  set (s1 := set_logger _ s).
  rewrite (bind_step _ _ _ _ _ (delete_older_duplicates_list s1 j Hj)).
  rewrite bind_get. apply bind_raise. unfold lift, getitem.
  cbn [getitem_mask columns]. change (df s1) with (df s). now rewrite Hid.
Qed.

(** X4. A table that has rows and columns but no column [wca_token]
    ends either mode in a [KeyError] that nothing catches: in Column
    Repair when an overflow column was detected and the table has a
    second row, in the Deduplicator otherwise.  The frame is left as it
    was and nothing is written. *)
Theorem X4_missing_token_column_raises (s : self) :
  get_loc WCA_TOKEN_FIELD (columns (df s)) = None ->
  frame_empty (df s) = false ->
  (fst (run_delete s) = Raise KeyError
   /\ df (snd (run_delete s)) = df s
   /\ output (snd (run_delete s)) = output s)
  /\ (fst (run_list s) = Raise KeyError
      /\ df (snd (run_list s)) = df s
      /\ output (snd (run_list s)) = output s).
Proof.
  intros Hj He.
  set (s1 := set_logger (logger s ++ [(Info, "Fixing columns...")]) s).
  assert (Hj1 : get_loc WCA_TOKEN_FIELD (columns (df s1)) = None) by exact Hj.
  assert (He1 : frame_empty (df s1) = false) by exact He.
  split.
  - unfold run_delete, linfo, log. rewrite bind_modify, bind_get. fold s1.
    destruct (repair_pass_no_token s1 Hj1) as [H|H].
    + rewrite (bind_step _ _ _ _ _ H).
      rewrite (bind_raise _ _ _ _ _ (delete_duplicates_no_token s1 Hj1 He1)).
      repeat split.
    + rewrite (bind_raise _ _ _ _ _ H). repeat split.
  - unfold run_list, linfo, log. rewrite bind_modify, bind_get. fold s1.
    destruct (repair_pass_no_token s1 Hj1) as [H|H].
    + rewrite (bind_step _ _ _ _ _ H).
      rewrite (bind_raise _ _ _ _ _ (list_duplicates_no_token s1 Hj1 He1)).
      repeat split.
    + rewrite (bind_raise _ _ _ _ _ H). repeat split.
Qed.

(** X17. List mode needs the column [Respondent ID] and delete mode
    does not: on a table that delete mode processes to its end but that
    has no such column, list mode ends in a [KeyError] when it reads the
    identifiers of the marked records, whether or not any record is
    marked, and writes nothing. *)
Theorem X17_list_mode_needs_the_identifier_column (s : self) :
  ready s ->
  get_loc ID_FIELD (columns (df s)) = None ->
  fst (run_list s) = Raise KeyError
  /\ output (snd (run_list s)) = output s
  /\ fst (run_delete s) = Ok tt.
Proof.
  intros Hready Hid.
  assert (Hlist : run_list s
            = (Raise KeyError,
               set_logger
                 (logger s ++ [(Info, "Fixing columns...");
                               (Info, "Checking responses with duplicated tokens...")])
                 (set_df (repair_frame (bad_token_column s) (df s)) s))).
  { unfold run_list, linfo, log. rewrite bind_modify, bind_get.
    set (s1 := set_logger (logger s ++ [(Info, "Fixing columns...")]) s).
    assert (H1 : ready s1) by exact Hready.
    rewrite (bind_step _ _ _ _ _ (repair_pass_frame s1 H1)).
    pose proof (repair_pass_keeps_ready s1 H1) as H2.
    set (s2 := set_df (repair_frame (bad_token_column s1) (df s1)) s1) in *.
    destruct H2 as [_ [_ [[j Hj2] _]]].
    assert (Hid2 : get_loc ID_FIELD (columns (df s2)) = None)
      by (unfold s2; cbn [df set_df]; now rewrite repair_frame_columns).
    rewrite (bind_raise _ _ _ _ _ (list_duplicates_no_id s2 j Hj2 Hid2)).
    unfold s2, s1. cbn. now rewrite <- app_assoc. }
  rewrite Hlist. cbn [fst snd].
  split; [reflexivity|]. split; [reflexivity|].
  exact (proj1 (run_delete_frame s Hready)).
Qed.

(** ** A survey export from file to file *)

(** X18. A survey of at most [MAX_COLUMNS] columns whose header ends
    with an empty field and has the columns [wca_token] and
    [Respondent ID] is processed to the end by [run] in either mode,
    given any token file, and a file is written. *)
Theorem X18_survey_export_is_processed_to_the_end
        (infer : list string -> list cell) (c : csv) (text : string)
        (s0 : self) (d : DataFrame) (names : list string) :
  header c = names ++ [EmptyString] ->
  List.length (header c) <= MAX_COLUMNS ->
  read_csv infer MAX_COLUMNS (Some c) = Ok d ->
  In WCA_TOKEN_FIELD (columns d) ->
  In ID_FIELD (columns d) ->
  fst (run infer (Some c) (Some text) s0) = Ok tt
  /\ exists written,
       output (snd (run infer (Some c) (Some text) s0)) = Some written.
Proof.
  intros Hheader Hn Hread Hwca Hid.
  destruct (read_csv_strings infer _ c d Hn Hread) as [Hstr Hidx].
  destruct (run_with_nameless_last_column
              infer c text s0 d names Hheader Hread)
    as [s [Hrun [Hdf [_ [_ [Hbad [jb Hjb]]]]]]].
  rewrite Hrun.
  assert (Hready : ready_list s).
  { unfold ready_list, ready. rewrite Hdf, Hbad.
    split; [split; [exact Hstr|]|].
    - split; [rewrite Hidx; apply seq_NoDup|].
      split; [now apply get_loc_of_In|].
      intros bad Hb. inversion Hb; subst bad. now exists jb.
    - split; [exact Hidx|]. split; [now apply get_loc_of_In | now eexists]. }
  destruct (list_only s0).
  - destruct (get_loc_of_In ID_FIELD (columns (df s))) as [jid Hjid];
      [now rewrite Hdf|].
    destruct (run_list_frame s jid Hready Hjid)
      as [ids [Hok [_ [_ [_ [Hout _]]]]]].
    split; [exact Hok | now exists (lines ids)].
  - destruct (run_delete_completes s (proj1 Hready)) as [Hok [_ Hout]].
    split; [exact Hok | eexists; exact Hout].
Qed.

(** * The properties at the sample inputs *)

Example sample_frame_is_loaded :
  read_csv infer_dtype MAX_COLUMNS (Some survey_with_overflow) = Ok sample_frame
  /\ read_csv infer_dtype MAX_COLUMNS (Some survey_without_overflow) = Ok plain_frame.
Proof. split; reflexivity. Qed.

(** The token file ends with a line feed, so the empty string is one of
    its tokens. *)
Example empty_string_is_a_token :
  fst (is_valid EmptyString (sample_self false)) = Ok true.
Proof. reflexivity. Qed.

Lemma C2_sample :
  fst (fix_token_position (sample_self true)) = Ok tt
  /\ exists row',
      nth_error (rows (df (snd (fix_token_position (sample_self true))))) 5
      = Some (5, row')
      /\ row_getitem (columns (df (snd (fix_token_position (sample_self true)))))
                     row' (Some WCA_TOKEN_FIELD)
         = Ok (CStr (PyStr.strip B64)).
Proof.
  apply (C2_column_repair_moves_token (sample_self true) "Unnamed: 2" 4 5
           [CStr "5"; CStr " "; CStr B64] " " B64); reflexivity.
Defined.

Lemma C3_sample :
  (exists e,
      fst (run infer_dtype (Some survey_without_overflow) (Some token_file)
               (init true)) = Raise e)
  /\ fst (run infer_dtype (Some survey_without_overflow) (Some token_file)
              (init false)) = Ok tt.
Proof.
  split.
  - exact (proj1 (C3_list_mode_raises_without_overflow_column
                    infer_dtype survey_without_overflow token_file (init true)
                    plain_frame "wca_token" ["Respondent ID"]
                    eq_refl eq_refl eq_refl) eq_refl).
  - apply (proj2 (C3_list_mode_raises_without_overflow_column
                    infer_dtype survey_without_overflow token_file (init false)
                    plain_frame "wca_token" ["Respondent ID"]
                    eq_refl eq_refl eq_refl) eq_refl).
    + apply Nat.leb_le. reflexivity.
    + right. left. reflexivity.
Defined.

Lemma C4_sample :
  exists mask d,
    delete_older_duplicates true (sample_self true) = (Ok (Some mask), sample_self true)
    /\ delete_older_duplicates false (sample_self true)
       = (Ok None, set_df d (sample_self true))
    /\ mask = duplicated_from [] (map (token_at 1) (rows (df (sample_self true))))
    /\ List.length mask = len (df (sample_self true))
    /\ (forall i r, nth_error (rows (df (sample_self true))) i = Some r ->
          (nth i mask false = true <->
           exists i' r', i' < i /\ nth_error (rows (df (sample_self true))) i' = Some r'
                         /\ token_at 1 r' = token_at 1 r))
    /\ columns d = columns (df (sample_self true))
    /\ rows d = mask_select (map negb mask) (rows (df (sample_self true)))
    /\ (forall t, with_token 1 t (rows d)
                  = firstn 1 (with_token 1 t (rows (df (sample_self true))))).
Proof.
  apply (C4_deduplicator_keeps_first_occurrence (sample_self true) 1).
  reflexivity.
Defined.

Lemma C5_sample :
  (fst (validate_delete (sample_self false)) = Ok tt
   /\ ~ In 3 (index (df (snd (validate_delete (sample_self false))))))
  /\ (fst (validate_list (sample_self true)) = Ok tt
      /\ In (CStr "3") (to_delete (snd (validate_list (sample_self true))))).
Proof.
  pose proof (C5_empty_token_fails_validation (sample_self false) 2 3
                [CStr "3"; CStr ""; CStr ""] EmptyString
                eq_refl eq_refl eq_refl eq_refl) as [Hdelete _].
  pose proof (C5_empty_token_fails_validation (sample_self true) 2 3
                [CStr "3"; CStr ""; CStr ""] EmptyString
                eq_refl eq_refl eq_refl eq_refl) as [_ Hlist].
  split.
  - apply Hdelete. change (NoDup (seq 0 7)). apply seq_NoDup.
  - exact (Hlist (CStr "3") eq_refl eq_refl).
Defined.

Lemma C6_sample :
  exists fails ids,
    to_delete (snd (validate_list (snd (list_duplicates (sample_self true)))))
    = to_delete (snd (list_duplicates (sample_self true))) ++ fails
    /\ fst (write_list (snd (validate_list (snd (list_duplicates (sample_self true))))))
       = Ok tt
    /\ output (snd (write_list (snd (validate_list (snd (list_duplicates (sample_self true)))))))
       = Some (lines ids)
    /\ map CStr ids
       = clean (to_delete (snd (list_duplicates (sample_self true))) ++ fails)
    /\ NoDup ids
    /\ (forall x, In x ids <->
                  In (CStr x) (to_delete (snd (list_duplicates (sample_self true))))
                  \/ In (CStr x) fails)
    /\ (forall i j x y,
           nth_error ids i = Some x -> nth_error ids j = Some y -> i < j ->
           exists p q,
             first_pos (CStr x)
               (to_delete (snd (list_duplicates (sample_self true))) ++ fails) = Some p
             /\ first_pos (CStr y)
                  (to_delete (snd (list_duplicates (sample_self true))) ++ fails) = Some q
             /\ p < q).
Proof.
  apply (C6_deletion_list_has_no_duplicates
           (snd (list_duplicates (sample_self true)))
           (map (token_at 2) (rows sample_frame))); reflexivity.
Defined.

(** In the sample the identifier 6 comes from the mask and from the
    validation pass, and is written once. *)
Example deletion_list_of_the_sample :
  to_delete (snd (list_duplicates (sample_self true))) = [CStr "2"; CStr "6"]
  /\ to_delete (snd (validate_list (snd (list_duplicates (sample_self true)))))
     = [CStr "2"; CStr "6"; CStr "3"; CStr "4"; CStr "5"; CStr "6"]
  /\ output (snd (run_list (sample_self true)))
     = Some (lines ["2"; "6"; "3"; "4"]).
Proof. repeat split; reflexivity. Qed.

Lemma C7_sample :
  run infer_dtype None (Some token_file) (init false)
  = (Raise (SystemExit 1),
     set_logger [(Verbose, "Opening files..."); (Err, "Survey file not found.")]
                (init false))
  /\ run infer_dtype (Some survey_without_overflow) None (init false)
     = (Raise FileNotFoundError,
        set_df plain_frame
               (set_logger [(Verbose, "Opening files...")] (init false))).
Proof.
  destruct (C7_missing_token_file_is_not_handled
              infer_dtype survey_without_overflow plain_frame
              (Some token_file) (init false)) as [Hsurvey Htokens].
  split; [exact Hsurvey | apply Htokens; reflexivity].
Defined.

(** C8, as the spec states it, fails at [survey_with_overflow]: the
    list-mode run completes and leaves a frame that differs from the one
    the Loader produced, the token of respondent 5 having been filled in
    from the overflow column. *)
Lemma C8_list_mode_changes_the_table :
  read_csv infer_dtype MAX_COLUMNS (Some survey_with_overflow) = Ok sample_frame
  /\ fst (run infer_dtype (Some survey_with_overflow) (Some token_file)
              (init true)) = Ok tt
  /\ nth_error (rows sample_frame) 5 = Some (5, [CStr "5"; CStr " "; CStr B64])
  /\ nth_error
       (rows (df (snd (run infer_dtype (Some survey_with_overflow)
                           (Some token_file) (init true))))) 5
     = Some (5, [CStr "5"; CStr B64; CStr B64])
  /\ df (snd (run infer_dtype (Some survey_with_overflow) (Some token_file)
                  (init true)))
     <> sample_frame.
Proof.
  split; [reflexivity|]. split; [vm_compute; reflexivity|].
  split; [reflexivity|]. split; [vm_compute; reflexivity|].
  intro H. apply (f_equal (fun d => nth_error (rows d) 5)) in H.
  vm_compute in H. discriminate H.
Qed.

Lemma sample_self_ready (list_only_arg : bool) : ready (sample_self list_only_arg).
Proof.
  split; [reflexivity|]. split; [change (NoDup (seq 0 7)); apply seq_NoDup|].
  split; [now exists 1|].
  intros name H. injection H as <-. now exists 2.
Defined.

Lemma sample_self_ready_list : ready_list (sample_self true).
Proof.
  split; [apply sample_self_ready|]. split; [reflexivity|].
  split; [now exists 0 | now exists "Unnamed: 2"].
Defined.

Lemma C8_sample :
  same_but_token (df (sample_self true)) (df (snd (run_list (sample_self true))))
  /\ df (snd (run_list (sample_self true)))
     = repair_frame (bad_token_column (sample_self true)) (df (sample_self true))
  /\ nth_error (rows (df (snd (run_list (sample_self true))))) 5
     = Some (5, [CStr "5"; CStr B64; CStr B64])
  /\ nth_error (rows (df (snd (run_list (sample_self true))))) 4
     = Some (4, [CStr "4"; CStr "short"; CStr ""])
  /\ df (snd (run_list plain_self)) = df plain_self.
Proof.
  destruct (C8_list_mode_changes_only_repaired_tokens (sample_self true))
    as [Hsame [_ Hrepaired]].
  destruct (Hrepaired (sample_self_ready true)) as [Hdf Hrows].
  destruct (C8_list_mode_changes_only_repaired_tokens plain_self)
    as [_ [Hplain _]].
  assert (Hname : "Unnamed: 2" <> EmptyString) by discriminate.
  split; [exact Hsame|]. split; [exact Hdf|]. split; [|split].
  - exact (Hrows "Unnamed: 2" 1 4 5 [CStr "5"; CStr " "; CStr B64] " " B64
             eq_refl Hname eq_refl eq_refl eq_refl eq_refl).
  - exact (Hrows "Unnamed: 2" 1 3 4 [CStr "4"; CStr "short"; CStr ""]
             "short" EmptyString
             eq_refl Hname eq_refl eq_refl eq_refl eq_refl).
  - exact (Hplain eq_refl).
Defined.

Lemma C10_sample :
  (exists m,
      delete_older_duplicates true (blank_self true)
      = (Ok (Some (false :: m)), blank_self true)
      /\ forall i r,
          nth_error [(1, [CStr "1"; CStr A64]); (2, [CStr "2"; CStr ""]);
                     (3, [CStr "3"; CStr ""])] i = Some r ->
          token_at 1 r = token_at 1 (0, [CStr "Response ID"; CStr ""]) ->
          nth i m false = true)
  /\ (exists rest',
         delete_older_duplicates false (blank_self true)
         = (Ok None,
            set_df {| columns := columns (df (blank_self true));
                      rows := (0, [CStr "Response ID"; CStr ""]) :: rest' |}
                   (blank_self true))
         /\ forall r, In r rest' ->
                      In r [(1, [CStr "1"; CStr A64]); (2, [CStr "2"; CStr ""]);
                            (3, [CStr "3"; CStr ""])]
                      /\ token_at 1 r <> token_at 1 (0, [CStr "Response ID"; CStr ""]))
  /\ hd_error (rows (df (snd (fix_token_position (blank_self true)))))
     = Some (0, [CStr "Response ID"; CStr ""])
  /\ hd_error (rows (df (snd (validate_delete (blank_self true)))))
     = Some (0, [CStr "Response ID"; CStr ""]).
Proof.
  destruct (C10_deduplicator_scans_first_row (blank_self true) 1
              (0, [CStr "Response ID"; CStr ""])
              [(1, [CStr "1"; CStr A64]); (2, [CStr "2"; CStr ""]);
               (3, [CStr "3"; CStr ""])] eq_refl eq_refl)
    as [Hlist [Hdelete [Hrepair Hvalidate]]].
  split; [exact Hlist|]. split; [exact Hdelete|]. split; [exact Hrepair|].
  apply Hvalidate; [reflexivity|].
  change (NoDup (seq 0 4)). apply seq_NoDup.
Defined.

(** With an empty token in the first row, the later rows with an empty
    token are marked, and removed in delete mode, while the first row
    stays. *)
Example first_row_counts_as_first_occurrence :
  delete_older_duplicates true (blank_self true)
  = (Ok (Some [false; false; true; true]), blank_self true)
  /\ rows (df (snd (delete_older_duplicates false (blank_self false))))
     = [(0, [CStr "Response ID"; CStr ""]); (1, [CStr "1"; CStr A64])].
Proof. split; reflexivity. Qed.

(** ** Python strings at sample values *)

Example strip_sample : PyStr.strip "  ab c	 " = "ab c".
Proof. reflexivity. Qed.

Example split_nl_sample :
  PyStr.split_nl token_file = [A64; B64; EmptyString]
  /\ PyStr.split_nl EmptyString = [EmptyString].
Proof. split; reflexivity. Qed.

Example sub_unnamed_sample :
  PyStr.sub_unnamed "a,Unnamed: 12,Unnamed: ,Unnamed: 3x,Unnamed: 45Unnamed: 6"
  = "a,,Unnamed: ,x,".
Proof. reflexivity. Qed.

Example of_nat_sample :
  PyStr.of_nat 0 = "0" /\ PyStr.of_nat 120 = "120" /\ PyStr.of_Z (-7) = "-7".
Proof. repeat split; reflexivity. Qed.

(** ** The further properties at the sample inputs *)

Lemma X1_sample :
  exists d,
    read_csv infer_dtype MAX_COLUMNS (Some survey_with_overflow) = Ok d
    /\ columns d = mapi column_name (header survey_with_overflow)
    /\ rows d
       = mapi (fun i r =>
                 (i, map CStr (pad (List.length (header survey_with_overflow)) r)))
              (records survey_with_overflow)
    /\ strings_frame d = true.
Proof.
  refine (X1_loader_reads_every_field_as_text infer_dtype survey_with_overflow
            _ (proj1 (Nat.leb_le 3 MAX_COLUMNS) eq_refl) _ _).
  - discriminate.
  - change (NoDup ["Respondent ID"; "wca_token"; "Unnamed: 2"]).
    repeat (constructor; [cbn; intuition discriminate|]). constructor.
  - intros r Hr. apply Nat.leb_le.
    exact (proj1 (forallb_forall (fun x => List.length x <=? 3)
                    (records survey_with_overflow)) eq_refl r Hr).
Defined.


Lemma X3_sample :
  PyStr.split_nl (lines [A64; B64]) = [A64; B64] ++ [EmptyString]
  /\ ([A64; B64] <> [] -> PyStr.split_nl (PyStr.join PyStr.nl [A64; B64]) = [A64; B64]).
Proof.
  refine (X3_token_reader_inverts_lines [A64; B64] _).
  intros t [<-|[<-|[]]]; reflexivity.
Defined.

Lemma X4_sample :
  (fst (run_delete tokenless_self) = Raise KeyError
   /\ df (snd (run_delete tokenless_self)) = df tokenless_self
   /\ output (snd (run_delete tokenless_self)) = output tokenless_self)
  /\ (fst (run_list tokenless_self) = Raise KeyError
      /\ df (snd (run_list tokenless_self)) = df tokenless_self
      /\ output (snd (run_list tokenless_self)) = output tokenless_self).
Proof.
  exact (X4_missing_token_column_raises tokenless_self eq_refl eq_refl).
Defined.

Lemma X5_sample :
  fst (fix_token_position (sample_self true)) = Ok tt
  /\ nth_error (rows (df (snd (fix_token_position (sample_self true))))) 4
     = Some (4, [CStr "4"; CStr "short"; CStr ""])
  /\ len (df (snd (fix_token_position (sample_self true))))
     = len (df (sample_self true)).
Proof.
  refine (X5_column_repair_leaves_other_records (sample_self true) "Unnamed: 2"
            3 4 [CStr "4"; CStr "short"; CStr ""] "short" EmptyString
            eq_refl eq_refl eq_refl eq_refl eq_refl _).
  left. discriminate.
Defined.

Lemma X6_sample :
  fst (validate_delete (sample_self false)) = Ok tt
  /\ df (snd (validate_delete (sample_self false)))
     = validated_frame (token_list (sample_self false)) (df (sample_self false))
  /\ deleted (snd (validate_delete (sample_self false)))
     + len (df (snd (validate_delete (sample_self false))))
     = deleted (sample_self false) + len (df (sample_self false)).
Proof.
  refine (X6_delete_validation_keeps_passing_records (sample_self false) 1
            eq_refl eq_refl _).
  change (NoDup (seq 0 7)). apply seq_NoDup.
Defined.

Lemma X7_sample :
  fst (validate_list (sample_self true)) = Ok tt
  /\ df (snd (validate_list (sample_self true))) = df (sample_self true)
  /\ token_list (snd (validate_list (sample_self true)))
     = token_list (sample_self true)
  /\ to_delete (snd (validate_list (sample_self true)))
     = to_delete (sample_self true)
       ++ ids_of 0
            (filter (fun r => negb (passes (columns (df (sample_self true)))
                                           (token_list (sample_self true)) r))
                    (skipn 1 (rows (df (sample_self true))))).
Proof.
  exact (X7_list_validation_collects_failing_records (sample_self true) 1 0
           eq_refl eq_refl eq_refl eq_refl).
Defined.

Lemma X8_sample :
  fst (run_delete (sample_self false)) = Ok tt
  /\ df (snd (run_delete (sample_self false)))
     = validated_frame (token_list (sample_self false))
         (dedup_frame (repair_frame (bad_token_column (sample_self false))
                                    (df (sample_self false))))
  /\ output (snd (run_delete (sample_self false)))
     = Some (PyStr.sub_unnamed
               (PyStr.universal_newlines
                  (to_csv (df (snd (run_delete (sample_self false))))))).
Proof.
  exact (X8_delete_mode_composes_the_passes (sample_self false)
           (sample_self_ready false)).
Defined.

Lemma X9_sample :
  In (5, [CStr "5"; CStr B64; CStr B64])
     (rows (df (snd (run_delete (sample_self false)))))
  <-> hd_error
        (with_token 1 (token_at 1 (5, [CStr "5"; CStr B64; CStr B64]))
           (rows (repair_frame (bad_token_column (sample_self false))
                               (df (sample_self false)))))
      = Some (5, [CStr "5"; CStr B64; CStr B64])
      /\ (hd_error (rows (repair_frame (bad_token_column (sample_self false))
                                       (df (sample_self false))))
          = Some (5, [CStr "5"; CStr B64; CStr B64])
          \/ passes (columns (df (sample_self false)))
                    (token_list (sample_self false))
                    (5, [CStr "5"; CStr B64; CStr B64]) = true).
Proof.
  exact (X9_delete_mode_keeps_first_valid_records (sample_self false) 1
           (5, [CStr "5"; CStr B64; CStr B64])
           (sample_self_ready false) eq_refl).
Defined.

Lemma X10_sample :
  deleted (snd (run_delete (sample_self false)))
  + len (df (snd (run_delete (sample_self false))))
  = deleted (sample_self false) + len (df (sample_self false)).
Proof.
  exact (X10_delete_mode_counts_removed_records (sample_self false)
           (sample_self_ready false)).
Defined.

Lemma tidy_self_ready : ready tidy_self.
Proof.
  split; [reflexivity|]. split; [change (NoDup (seq 0 3)); apply seq_NoDup|].
  split; [now exists 1|].
  intros name H. injection H as <-. now exists 2.
Defined.

Lemma X11_sample :
  fst (run_delete tidy_self) = Ok tt
  /\ df (snd (run_delete tidy_self)) = df tidy_self
  /\ deleted (snd (run_delete tidy_self)) = deleted tidy_self.
Proof.
  refine (X11_delete_mode_leaves_a_clean_table tidy_self 1 tidy_self_ready
            eq_refl _ _).
  - change (NoDup [CStr "Token"; CStr A64; CStr B64]).
    repeat (constructor; [cbn; intuition discriminate|]). constructor.
  - intros r [<-|[<-|[]]]; reflexivity.
Defined.

Lemma X12_sample :
  exists ids,
    fst (run_list (sample_self true)) = Ok tt
    /\ df (snd (run_list (sample_self true)))
       = repair_frame (bad_token_column (sample_self true)) (df (sample_self true))
    /\ to_delete (snd (run_list (sample_self true)))
       = flagged_ids 0 (token_list (sample_self true))
           (repair_frame (bad_token_column (sample_self true))
                         (df (sample_self true)))
    /\ map CStr ids = clean (to_delete (snd (run_list (sample_self true))))
    /\ output (snd (run_list (sample_self true))) = Some (lines ids)
    /\ deleted (snd (run_list (sample_self true))) = List.length ids.
Proof.
  exact (X12_list_mode_writes_the_flagged_identifiers (sample_self true) 0
           sample_self_ready_list eq_refl).
Defined.

Lemma X13_sample :
  exists ids,
    output (snd (run_list (sample_self true))) = Some (lines ids)
    /\ forall r, In r (rows (df (sample_self true))) ->
         (In (token_at 0 r) (map CStr ids)
          <-> ~ In (fst r) (index (df (snd (run_delete (sample_self true)))))).
Proof.
  refine (X13_list_mode_lists_what_delete_mode_removes (sample_self true) 0
            sample_self_ready_list eq_refl _).
  change (NoDup [CStr "Response ID"; CStr "1"; CStr "2"; CStr "3"; CStr "4";
                 CStr "5"; CStr "6"]).
  repeat (constructor; [cbn; intuition discriminate|]). constructor.
Defined.

Lemma X14_sample :
  clean (clean [CStr "2"; CStr "6"]) = clean [CStr "2"; CStr "6"]
  /\ List.length (clean [CStr "2"; CStr "6"]) <= 2
  /\ clean [CStr "2"; CStr "6"] = [CStr "2"; CStr "6"].
Proof.
  destruct (X14_clean_is_idempotent [CStr "2"; CStr "6"]) as [H1 [H2 H3]].
  split; [exact H1|]. split; [exact H2|]. apply H3.
  repeat (constructor; [cbn; intuition discriminate|]). constructor.
Defined.

Lemma X15_sample :
  PyStr.sub_unnamed
    ("Respondent ID,wca_token," +++ column_name 2 EmptyString
     +++ PyStr.nl +++ "1,abc,")
  = "Respondent ID,wca_token," +++ PyStr.sub_unnamed (PyStr.nl +++ "1,abc,").
Proof.
  exact (X15_fix_headers_blanks_the_placeholder
           "Respondent ID,wca_token," (PyStr.nl +++ "1,abc,") 2 eq_refl eq_refl).
Defined.

Lemma X16_sample :
  fix_headers (init false) = (Raise FileNotFoundError, init false)
  /\ fix_headers written_self = (Ok tt, written_self).
Proof.
  split.
  - exact (proj1 (X16_fix_headers_leaves_plain_text (init false)) eq_refl).
  - exact (proj2 (X16_fix_headers_leaves_plain_text written_self) _
             eq_refl eq_refl eq_refl).
Defined.

Lemma nameless_self_ready : ready nameless_self.
Proof.
  split; [reflexivity|]. split; [change (NoDup (seq 0 3)); apply seq_NoDup|].
  split; [now exists 0|].
  intros name H. injection H as <-. now exists 1.
Defined.

Lemma X17_sample :
  fst (run_list nameless_self) = Raise KeyError
  /\ output (snd (run_list nameless_self)) = output nameless_self
  /\ fst (run_delete nameless_self) = Ok tt.
Proof.
  exact (X17_list_mode_needs_the_identifier_column nameless_self
           nameless_self_ready eq_refl).
Defined.

Lemma X18_sample :
  fst (run infer_dtype (Some survey_with_overflow) (Some token_file) (init true))
  = Ok tt
  /\ exists written,
       output (snd (run infer_dtype (Some survey_with_overflow)
                        (Some token_file) (init true))) = Some written.
Proof.
  refine (X18_survey_export_is_processed_to_the_end
            infer_dtype survey_with_overflow token_file (init true)
            sample_frame ["Respondent ID"; "wca_token"]
            eq_refl (proj1 (Nat.leb_le 3 MAX_COLUMNS) eq_refl) eq_refl _ _).
  - right. left. reflexivity.
  - left. reflexivity.
Defined.
